(** * Game-design-review agents: orchestration and memory hooks

    A shallow embedding of the Python sources under [Agents/] and
    [Kiro building/]: the orchestrator's delegation tools and entrypoints
    ([game_analyst_agent.py]), the invocation client
    ([invoke_agent_utils.py]), the memory hooks ([memories.py]) and the
    specialist entrypoints ([lore_agent.py], [gameplay_agent.py],
    [strategy_agent.py]).

    Python values are an inductive type, dictionaries are finite maps,
    exceptions are the left summand of a sum, and module-level state and the
    calls made to external services are threaded through a state-and-error
    monad.  The strands agent loop, the memory store, the parameter store,
    the remote runtime and the language model are not part of the sources:
    they appear as oracles (records of functions and scripted model
    decisions) over which every theorem quantifies. *)

From Stdlib Require Import ZArith Ascii String.
From stdpp Require Import gmap strings list.

Set Warnings "-register-all".
Local Open Scope string_scope.
Local Open Scope list_scope.

(** ** Python values, truthiness and exceptions *)

Inductive pyval :=
| PNone
| PBool (b : bool)
| PInt (z : Z)
| PStr (s : string)
| PList (l : list pyval)
| PDict (d : gmap string pyval).

(** [bool(v)]: [None], [False], [0], the empty string, list and dict are
    falsy. *)
Definition truthy (v : pyval) : bool :=
  match v with
  | PNone => false
  | PBool b => b
  | PInt z => negb (Z.eqb z 0)
  | PStr s => negb (String.eqb s EmptyString)
  | PList l => match l with [] => false | _ => true end
  | PDict d => negb (bool_decide (d = ∅))
  end.

(** Exceptions deriving from [Exception] that the modelled code can meet.
    [ServiceError] stands for whatever a service client, the MCP connector or
    the model runtime raises. *)
Inductive exn :=
| KeyError (key : string)
| TypeError (msg : string)
| IndexError (msg : string)
| AttributeError (msg : string)
| JSONDecodeError (msg : string)
| ServiceError (msg : string).

(** [str(e)]: a [KeyError] prints the repr of its key. *)
Definition exn_str (e : exn) : string :=
  match e with
  | KeyError k => "'" +:+ k +:+ "'"
  | TypeError m | IndexError m | AttributeError m
  | JSONDecodeError m | ServiceError m => m
  end.

(** [type(e).__name__]. *)
Definition exn_name (e : exn) : string :=
  match e with
  | KeyError _ => "KeyError"
  | TypeError _ => "TypeError"
  | IndexError _ => "IndexError"
  | AttributeError _ => "AttributeError"
  | JSONDecodeError _ => "JSONDecodeError"
  | ServiceError _ => "Exception"
  end.

Definition result (A : Type) : Type := exn + A.

(** [v[key]] for a string key: only a dict can answer; a string, list,
    number or [None] raises [TypeError]. *)
Definition subscript (v : pyval) (key : string) : result pyval :=
  match v with
  | PDict d =>
      match d !! key with
      | Some x => inr x
      | None => inl (KeyError key)
      end
  | PStr _ => inl (TypeError "string indices must be integers")
  | PList _ => inl (TypeError "list indices must be integers or slices, not str")
  | PNone => inl (TypeError "'NoneType' object is not subscriptable")
  | PBool _ => inl (TypeError "'bool' object is not subscriptable")
  | PInt _ => inl (TypeError "'int' object is not subscriptable")
  end.

(** [d[key]] and [d.get(key)] on a dict. *)
Definition dict_item (d : gmap string pyval) (key : string) : result pyval :=
  match d !! key with
  | Some x => inr x
  | None => inl (KeyError key)
  end.

Definition dict_get (d : gmap string pyval) (key : string) : pyval :=
  default PNone (d !! key).

(** [l[0]] and [l[-1]]. *)
Definition first_item {A} (l : list A) : result A :=
  match l with
  | x :: _ => inr x
  | [] => inl (IndexError "list index out of range")
  end.

Definition last_item {A} (l : list A) : result A :=
  match last l with
  | Some x => inr x
  | None => inl (IndexError "list index out of range")
  end.

(** *** ASCII [str.lower], [str.title] and [str.join] *)

Definition is_upper (c : ascii) : bool :=
  let n := nat_of_ascii c in (65 <=? n)%nat && (n <=? 90)%nat.
Definition is_lower (c : ascii) : bool :=
  let n := nat_of_ascii c in (97 <=? n)%nat && (n <=? 122)%nat.
Definition to_lower (c : ascii) : ascii :=
  if is_upper c then ascii_of_nat (nat_of_ascii c + 32) else c.
Definition to_upper (c : ascii) : ascii :=
  if is_lower c then ascii_of_nat (nat_of_ascii c - 32) else c.

Fixpoint str_lower (s : string) : string :=
  match s with
  | EmptyString => EmptyString
  | String c s' => String (to_lower c) (str_lower s')
  end.

(** [str.title]: a cased character is upper-cased when the previous
    character is not cased and lower-cased otherwise. *)
Fixpoint title_from (prev_cased : bool) (s : string) : string :=
  match s with
  | EmptyString => EmptyString
  | String c s' =>
      if is_lower c || is_upper c
      then String (if prev_cased then to_lower c else to_upper c) (title_from true s')
      else String c (title_from false s')
  end.
Definition str_title (s : string) : string := title_from false s.

Fixpoint str_join (sep : string) (l : list string) : string :=
  match l with
  | [] => EmptyString
  | [x] => x
  | x :: rest => x +:+ sep +:+ str_join sep rest
  end.

Definition newline : string := String (ascii_of_nat 10) EmptyString.

(** ** Messages, agents and the memory store interface *)

(** A strands [Message]: a role and a list of content blocks; a content
    block is a dict with optional keys [text], [toolUse], [toolResult]. *)
Record message := Message {
  role : string;
  content : list (gmap string pyval)
}.

(** The part of a strands [Agent] object the sources read and write. *)
Record agent := Agent {
  system_prompt : string;
  messages : list message;
  state : gmap string pyval
}.

(** A conversational payload returned by [get_last_k_turns]:
    [{'role': r, 'content': {'text': t}}]. *)
Record conv_msg := ConvMsg {
  cm_role : string;
  cm_text : string
}.

(** The two operations consumed from [MemoryClient]; either may raise. *)
Record memory_client := MemoryClient {
  get_last_k_turns :
    string -> pyval -> pyval -> nat -> string -> result (list (list conv_msg));
  create_event :
    string -> pyval -> pyval -> list (pyval * string) -> result unit
}.

(** Configuration handed to [AgentCoreMemoryToolProvider]. *)
Record provider_cfg := ProviderCfg {
  p_memory_id : string;
  p_actor_id : pyval;
  p_session_id : pyval;
  p_namespace : string
}.

(** Calls that reach the memory service, in the order they are made. *)
Inductive mem_op :=
| OpGetLastK (memory_id : string) (actor session : pyval) (k : nat) (branch : string)
| OpCreateEvent (memory_id : string) (actor session : pyval)
    (msgs : list (pyval * string))
| OpProviderTool (cfg : provider_cfg) (input : pyval).

(** External services reached during one tool call. *)
Record world := World {
  ssm_get_parameter : string -> result string;
  invoke_agent_runtime : string -> string -> pyval -> result string;
  json_loads : string -> result pyval;
  ext_tool : string -> pyval -> result pyval
}.

(** ** Process state and the state-and-error monad *)

Record st := St {
  toolmetrics : list pyval;      (* the module-level list of game_analyst_agent.py *)
  the_agent : agent;             (* the Agent object of the running invocation *)
  mem_ops : list mem_op;         (* calls made to the memory service *)
  model_ctx : list (string * list message); (* what each model call was shown *)
  kb_next : nat;                 (* next MCP client identity *)
  kb_live : gset nat;            (* started, not yet stopped MCP clients *)
  kb_calls : list nat            (* client identity behind each KB request *)
}.

Definition M (A : Type) : Type := st -> result A * st.

Definition ret {A} (x : A) : M A := fun s => (inr x, s).
Definition raise {A} (e : exn) : M A := fun s => (inl e, s).
Definition bind {A B} (m : M A) (k : A -> M B) : M B :=
  fun s => match m s with
           | (inr x, s') => k x s'
           | (inl e, s') => (inl e, s')
           end.
Definition lift {A} (r : result A) : M A := fun s => (r, s).

(** [try: m except Exception as e: h e]. *)
Definition try_except {A} (m : M A) (h : exn -> M A) : M A :=
  fun s => match m s with
           | (inl e, s') => h e s'
           | r => r
           end.

(** [try: m finally: f]; an exception of [m] is re-raised after [f]. *)
Definition try_finally {A} (m : M A) (f : M unit) : M A :=
  fun s => match m s with
           | (r, s') =>
               match f s' with
               | (inr _, s'') => (r, s'')
               | (inl e, s'') => (inl e, s'')
               end
           end.

Declare Scope py_scope.
Delimit Scope py_scope with py.
Notation "x <- m ;; k" := (bind m (fun x => k))
  (at level 100, m at next level, right associativity) : py_scope.
Notation "m ;;; k" := (bind m (fun _ => k))
  (at level 100, right associativity) : py_scope.
Local Open Scope py_scope.

Definition modify (f : st -> st) : M unit := fun s => (inr tt, f s).

Definition set_toolmetrics (tm : list pyval) (s : st) : st :=
  St tm (the_agent s) (mem_ops s) (model_ctx s) (kb_next s) (kb_live s) (kb_calls s).
Definition set_agent (a : agent) (s : st) : st :=
  St (toolmetrics s) a (mem_ops s) (model_ctx s) (kb_next s) (kb_live s) (kb_calls s).
Definition add_mem_op (o : mem_op) (s : st) : st :=
  St (toolmetrics s) (the_agent s) (mem_ops s ++ [o]) (model_ctx s)
     (kb_next s) (kb_live s) (kb_calls s).
Definition add_model_ctx (s : st) : st :=
  St (toolmetrics s) (the_agent s) (mem_ops s)
     (model_ctx s ++ [(system_prompt (the_agent s), messages (the_agent s))])
     (kb_next s) (kb_live s) (kb_calls s).
Definition set_kb (n : nat) (live : gset nat) (calls : list nat) (s : st) : st :=
  St (toolmetrics s) (the_agent s) (mem_ops s) (model_ctx s) n live calls.

Definition get_agent : M agent := fun s => (inr (the_agent s), s).

(** ** invoke_agent_utils.py *)

(** [invoke_agent_with_boto3]: one blocking call to the remote runtime with
    qualifier [DEFAULT] and the payload [{"prompt": user_query}]; the body is
    returned as text and any failure of the call propagates. *)
Definition invoke_agent_with_boto3 (w : world) (agent_arn : string)
    (user_query : pyval) : M string :=
  lift (invoke_agent_runtime w agent_arn "DEFAULT"
          (PDict {[ "prompt" := user_query ]})).

(** ** memories.py *)

(** A call on the memory client is recorded, then answered by the store. *)
Definition call_get_last_k_turns (mc : memory_client) (memory_id : string)
    (actor_id session_id : pyval) (k : nat) (branch_name : string)
    : M (list (list conv_msg)) :=
  modify (add_mem_op (OpGetLastK memory_id actor_id session_id k branch_name)) ;;;
  lift (get_last_k_turns mc memory_id actor_id session_id k branch_name).

Definition call_create_event (mc : memory_client) (memory_id : string)
    (actor_id session_id : pyval) (msgs : list (pyval * string)) : M unit :=
  modify (add_mem_op (OpCreateEvent memory_id actor_id session_id msgs)) ;;;
  lift (create_event mc memory_id actor_id session_id msgs).

Definition history_header : string :=
  newline +:+ newline +:+ "Recent conversation history:" +:+ newline.
Definition history_footer : string :=
  newline +:+ newline
  +:+ "Continue the conversation naturally based on this context.".

(** The callbacks a hook provider registers with the strands
    [HookRegistry], by event. *)
Record registry := Registry {
  cb_agent_initialized : list (M unit);
  cb_message_added : list (M unit);
  cb_after_invocation : list (M unit)
}.

Definition empty_registry : registry := Registry [] [] [].

Module ShortTermMemoryHook.

(** The nested [for turn in recent_turns: for message in turn:] loop
    appending one formatted line per message. *)
Definition format_turn (context_messages : list string) (turn : list conv_msg)
    : list string :=
  fold_left
    (fun acc message =>
       let role := str_lower (cm_role message) in
       let content := cm_text message in
       acc ++ [str_title role +:+ ": " +:+ content])
    turn context_messages.

Definition format_turns (recent_turns : list (list conv_msg)) : list string :=
  fold_left format_turn recent_turns [].

Definition on_agent_initialized (memory_client : memory_client)
    (memory_id : string) : M unit :=
  try_except
    (ag <- get_agent ;;
     let actor_id := dict_get (state ag) "actor_id" in
     let session_id := dict_get (state ag) "session_id" in
     if negb (truthy actor_id) || negb (truthy session_id) then ret tt
     else
       recent_turns <-
         call_get_last_k_turns memory_client memory_id actor_id session_id 5 "main" ;;
       match recent_turns with
       | _ :: _ =>
           let context := str_join newline (format_turns recent_turns) in
           modify (fun s =>
             set_agent
               (Agent (system_prompt (the_agent s)
                       +:+ history_header +:+ context +:+ history_footer)
                      (messages (the_agent s)) (state (the_agent s))) s)
       | [] => ret tt
       end)
    (fun e => ret tt).

Definition on_message_added (memory_client : memory_client)
    (memory_id : string) : M unit :=
  ag <- get_agent ;;
  let messages := messages ag in
  try_except
    (let actor_id := dict_get (state ag) "actor_id" in
     let session_id := dict_get (state ag) "session_id" in
     if negb (truthy actor_id) || negb (truthy session_id) then ret tt
     else
       m <- lift (last_item messages) ;;
       b <- lift (first_item (content m)) ;;
       text <- lift (dict_item b "text") ;;
       call_create_event memory_client memory_id actor_id session_id
         [(text, role m)])
    (fun e => ret tt).

(** [register_hooks]: [MessageAddedEvent] and [AgentInitializedEvent]. *)
Definition register_hooks (memory_client : memory_client) (memory_id : string)
    (r : registry) : registry :=
  Registry
    (cb_agent_initialized r ++ [on_agent_initialized memory_client memory_id])
    (cb_message_added r ++ [on_message_added memory_client memory_id])
    (cb_after_invocation r).

End ShortTermMemoryHook.

Module LTMemoryHookProvider.

(** The loop [for msg in reversed(messages)] with its two accumulators;
    the argument is the already reversed list, the result is the value of
    [(user_msg, assistant_msg)] when the loop ends or breaks. *)
Fixpoint scan (msgs : list message) (user_msg assistant_msg : pyval)
    : pyval * pyval :=
  match msgs with
  | [] => (user_msg, assistant_msg)
  | msg :: rest =>
      match content msg with
      | [] => scan rest user_msg assistant_msg
      | b :: _ =>
          if String.eqb (role msg) "assistant" && negb (truthy assistant_msg)
          then scan rest user_msg (dict_get b "text")
          else if String.eqb (role msg) "user" && negb (truthy user_msg)
          then
            let user_msg' :=
              if bool_decide (b !! "toolResult" = None)
              then dict_get b "text" else user_msg in
            if truthy user_msg' then (user_msg', assistant_msg)
            else scan rest user_msg' assistant_msg
          else scan rest user_msg assistant_msg
      end
  end.

Definition save_memories (client : memory_client) (memory_id : string)
    : M unit :=
  try_except
    (ag <- get_agent ;;
     let messages := messages ag in
     if (2 <=? length messages)%nat then
       let '(user_msg, assistant_msg) := scan (rev messages) PNone PNone in
       if truthy user_msg && truthy assistant_msg then
         let actor_id := dict_get (state ag) "actor_id" in
         let session_id := dict_get (state ag) "session_id" in
         if negb (truthy actor_id) || negb (truthy session_id) then ret tt
         else
           call_create_event client memory_id actor_id session_id
             [(user_msg, "USER"); (assistant_msg, "ASSISTANT")]
       else ret tt
     else ret tt)
    (fun e => ret tt).

(** [register_hooks]: [AfterInvocationEvent]. *)
Definition register_hooks (memory_id : string) (client : memory_client)
    (r : registry) : registry :=
  Registry (cb_agent_initialized r) (cb_message_added r)
    (cb_after_invocation r ++ [save_memories client memory_id]).

End LTMemoryHookProvider.

(** ** The strands events and agent loop

    The framework is outside the sources.  What the sources rely on is its
    protocol: callbacks registered by [register_hooks] run when the matching
    event fires; [AgentInitializedEvent] fires when the [Agent] is built,
    [MessageAddedEvent] after each message is appended to [agent.messages],
    [AfterInvocationEvent] when the call ends, also by an exception; an
    exception raised by a tool function is turned by the [@tool] wrapper
    into an error tool result shown to the model. *)

Fixpoint fire (cbs : list (M unit)) : M unit :=
  match cbs with
  | [] => ret tt
  | cb :: rest => cb ;;; fire rest
  end.

Definition tool_fn : Type := world -> pyval -> M pyval.

(** One decision of the model to use a tool: optional leading text, the
    tool's name and input, and the services as they answer during the call. *)
Record round := Round {
  r_lead : option string;
  r_tool : string;
  r_input : pyval;
  r_world : world
}.

(** A whole turn as the model plays it: tool rounds, then either the content
    of the final assistant message or the exception of a failing model call,
    and the usage summary. *)
Record script := Script {
  rounds : list round;
  ending : result (list (gmap string pyval));
  s_metrics : pyval
}.

Record agent_result := AgentResult {
  res_message : message;
  res_metrics : pyval
}.

Definition add_message (reg : registry) (m : message) : M unit :=
  modify (fun s =>
    set_agent (Agent (system_prompt (the_agent s)) (messages (the_agent s) ++ [m])
                     (state (the_agent s))) s) ;;;
  fire (cb_message_added reg).

Definition tool_use_block (name : string) (input : pyval) : gmap string pyval :=
  {[ "toolUse" := PDict (<["name" := PStr name]> {[ "input" := input ]}) ]}.

Definition tool_result_block (status : string) (text : pyval) : gmap string pyval :=
  {[ "toolResult" :=
       PDict (<["status" := PStr status]>
                {[ "content" := PList [PDict {[ "text" := text ]}] ]}) ]}.

(** The [@tool] wrapper: the value the function returns becomes the text of
    a success result, an exception becomes an error result. *)
Definition run_tool (tools : string -> option tool_fn) (r : round)
    : M (gmap string pyval) :=
  match tools (r_tool r) with
  | None => ret (tool_result_block "error" (PStr ("Unknown tool: " +:+ r_tool r)))
  | Some f =>
      try_except
        (v <- f (r_world r) (r_input r) ;; ret (tool_result_block "success" v))
        (fun e => ret (tool_result_block "error"
                          (PStr ("Error: " +:+ exn_name e +:+ " - " +:+ exn_str e))))
  end.

Definition lead_blocks (lead : option string) : list (gmap string pyval) :=
  match lead with
  | Some t => [{[ "text" := PStr t ]}]
  | None => []
  end.

Fixpoint run_rounds (reg : registry) (tools : string -> option tool_fn)
    (rs : list round) : M unit :=
  match rs with
  | [] => ret tt
  | r :: rest =>
      modify add_model_ctx ;;;
      add_message reg
        (Message "assistant"
           (lead_blocks (r_lead r) ++ [tool_use_block (r_tool r) (r_input r)])) ;;;
      res <- run_tool tools r ;;
      add_message reg (Message "user" [res]) ;;;
      run_rounds reg tools rest
  end.

(** [Agent(...)]: the object is created and [AgentInitializedEvent] fires. *)
Definition new_agent (reg : registry) (prompt : string)
    (state : gmap string pyval) : M unit :=
  modify (set_agent (Agent prompt [] state)) ;;;
  fire (cb_agent_initialized reg).

(** [agent(user_input)]. *)
Definition agent_call (reg : registry) (tools : string -> option tool_fn)
    (user_input : pyval) (sc : script) : M agent_result :=
  try_finally
    ((match user_input with
      | PNone => ret tt
      | v => add_message reg (Message "user" [{[ "text" := v ]}])
      end) ;;;
     run_rounds reg tools (rounds sc) ;;;
     modify add_model_ctx ;;;
     match ending sc with
     | inl e => raise e
     | inr c =>
         add_message reg (Message "assistant" c) ;;;
         ret (AgentResult (Message "assistant" c) (s_metrics sc))
     end)
    (fire (cb_after_invocation reg)).

(** ** Entry points: what one invocation is given

    The constructors and the knowledge-base connector may fail; the model
    plays a script. *)

Record env := Env {
  e_memory_client : result memory_client;     (* MemoryClient(region_name=...) *)
  e_provider : provider_cfg -> result unit;   (* AgentCoreMemoryToolProvider(...) *)
  e_kb_start : result unit;                   (* kb_client.__enter__() *)
  e_kb_list_tools : result (list string);     (* kb_client.list_tools_sync() *)
  e_script : script
}.

Definition gets {A} (f : st -> A) : M A := fun s => (inr (f s), s).

(** [payload.get("prompt")]. *)
Definition get_prompt (payload : gmap string string) : pyval :=
  from_option PStr PNone (payload !! "prompt").

(** A tool of [AgentCoreMemoryToolProvider]: it reaches the memory service
    with the configuration the provider was built with. *)
Definition provider_tool (cfg : provider_cfg) : tool_fn :=
  fun w input =>
    modify (add_mem_op (OpProviderTool cfg input)) ;;;
    lift (ext_tool w "agent_core_memory" input).

(** *** The knowledge-base connector

    [MCPClient(...)] creates a client that is not started; [with kb_client:]
    starts it, runs the body and stops it however the body ends; a request
    needs a started client. *)

Definition mcp_client_new : M nat :=
  fun s => (inr (kb_next s), set_kb (S (kb_next s)) (kb_live s) (kb_calls s) s).

Definition kb_request (kb_client : nat) : M unit :=
  fun s =>
    if bool_decide (kb_client ∈ kb_live s)
    then (inr tt, set_kb (kb_next s) (kb_live s) (kb_calls s ++ [kb_client]) s)
    else (inl (ServiceError "the client session is not running"), s).

Definition with_kb {A} (e : env) (kb_client : nat) (body : M A) : M A :=
  lift (e_kb_start e) ;;;
  modify (fun s => set_kb (kb_next s) (kb_live s ∪ {[ kb_client ]}) (kb_calls s) s) ;;;
  try_finally body
    (modify (fun s => set_kb (kb_next s) (kb_live s ∖ {[ kb_client ]}) (kb_calls s) s)).

Definition list_tools_sync (e : env) (kb_client : nat) : M (list string) :=
  kb_request kb_client ;;; lift (e_kb_list_tools e).

Definition kb_tool (kb_client : nat) (name : string) : tool_fn :=
  fun w input => kb_request kb_client ;;; lift (ext_tool w name input).

(** [response.message['content'][0]['text']]. *)
Definition response_text (response : agent_result) : M pyval :=
  b <- lift (first_item (content (res_message response))) ;;
  lift (dict_item b "text").

(** ** Agents/strands-agents-with-memory *)

Module WithMemory.

Section Prompts.
Variables GAME_ANALYST_PROMPT LORE_AGENT_PROMPT GAMEPLAY_AGENT_PROMPT
  STRATEGY_AGENT_PROMPT : string.

Definition get_agent_arn (w : world) (agent_name : string) : M string :=
  lift (ssm_get_parameter w ("/agents/" +:+ agent_name +:+ "_arn")).

Definition get_lore_agent (w : world) (payload : pyval) : M pyval :=
  lore_agent_arn <- get_agent_arn w "lore_agent" ;;
  body <- invoke_agent_with_boto3 w lore_agent_arn payload ;;
  response <- lift (json_loads w body) ;;
  m <- lift (subscript response "metrics") ;;
  modify (fun s => set_toolmetrics (toolmetrics s ++ [m]) s) ;;;
  lift (subscript response "response").

Definition get_gameplay_agent (w : world) (payload : pyval) : M pyval :=
  gameplay_agent_arn <- get_agent_arn w "gameplay_agent" ;;
  body <- invoke_agent_with_boto3 w gameplay_agent_arn payload ;;
  response <- lift (json_loads w body) ;;
  m <- lift (subscript response "metrics") ;;
  modify (fun s => set_toolmetrics (toolmetrics s ++ [m]) s) ;;;
  lift (subscript response "response").

Definition get_strategy_agent (w : world) (payload : pyval) : M pyval :=
  strategy_agent_arn <- get_agent_arn w "strategy_agent" ;;
  body <- invoke_agent_with_boto3 w strategy_agent_arn payload ;;
  response <- lift (json_loads w body) ;;
  m <- lift (subscript response "metrics") ;;
  modify (fun s => set_toolmetrics (toolmetrics s ++ [m]) s) ;;;
  lift (subscript response "response").


Definition analyst_tools (cfg : provider_cfg) (name : string) : option tool_fn :=
  if String.eqb name "get_gameplay_agent" then Some get_gameplay_agent
  else if String.eqb name "get_lore_agent" then Some get_lore_agent
  else if String.eqb name "get_strategy_agent" then Some get_strategy_agent
  else if String.eqb name "agent_core_memory" then Some (provider_tool cfg)
  else None.

Definition user_prefs_memory_id : string := "GameAnalystUserPrefs_37d1e66e-Ytm1ni3Db5".
Definition session_memory_id : string := "GameAnalystShortTermMemory_6502d2be-wJVopQEE4H".

(** [game_analyst_agent(payload, context)]. *)
Definition game_analyst_agent (e : env) (payload : gmap string string)
    (context_session_id : pyval) : M pyval :=
  modify (set_toolmetrics []) ;;;
  let user_input := get_prompt payload in
  let user_id := default "default-user" (payload !! "user_id") in
  let project_id := default "new-world-aternum" (payload !! "project_id") in
  let session_id := context_session_id in
  client <- lift (e_memory_client e) ;;
  let user_prefs_namespace := "analyst/" +:+ user_id +:+ "/preferences" in
  let cfg := ProviderCfg user_prefs_memory_id (PStr user_id) session_id
               user_prefs_namespace in
  lift (e_provider e cfg) ;;;
  let reg :=
    ShortTermMemoryHook.register_hooks client session_memory_id
      (LTMemoryHookProvider.register_hooks user_prefs_memory_id client empty_registry) in
  new_agent reg GAME_ANALYST_PROMPT
    (<["actor_id" := PStr user_id]> {[ "session_id" := session_id ]}) ;;;
  try_except
    (response <- agent_call reg (analyst_tools cfg) user_input (e_script e) ;;
     text <- response_text response ;;
     tm <- gets toolmetrics ;;
     ret (PDict (<["response" := text]>
                   (<["metrics" := res_metrics response]>
                      {[ "toolMetrics" := PList tm ]}))))
    (fun ex => ret (PDict {[ "error" := PStr (exn_str ex) ]})).

Definition specialist_tools (kb_client : nat) (kb_tools : list string)
    (cfg : provider_cfg) (name : string) : option tool_fn :=
  if String.eqb name "agent_core_memory" then Some (provider_tool cfg)
  else if bool_decide (name ∈ kb_tools) then Some (kb_tool kb_client name)
  else None.

(** [lore_agent(payload, context)] of lore_agent.py. *)
Definition lore_agent (e : env) (payload : gmap string string)
    (context_session_id : pyval) : M pyval :=
  try_except
    (kb_client <- mcp_client_new ;;
     client <- lift (e_memory_client e) ;;
     let project_memory_id := "Project_lore_78f09820-iidpdZ4wfj" in
     let user_id := default "default-user" (payload !! "user_id") in
     let project_id := default "new-world-aternum" (payload !! "project_id") in
     let session_id := context_session_id in
     let lore_namespace := "project/" +:+ project_id +:+ "/semantic" in
     let cfg := ProviderCfg project_memory_id (PStr project_id) session_id
                  lore_namespace in
     lift (e_provider e cfg) ;;;
     let reg := LTMemoryHookProvider.register_hooks project_memory_id client empty_registry in
     with_kb e kb_client
       (kb_tools <- list_tools_sync e kb_client ;;
        new_agent reg LORE_AGENT_PROMPT
          (<["actor_id" := PStr project_id]> {[ "session_id" := session_id ]}) ;;;
        let user_input := get_prompt payload in
        response <- agent_call reg (specialist_tools kb_client kb_tools cfg)
                      user_input (e_script e) ;;
        text <- response_text response ;;
        ret (PDict (<["response" := text]>
                      {[ "metrics" := res_metrics response ]}))))
    (fun ex => ret (PStr ("error " +:+ exn_str ex))).

(** [gameplay_agent(payload, context)] of gameplay_agent.py; [user_id] is
    not read. *)
Definition gameplay_agent (e : env) (payload : gmap string string)
    (context_session_id : pyval) : M pyval :=
  try_except
    (client <- lift (e_memory_client e) ;;
     kb_client <- mcp_client_new ;;
     let project_memory_id := "Project_gameplay_597edeef-XOt1OmF0Zd" in
     let project_id := default "new-world-aternum" (payload !! "project_id") in
     let session_id := context_session_id in
     let gameplay_namespace := "project/gameplay/" +:+ project_id +:+ "/semantic" in
     let cfg := ProviderCfg project_memory_id (PStr project_id) session_id
                  gameplay_namespace in
     lift (e_provider e cfg) ;;;
     let reg := LTMemoryHookProvider.register_hooks project_memory_id client empty_registry in
     with_kb e kb_client
       (kb_tools <- list_tools_sync e kb_client ;;
        new_agent reg GAMEPLAY_AGENT_PROMPT
          (<["actor_id" := PStr project_id]> {[ "session_id" := session_id ]}) ;;;
        let user_input := get_prompt payload in
        response <- agent_call reg (specialist_tools kb_client kb_tools cfg)
                      user_input (e_script e) ;;
        text <- response_text response ;;
        ret (PDict (<["response" := text]>
                      {[ "metrics" := res_metrics response ]}))))
    (fun ex => ret (PStr ("error " +:+ exn_str ex))).

(** [strategy_agent(payload, context)] of strategy_agent.py. *)
Definition strategy_agent (e : env) (payload : gmap string string)
    (context_session_id : pyval) : M pyval :=
  try_except
    (kb_client <- mcp_client_new ;;
     client <- lift (e_memory_client e) ;;
     let project_memory_id := "Project_strategy_3443cbe2-0vOWxMHl4Y" in
     let user_id := default "default-user" (payload !! "user_id") in
     let project_id := default "new-world-aternum" (payload !! "project_id") in
     let session_id := context_session_id in
     let strategy_namespace := "project/" +:+ project_id +:+ "/semantic" in
     let cfg := ProviderCfg project_memory_id (PStr project_id) session_id
                  strategy_namespace in
     lift (e_provider e cfg) ;;;
     let reg := LTMemoryHookProvider.register_hooks project_memory_id client empty_registry in
     with_kb e kb_client
       (kb_tools <- list_tools_sync e kb_client ;;
        new_agent reg STRATEGY_AGENT_PROMPT
          (<["actor_id" := PStr project_id]> {[ "session_id" := session_id ]}) ;;;
        let user_input := get_prompt payload in
        response <- agent_call reg (specialist_tools kb_client kb_tools cfg)
                      user_input (e_script e) ;;
        text <- response_text response ;;
        ret (PDict (<["response" := text]>
                      {[ "metrics" := res_metrics response ]}))))
    (fun ex => ret (PStr ("error " +:+ exn_str ex))).

End Prompts.

End WithMemory.

(** ** Agents/basic-strands-agents *)

Module Basic.

Section Prompts.
Variables GAME_ANALYST_PROMPT LORE_AGENT_PROMPT GAMEPLAY_AGENT_PROMPT
  STRATEGY_AGENT_PROMPT : string.

(** The module binds [logger] to the result of [setLevel], which is
    [None]; the handler's [logger.exception] therefore raises
    [AttributeError] before [raise err] is reached. *)
Definition get_agent_arn (w : world) (agent_name : string) : M string :=
  try_except
    (lift (ssm_get_parameter w ("/agents/" +:+ agent_name +:+ "_arn_no_memories")))
    (fun err =>
       raise (AttributeError "'NoneType' object has no attribute 'exception'")).

Definition get_lore_agent (w : world) (payload : pyval) : M pyval :=
  lore_agent_arn <- get_agent_arn w "lore_agent" ;;
  body <- invoke_agent_with_boto3 w lore_agent_arn payload ;;
  response <- lift (json_loads w body) ;;
  m <- lift (subscript response "metrics") ;;
  modify (fun s => set_toolmetrics (toolmetrics s ++ [m]) s) ;;;
  lift (subscript response "response").

Definition get_gameplay_agent (w : world) (payload : pyval) : M pyval :=
  gameplay_agent_arn <- get_agent_arn w "gameplay_agent" ;;
  body <- invoke_agent_with_boto3 w gameplay_agent_arn payload ;;
  response <- lift (json_loads w body) ;;
  m <- lift (subscript response "metrics") ;;
  modify (fun s => set_toolmetrics (toolmetrics s ++ [m]) s) ;;;
  lift (subscript response "response").

Definition get_strategy_agent (w : world) (payload : pyval) : M pyval :=
  strategy_agent_arn <- get_agent_arn w "strategy_agent" ;;
  body <- invoke_agent_with_boto3 w strategy_agent_arn payload ;;
  response <- lift (json_loads w body) ;;
  m <- lift (subscript response "metrics") ;;
  modify (fun s => set_toolmetrics (toolmetrics s ++ [m]) s) ;;;
  lift (subscript response "response").


Definition analyst_tools (name : string) : option tool_fn :=
  if String.eqb name "get_lore_agent" then Some get_lore_agent
  else if String.eqb name "get_strategy_agent" then Some get_strategy_agent
  else if String.eqb name "get_gameplay_agent" then Some get_gameplay_agent
  else None.

(** [game_analyst_agent(payload)]. *)
Definition game_analyst_agent (e : env) (payload : gmap string string) : M pyval :=
  modify (set_toolmetrics []) ;;;
  new_agent empty_registry GAME_ANALYST_PROMPT ∅ ;;;
  try_except
    (let user_input := get_prompt payload in
     response <- agent_call empty_registry analyst_tools user_input (e_script e) ;;
     let fullmetrics := res_metrics response in
     text <- response_text response ;;
     tm <- gets toolmetrics ;;
     ret (PDict (<["response" := text]>
                   (<["metrics" := fullmetrics]>
                      {[ "toolMetrics" := PList tm ]}))))
    (fun ex => ret (PStr ("error " +:+ exn_str ex))).

Definition specialist_tools (kb_client : nat) (kb_tools : list string)
    (name : string) : option tool_fn :=
  if bool_decide (name ∈ kb_tools) then Some (kb_tool kb_client name) else None.

(** The body shared, up to the prompt, by the three basic specialists. *)
Definition kb_specialist (prompt : string) (e : env)
    (payload : gmap string string) : M pyval :=
  try_except
    (kb_client <- mcp_client_new ;;
     with_kb e kb_client
       (kb_tools <- list_tools_sync e kb_client ;;
        new_agent empty_registry prompt ∅ ;;;
        let user_input := get_prompt payload in
        response <- agent_call empty_registry (specialist_tools kb_client kb_tools)
                      user_input (e_script e) ;;
        text <- response_text response ;;
        ret (PDict (<["response" := text]>
                      {[ "metrics" := res_metrics response ]}))))
    (fun ex => ret (PStr ("error " +:+ exn_str ex))).

Definition lore_agent := kb_specialist LORE_AGENT_PROMPT.
Definition gameplay_agent := kb_specialist GAMEPLAY_AGENT_PROMPT.
Definition strategy_agent := kb_specialist STRATEGY_AGENT_PROMPT.

End Prompts.

End Basic.

(** ** Kiro building/lore-agent-basic *)

Module Kiro.

Section Prompts.
Variable LORE_AGENT_PROMPT : string.

(** [lore_agent(payload)]: the answer text alone is returned. *)
Definition lore_agent (e : env) (payload : gmap string string) : M pyval :=
  try_except
    (kb_client <- mcp_client_new ;;
     with_kb e kb_client
       (kb_tools <- list_tools_sync e kb_client ;;
        new_agent empty_registry LORE_AGENT_PROMPT ∅ ;;;
        let user_input := get_prompt payload in
        response <- agent_call empty_registry
                      (Basic.specialist_tools kb_client kb_tools)
                      user_input (e_script e) ;;
        response_text response))
    (fun ex => ret (PStr ("error " +:+ exn_str ex))).

End Prompts.

End Kiro.

(** ** Vocabulary of the statements *)

Inductive orchestrator := OrchMemory | OrchBasic.
Inductive delegate := Lore | Gameplay | Strategy.

Definition delegate_name (d : delegate) : string :=
  match d with
  | Lore => "lore_agent"
  | Gameplay => "gameplay_agent"
  | Strategy => "strategy_agent"
  end.

Definition delegation_tool (o : orchestrator) (d : delegate) : tool_fn :=
  match o, d with
  | OrchMemory, Lore => WithMemory.get_lore_agent
  | OrchMemory, Gameplay => WithMemory.get_gameplay_agent
  | OrchMemory, Strategy => WithMemory.get_strategy_agent
  | OrchBasic, Lore => Basic.get_lore_agent
  | OrchBasic, Gameplay => Basic.get_gameplay_agent
  | OrchBasic, Strategy => Basic.get_strategy_agent
  end.

Definition arn_parameter (o : orchestrator) (d : delegate) : string :=
  "/agents/" +:+ delegate_name d +:+
  match o with OrchMemory => "_arn" | OrchBasic => "_arn_no_memories" end.

(** The specialist's reply as the tool decodes it: the address resolves, the
    remote call returns a body and the body is JSON for [response]. *)
Definition decoded_reply (o : orchestrator) (d : delegate) (w : world)
    (payload response : pyval) : Prop :=
  exists arn body,
    ssm_get_parameter w (arn_parameter o d) = inr arn /\
    invoke_agent_runtime w arn "DEFAULT" (PDict {[ "prompt" := payload ]}) = inr body /\
    json_loads w body = inr response.

(** A JSON object with both a [metrics] and a [response] field. *)
Definition well_formed_reply (response : pyval) : Prop :=
  exists d m r, response = PDict d /\ d !! "metrics" = Some m /\ d !! "response" = Some r.

(** *** Concrete inputs used by the examples *)

Definition idle_agent : agent := Agent EmptyString [] ∅.
Definition fresh_state : st := St [] idle_agent [] [] 0 ∅ [].
Definition stale_state : st := St [PInt 99] idle_agent [] [] 0 ∅ [].

(** Services whose remote agent answers with a body decoding to [v]. *)
Definition replying (v : pyval) : world :=
  World (fun name => inr ("arn:" +:+ name)) (fun _ _ _ => inr "body")
        (fun _ => inr v) (fun _ _ => inr (PStr "ok")).

Definition good_reply : pyval :=
  PDict (<["metrics" := PInt 7]> {[ "response" := PStr "Aeternum is an island" ]}).
Definition empty_answer_reply : pyval :=
  PDict (<["metrics" := PInt 7]> {[ "response" := PStr EmptyString ]}).
Definition metrics_only_reply : pyval := PDict {[ "metrics" := PInt 7 ]}.
Definition error_string_reply : pyval := PStr "error boom".

Definition store_empty : memory_client :=
  MemoryClient (fun _ _ _ _ _ => inr []) (fun _ _ _ _ => inr tt).
Definition store_down : memory_client :=
  MemoryClient (fun _ _ _ _ _ => inl (ServiceError "store down"))
               (fun _ _ _ _ => inl (ServiceError "store down")).

Definition final_answer : list (gmap string pyval) := [{[ "text" := PStr "final" ]}].

Definition one_call_script (v : pyval) : script :=
  Script [Round None "get_lore_agent" (PStr "q") (replying v)]
         (inr final_answer) (PInt 1).

Definition env_of (mc : memory_client) (sc : script) : env :=
  Env (inr mc) (fun _ => inr tt) (inr tt) (inr ["kb_search"]) sc.

Definition hello : gmap string string := {[ "prompt" := "hello" ]}.

(** *** The long-term persist step in the words of its description *)

(** Text of a message: the [text] of its first content block, if any. *)
Definition text_of (m : message) : pyval :=
  match content m with
  | b :: _ => dict_get b "text"
  | [] => PNone
  end.

(** A tool-result-shaped message: its first content block has a
    [toolResult] key. *)
Definition is_tool_result (m : message) : bool :=
  match content m with
  | b :: _ => bool_decide (is_Some (b !! "toolResult"))
  | [] => false
  end.

(** An assistant message with a text to persist. *)
Definition assistant_message (m : message) : bool :=
  String.eqb (role m) "assistant" && truthy (text_of m).

(** A true user message: a user message with a text that is not a tool
    result. *)
Definition true_user_message (m : message) : bool :=
  String.eqb (role m) "user" && negb (is_tool_result m) && truthy (text_of m).

(** The most recent message with a property: the first one met from the
    end of the list. *)
Definition most_recent (P : message -> bool) (msgs : list message) : option message :=
  List.find P (rev msgs).

(** The pair the description selects: texts of the most recent true user
    message and of the most recent assistant message, when both exist. *)
Definition selected_pair (msgs : list message) : option (pyval * pyval) :=
  match most_recent true_user_message msgs, most_recent assistant_message msgs with
  | Some u, Some a => Some (text_of u, text_of a)
  | _, _ => None
  end.

(** A completed turn ends with the assistant message carrying the answer. *)
Definition completed_turn (msgs : list message) : Prop :=
  exists earlier answer, msgs = earlier ++ [answer] /\ assistant_message answer = true.

Definition actor_of (s : st) : pyval := dict_get (state (the_agent s)) "actor_id".
Definition session_of (s : st) : pyval := dict_get (state (the_agent s)) "session_id".
Definition ids_present (s : st) : Prop :=
  truthy (actor_of s) = true /\ truthy (session_of s) = true.

Definition with_messages (msgs : list message) (ids : gmap string pyval) : st :=
  St [] (Agent "You are an analyst." msgs ids) [] [] 0 ∅ [].

Definition known_ids : gmap string pyval :=
  <["actor_id" := PStr "alice"]> {[ "session_id" := PStr "s-1" ]}.
Definition no_session : gmap string pyval :=
  <["actor_id" := PStr "alice"]> {[ "session_id" := PNone ]}.

Definition user_text (t : string) : message := Message "user" [{[ "text" := PStr t ]}].
Definition assistant_text (t : string) : message :=
  Message "assistant" [{[ "text" := PStr t ]}].
Definition assistant_tool_use : message :=
  Message "assistant" [tool_use_block "get_lore_agent" (PStr "q")].
Definition user_tool_result : message :=
  Message "user" [tool_result_block "success" (PStr "Aeternum is an island")].

(** A turn with one delegation: question, tool use, tool result, answer. *)
Definition tool_turn : list message :=
  [user_text "What is Aeternum?"; assistant_tool_use; user_tool_result;
   assistant_text "An island."].

(** A turn interrupted after the tool result: the message added last is the
    tool result. *)
Definition after_tool_result : list message :=
  [user_text "What is Aeternum?"; assistant_tool_use; user_tool_result].

(** *** Invariants and totality of computations *)

(** [m] keeps the state property [I]. *)
Definition inv (I : st -> Prop) {A} (m : M A) : Prop :=
  forall s, I s -> I (m s).2.

(** [m] never raises. *)
Definition total {A} (m : M A) : Prop :=
  forall s, exists x, (m s).1 = inr x.

(** [m] does not touch the state and always answers [r]. *)
Definition pure {A} (m : M A) (r : result A) : Prop :=
  forall s, m s = (r, s).

(** The update made by [agent.messages.append(m)]. *)
Definition append_message (m : message) (s : st) : st :=
  set_agent (Agent (system_prompt (the_agent s)) (messages (the_agent s) ++ [m])
                   (state (the_agent s))) s.

(** What [agent(...)] answers when no callback raises. *)
Definition call_outcome (sc : script) : result agent_result :=
  match ending sc with
  | inl ex => inl ex
  | inr c => inr (AgentResult (Message "assistant" c) (s_metrics sc))
  end.

(** [response.message['content'][0]['text']] as a value. *)
Definition response_text_value (response : agent_result) : result pyval :=
  match content (res_message response) with
  | b :: _ => dict_item b "text"
  | [] => inl (IndexError "list index out of range")
  end.

(** *** The short-term load in the words of its description *)

(** One role-labelled line per stored message. *)
Definition role_line (m : conv_msg) : string :=
  str_title (str_lower (cm_role m)) +:+ ": " +:+ cm_text m.

(** The lines of the stored turns, in the order the store returns them. *)
Definition history_lines (turns : list (list conv_msg)) : list string :=
  map role_line (concat turns).

(** The instruction context once the history is appended. *)
Definition with_history (prompt : string) (turns : list (list conv_msg)) : string :=
  prompt +:+ history_header +:+ str_join newline (history_lines turns)
  +:+ history_footer.

Definition augmented (prompt : string) (turns : list (list conv_msg)) : string :=
  match turns with
  | [] => prompt
  | _ :: _ => with_history prompt turns
  end.

(** *** The orchestrator with memory, piece by piece *)

Definition analyst_user_id (payload : gmap string string) : string :=
  default "default-user" (payload !! "user_id").

Definition analyst_cfg (payload : gmap string string) (sess : pyval) : provider_cfg :=
  ProviderCfg WithMemory.user_prefs_memory_id (PStr (analyst_user_id payload)) sess
    ("analyst/" +:+ analyst_user_id payload +:+ "/preferences").

Definition analyst_state (payload : gmap string string) (sess : pyval)
    : gmap string pyval :=
  <["actor_id" := PStr (analyst_user_id payload)]> {[ "session_id" := sess ]}.

Definition analyst_registry (mc : memory_client) : registry :=
  ShortTermMemoryHook.register_hooks mc WithMemory.session_memory_id
    (LTMemoryHookProvider.register_hooks WithMemory.user_prefs_memory_id mc empty_registry).

(** The [try: ... except Exception as e: return {"error": str(e)}] block. *)
Definition analyst_reply (e : env) (payload : gmap string string) (sess : pyval)
    (mc : memory_client) : M pyval :=
  try_except
    (response <- agent_call (analyst_registry mc)
                   (WithMemory.analyst_tools (analyst_cfg payload sess))
                   (get_prompt payload) (e_script e) ;;
     text <- response_text response ;;
     tm <- gets toolmetrics ;;
     ret (PDict (<["response" := text]>
                   (<["metrics" := res_metrics response]>
                      {[ "toolMetrics" := PList tm ]}))))
    (fun ex => ret (PDict {[ "error" := PStr (exn_str ex) ]})).

Definition five_turns : list (list conv_msg) :=
  [[ConvMsg "USER" "t1"; ConvMsg "ASSISTANT" "a1"];
   [ConvMsg "USER" "t2"; ConvMsg "ASSISTANT" "a2"];
   [ConvMsg "USER" "t3"; ConvMsg "ASSISTANT" "a3"];
   [ConvMsg "USER" "t4"; ConvMsg "ASSISTANT" "a4"];
   [ConvMsg "USER" "t5"; ConvMsg "ASSISTANT" "a5"]].

(** A store that returns the five turns for actor [alice], session [s-1]. *)
Definition store_five : memory_client :=
  MemoryClient
    (fun _ actor session k _ =>
       match actor, session with
       | PStr "alice", PStr "s-1" => inr (take k five_turns)
       | _, _ => inr []
       end)
    (fun _ _ _ _ => inr tt).

Definition alice_hello : gmap string string :=
  <["user_id" := "alice"]> {[ "prompt" := "hello" ]}.

Definition answer_script : script := Script [] (inr final_answer) (PInt 1).

(** *** The specialists, piece by piece *)

(** [Agent(...)], [agent(user_input)] and the construction of the reply. *)
Definition agent_session (reg : registry) (tools : string -> option tool_fn)
    (prompt : string) (state : gmap string pyval) (payload : gmap string string)
    (e : env) (finish : agent_result -> M pyval) : M pyval :=
  new_agent reg prompt state ;;;
  response <- agent_call reg tools (get_prompt payload) (e_script e) ;;
  finish response.

(** The [with kb_client:] block of a specialist. *)
Definition kb_session (e : env) (kb_client : nat) (reg : registry)
    (tools : list string -> string -> option tool_fn) (prompt : string)
    (state : gmap string pyval) (payload : gmap string string)
    (finish : agent_result -> M pyval) : M pyval :=
  with_kb e kb_client
    (kb_tools <- list_tools_sync e kb_client ;;
     agent_session reg (tools kb_tools) prompt state payload e finish).

(** [{"response": ..., "metrics": ...}]. *)
Definition object_reply (response : agent_result) : M pyval :=
  text <- response_text response ;;
  ret (PDict (<["response" := text]> {[ "metrics" := res_metrics response ]})).

Definition object_reply_value (response : agent_result) : result pyval :=
  match response_text_value response with
  | inr text =>
      inr (PDict (<["response" := text]> {[ "metrics" := res_metrics response ]}))
  | inl ex => inl ex
  end.

(** [except Exception as e: return f"error {e}"]. *)
Definition error_string (ex : exn) : M pyval :=
  ret (PStr ("error " +:+ exn_str ex)).

(** What distinguishes the three specialists with memory: whether
    [MemoryClient] is built before [MCPClient], the memory identifier and
    the namespace built from the project identifier. *)
Record memory_setup := MemorySetup {
  ms_client_first : bool;
  ms_memory_id : string;
  ms_namespace : string -> string
}.

Definition lore_setup : memory_setup :=
  MemorySetup false "Project_lore_78f09820-iidpdZ4wfj"
    (fun project_id => "project/" +:+ project_id +:+ "/semantic").
Definition gameplay_setup : memory_setup :=
  MemorySetup true "Project_gameplay_597edeef-XOt1OmF0Zd"
    (fun project_id => "project/gameplay/" +:+ project_id +:+ "/semantic").
Definition strategy_setup : memory_setup :=
  MemorySetup false "Project_strategy_3443cbe2-0vOWxMHl4Y"
    (fun project_id => "project/" +:+ project_id +:+ "/semantic").

Definition project_id_of (payload : gmap string string) : string :=
  default "new-world-aternum" (payload !! "project_id").

Definition project_cfg (ms : memory_setup) (payload : gmap string string)
    (sess : pyval) : provider_cfg :=
  ProviderCfg (ms_memory_id ms) (PStr (project_id_of payload)) sess
    (ms_namespace ms (project_id_of payload)).

Definition project_state (payload : gmap string string) (sess : pyval)
    : gmap string pyval :=
  <["actor_id" := PStr (project_id_of payload)]> {[ "session_id" := sess ]}.

Definition acquire (ms : memory_setup) (e : env) : M (nat * memory_client) :=
  if ms_client_first ms then
    client <- lift (e_memory_client e) ;;
    kb_client <- mcp_client_new ;;
    ret (kb_client, client)
  else
    kb_client <- mcp_client_new ;;
    client <- lift (e_memory_client e) ;;
    ret (kb_client, client).

(** The common shape of the three specialists with memory. *)
Definition memory_specialist (ms : memory_setup) (prompt : string) (e : env)
    (payload : gmap string string) (sess : pyval) : M pyval :=
  try_except
    (kc <- acquire ms e ;;
     lift (e_provider e (project_cfg ms payload sess)) ;;;
     kb_session e kc.1
       (LTMemoryHookProvider.register_hooks (ms_memory_id ms) kc.2 empty_registry)
       (fun kb_tools =>
          WithMemory.specialist_tools kc.1 kb_tools (project_cfg ms payload sess))
       prompt (project_state payload sess) payload object_reply)
    error_string.

(** The common shape of the specialists without memory. *)
Definition plain_specialist (finish : agent_result -> M pyval) (prompt : string)
    (e : env) (payload : gmap string string) : M pyval :=
  try_except
    (kb_client <- mcp_client_new ;;
     kb_session e kb_client empty_registry (Basic.specialist_tools kb_client)
       prompt ∅ payload finish)
    error_string.

(** *** The nine entrypoints *)

Inductive entrypoint :=
| AnalystMemory | LoreMemory | GameplayMemory | StrategyMemory
| AnalystBasic | LoreBasic | GameplayBasic | StrategyBasic
| LoreKiro.

Definition run_entrypoint (ep : entrypoint) (prompt : string) (e : env)
    (payload : gmap string string) (sess : pyval) : M pyval :=
  match ep with
  | AnalystMemory => WithMemory.game_analyst_agent prompt e payload sess
  | LoreMemory => WithMemory.lore_agent prompt e payload sess
  | GameplayMemory => WithMemory.gameplay_agent prompt e payload sess
  | StrategyMemory => WithMemory.strategy_agent prompt e payload sess
  | AnalystBasic => Basic.game_analyst_agent prompt e payload
  | LoreBasic => Basic.lore_agent prompt e payload
  | GameplayBasic => Basic.gameplay_agent prompt e payload
  | StrategyBasic => Basic.strategy_agent prompt e payload
  | LoreKiro => Kiro.lore_agent prompt e payload
  end.

Definition is_specialist (ep : entrypoint) : bool :=
  match ep with
  | AnalystMemory | AnalystBasic => false
  | _ => true
  end.

Definition memory_setup_of (ep : entrypoint) : option memory_setup :=
  match ep with
  | LoreMemory => Some lore_setup
  | GameplayMemory => Some gameplay_setup
  | StrategyMemory => Some strategy_setup
  | _ => None
  end.

(** Everything around the agent call works: constructors, connector start
    and tool listing. *)
Definition setup_ok (e : env) : Prop :=
  (exists mc, e_memory_client e = inr mc) /\
  (forall cfg, e_provider e cfg = inr tt) /\
  e_kb_start e = inr tt /\
  (exists names, e_kb_list_tools e = inr names).

(** The two failure shapes. *)
Definition failure_value (ep : entrypoint) (ex : exn) : pyval :=
  match ep with
  | AnalystMemory => PDict {[ "error" := PStr (exn_str ex) ]}
  | _ => PStr ("error " +:+ exn_str ex)
  end.

(** The success shapes: an object with [response] and [metrics], with
    [toolMetrics] too for the orchestrators; the text alone for the Kiro
    lore agent. *)
Definition success_value (ep : entrypoint) (text metrics : pyval) (v : pyval) : Prop :=
  match ep with
  | AnalystMemory | AnalystBasic =>
      exists tm, v = PDict (<["response" := text]>
                              (<["metrics" := metrics]>
                                 {[ "toolMetrics" := PList tm ]}))
  | LoreKiro => v = text
  | _ => v = PDict (<["response" := text]> {[ "metrics" := metrics ]})
  end.

(** The success shape of the interface description. *)
Definition response_object (v : pyval) : Prop :=
  exists d r m, v = PDict d /\ d !! "response" = Some r /\ d !! "metrics" = Some m.

Definition env_ok (sc : script) : env := env_of store_empty sc.

Definition failing_script : script :=
  Script [] (inl (ServiceError "model unavailable")) (PInt 0).

(** *** The knowledge-base connector in the words of its description *)

(** Every started client and every client that served a request was created
    earlier. *)
Definition kb_wf (s : st) : Prop :=
  (forall i, i ∈ kb_live s -> i < kb_next s) /\
  Forall (fun c => c < kb_next s) (kb_calls s).

(** During a session: the counter and the started clients are fixed and the
    requests made so far all went through [kb_client]. *)
Definition kb_during (n : nat) (live : gset nat) (calls : list nat)
    (kb_client : nat) (s : st) : Prop :=
  kb_next s = n /\ kb_live s = live /\
  exists k, kb_calls s = calls ++ replicate k kb_client.

(** What one specialist invocation does to the connector state: nothing is
    left started, and the requests it made all went through the client
    created at its start. *)
Definition kb_scoped (s s' : st) : Prop :=
  kb_live s' = kb_live s /\
  exists k,
    kb_calls s' = kb_calls s ++ replicate k (kb_next s) /\
    (kb_next s' = kb_next s \/ kb_next s' = S (kb_next s)) /\
    (0 < k -> kb_next s' = S (kb_next s)).

(** A model that searches the knowledge base once, then answers. *)
Definition search_script : script :=
  Script [Round None "kb_search" (PStr "Aeternum") (replying PNone)]
         (inr final_answer) (PInt 1).

(** A connector whose tool listing fails. *)
Definition env_listing_fails : env :=
  Env (inr store_empty) (fun _ => inr tt) (inr tt)
      (inl (ServiceError "listing failed")) answer_script.

(** *** Memory scoping of the specialists in the words of its description *)

(** A call on the memory service scoped by the project: a provider tool built
    with the project as actor and the setup's namespace, or an event written
    on the setup's memory with the project as actor. *)
Definition op_scoped (ms : memory_setup) (project_id : string) (sess : pyval)
    (o : mem_op) : Prop :=
  match o with
  | OpProviderTool cfg _ =>
      cfg = ProviderCfg (ms_memory_id ms) (PStr project_id) sess
              (ms_namespace ms project_id)
  | OpCreateEvent mid actor session _ =>
      mid = ms_memory_id ms /\ actor = PStr project_id /\ session = sess
  | OpGetLastK _ _ _ _ _ => False
  end.

Definition ops_scoped (ms : memory_setup) (project_id : string) (sess : pyval)
    (before : list mem_op) (s : st) : Prop :=
  exists ops, mem_ops s = before ++ ops /\
              Forall (op_scoped ms project_id sess) ops.

Definition ops_during (ms : memory_setup) (project_id : string) (sess : pyval)
    (before : list mem_op) (s : st) : Prop :=
  actor_of s = PStr project_id /\ session_of s = sess /\
  ops_scoped ms project_id sess before s.

(** The namespace each specialist with memory reads, as a function of the
    project identifier. *)
Definition namespace_of (ep : entrypoint) (project_id : string) : string :=
  match ep with
  | GameplayMemory => "project/gameplay/" +:+ project_id +:+ "/semantic"
  | _ => "project/" +:+ project_id +:+ "/semantic"
  end.

(** A model that consults the memory tool once, then answers. *)
Definition recall_script : script :=
  Script [Round None "agent_core_memory" (PStr "recall") (replying PNone)]
         (inr final_answer) (PInt 1).

Definition bob_hello : gmap string string :=
  <["user_id" := "bob"]> {[ "prompt" := "hello" ]}.

(** The call ended in a [TypeError] and left the state as it was. *)
Definition raises_type_error {A} (r : result A * st) : Prop :=
  match r with
  | (inl (TypeError _), s) => s = fresh_state
  | _ => False
  end.

(** *** What a delegation round leaves in the accumulator *)

Definition delegate_of_tool (name : string) : option delegate :=
  if String.eqb name "get_gameplay_agent" then Some Gameplay
  else if String.eqb name "get_lore_agent" then Some Lore
  else if String.eqb name "get_strategy_agent" then Some Strategy
  else None.

(** The decoded reply of a delegation, when there is one. *)
Definition reply_of (o : orchestrator) (d : delegate) (w : world) (payload : pyval)
    : option pyval :=
  match ssm_get_parameter w (arn_parameter o d) with
  | inr arn =>
      match invoke_agent_runtime w arn "DEFAULT" (PDict {[ "prompt" := payload ]}) with
      | inr body =>
          match json_loads w body with
          | inr response => Some response
          | inl _ => None
          end
      | inl _ => None
      end
  | inl _ => None
  end.

(** The metrics records a round of the orchestrator with memory appends:
    the [metrics] field of the reply of a delegation, nothing otherwise. *)
Definition round_metrics (r : round) : list pyval :=
  match delegate_of_tool (r_tool r) with
  | Some d =>
      match reply_of OrchMemory d (r_world r) (r_input r) with
      | Some response =>
          match subscript response "metrics" with
          | inr m => [m]
          | inl _ => []
          end
      | None => []
      end
  | None => []
  end.

(** The round is a delegation that completes: its reply carries both
    fields. *)
Definition round_completes (r : round) : bool :=
  match delegate_of_tool (r_tool r) with
  | Some d =>
      match reply_of OrchMemory d (r_world r) (r_input r) with
      | Some response =>
          match subscript response "metrics", subscript response "response" with
          | inr _, inr _ => true
          | _, _ => false
          end
      | None => false
      end
  | None => false
  end.

(** No reply carries [metrics] without [response]. *)
Definition replies_whole (rs : list round) : Prop :=
  Forall (fun r => round_metrics r <> [] -> round_completes r = true) rs.

Definition keeps_toolmetrics {A} (m : M A) : Prop :=
  forall s, toolmetrics (m s).2 = toolmetrics s.

(** *** Concrete inputs for the further properties *)


(** Two delegations, the first answered in full, the second by the
    specialist's error string. *)
Definition two_calls_script : script :=
  Script [Round None "get_lore_agent" (PStr "q") (replying good_reply);
          Round (Some "next") "get_strategy_agent" (PStr "q")
            (replying error_string_reply)]
         (inr final_answer) (PInt 1).

(** Services whose parameter store is unreachable. *)
Definition ssm_down : world :=
  World (fun _ => inl (ServiceError "ParameterNotFound")) (fun _ _ _ => inr "body")
        (fun _ => inr good_reply) (fun _ _ => inr (PStr "ok")).

(** An invocation whose [MemoryClient] cannot be built. *)
Definition env_no_memory_client : env :=
  Env (inl (ServiceError "no credentials")) (fun _ => inr tt) (inr tt)
      (inr ["kb_search"]) answer_script.

(** *** Which layers an entrypoint reaches *)

Definition uses_memory (ep : entrypoint) : bool :=
  match ep with
  | AnalystMemory | LoreMemory | GameplayMemory | StrategyMemory => true
  | _ => false
  end.

(** The connector state: identities handed out, started clients, requests. *)
Definition kb_state (s : st) : nat * gset nat * list nat :=
  (kb_next s, kb_live s, kb_calls s).

(** A call of the orchestrator on the memory service scoped by the user: the
    load of the last five turns of the session log, an event written on the
    session log or on the preferences memory, or a provider tool over
    [analyst/{user_id}/preferences]; always with the user as actor. *)
Definition analyst_op_scoped (user_id : string) (sess : pyval) (o : mem_op) : Prop :=
  match o with
  | OpGetLastK mid actor session k branch =>
      mid = WithMemory.session_memory_id /\ actor = PStr user_id /\ session = sess /\
      k = 5 /\ branch = "main"
  | OpCreateEvent mid actor session _ =>
      (mid = WithMemory.session_memory_id \/ mid = WithMemory.user_prefs_memory_id) /\
      actor = PStr user_id /\ session = sess
  | OpProviderTool cfg _ =>
      cfg = ProviderCfg WithMemory.user_prefs_memory_id (PStr user_id) sess
              ("analyst/" +:+ user_id +:+ "/preferences")
  end.

Definition carol_project : gmap string string :=
  <["project_id" := "other-game"]> {[ "prompt" := "hello" ]}.

(** ** The operator's scripts: deployment, verification and smoke test

    [Agents/deploy_no_memories.py], [Agents/deploy_with_memories.py],
    [Agents/verify_memory_agent_fixes.py] and [Agents/test_agent.py] run
    against AWS.  IAM and the parameter store are stores with the documented
    outcome of each call the scripts make: [create_role] on a taken name
    raises [EntityAlreadyExistsException]; [get_role], [get_role_policy] and
    [put_role_policy] on a missing role or policy raise
    [NoSuchEntityException]; [put_parameter] with [Overwrite=True] replaces;
    [get_parameter] on a missing name raises; a policy document is read back
    as it was written.  The starter toolkit, STS, the remote runtime,
    [os.chdir], the environment, the files read and the operator's reply are
    oracles.  Console output is not modelled: a script's [main] answers with
    the values its summary prints. *)

Module Ops.

(** How a call can end without a value.  [SystemExit] does not derive from
    [Exception]; [Unfinished] marks a polling loop cut by the fuel. *)
Inductive failure :=
| Exc (e : exn)
| NoSuchEntityException
| EntityAlreadyExistsException
| SystemExit (code : Z)
| Unfinished.

(** What [except Exception] catches. *)
Definition is_exception (f : failure) : bool :=
  match f with
  | SystemExit _ | Unfinished => false
  | _ => true
  end.

(** [response['Role']] of [create_role] and [get_role]. *)
Record iam_role := IamRole {
  RoleName : string;
  Arn : string
}.

(** A toolkit [Runtime] once configured ([auto_create_ecr=True] and
    [requirements_file="requirements.txt"] are constants of both scripts). *)
Record runtime := Runtime {
  entrypoint : string;
  execution_role : string;
  region : option string;
  agent_name : string
}.

(** One call of [invoke_agent_runtime]. *)
Record invocation := Invocation {
  agentRuntimeArn : string;
  qualifier : string;
  payload : pyval
}.

Record cloud := Cloud {
  cwd : string;                                  (* working directory of the process *)
  parameters : gmap string string;               (* Parameter Store *)
  roles : gmap string pyval;                     (* IAM roles with their trust policy *)
  role_policies : gmap (string * string) pyval;  (* inline policies by role and name *)
  slept : nat;                                   (* seconds spent in time.sleep *)
  launched : list (string * runtime);            (* runtime.launch calls, with the cwd *)
  invoked : list invocation                      (* invoke_agent_runtime calls *)
}.

Record services := Services {
  env_AWS_REGION : option string;           (* os.getenv("AWS_REGION") *)
  profile_region : option string;           (* region of a Session given none *)
  sts_account : result string;              (* get_caller_identity()['Account'] *)
  role_arn_of : string -> string;           (* the ARN IAM gives a role name *)
  parameter_arn_of : string -> string;      (* the ARN of a parameter name *)
  os_chdir : string -> result unit;
  rt_configure : runtime -> result unit;
  rt_launch : runtime -> result string;     (* launch_result.agent_arn *)
  rt_status : runtime -> nat -> result string; (* the status of the i-th poll *)
  invoke_outcome : invocation -> result string;
  stdin_choice : string;                    (* input(...).strip() *)
  files : gmap string string                (* readable files by path *)
}.

Definition D (A : Type) : Type := cloud -> (failure + A) * cloud.

Definition ret {A} (x : A) : D A := fun c => (inr x, c).
Definition fail {A} (f : failure) : D A := fun c => (inl f, c).
Definition bind {A B} (m : D A) (k : A -> D B) : D B :=
  fun c => match m c with
           | (inr x, c') => k x c'
           | (inl f, c') => (inl f, c')
           end.
Definition lift {A} (r : result A) : D A :=
  fun c => match r with
           | inr x => (inr x, c)
           | inl e => (inl (Exc e), c)
           end.
Definition gets {A} (f : cloud -> A) : D A := fun c => (inr (f c), c).
Definition modify (f : cloud -> cloud) : D unit := fun c => (inr tt, f c).

(** [try: m except Exception as e: h]. *)
Definition try_except {A} (m : D A) (h : failure -> D A) : D A :=
  fun c => match m c with
           | (inl f, c') => if is_exception f then h f c' else (inl f, c')
           | r => r
           end.

(** [try: m except iam.exceptions.NoSuchEntityException: h]. *)
Definition except_no_such_entity {A} (m : D A) (h : D A) : D A :=
  fun c => match m c with
           | (inl NoSuchEntityException, c') => h c'
           | r => r
           end.

(** [try: m except iam.exceptions.EntityAlreadyExistsException: h]. *)
Definition except_already_exists {A} (m : D A) (h : D A) : D A :=
  fun c => match m c with
           | (inl EntityAlreadyExistsException, c') => h c'
           | r => r
           end.

Definition set_cwd (dir : string) (c : cloud) : cloud :=
  Cloud dir (parameters c) (roles c) (role_policies c) (slept c) (launched c)
        (invoked c).
Definition set_parameters (ps : gmap string string) (c : cloud) : cloud :=
  Cloud (cwd c) ps (roles c) (role_policies c) (slept c) (launched c) (invoked c).
Definition set_roles (rs : gmap string pyval) (c : cloud) : cloud :=
  Cloud (cwd c) (parameters c) rs (role_policies c) (slept c) (launched c)
        (invoked c).
Definition set_role_policies (ps : gmap (string * string) pyval) (c : cloud) : cloud :=
  Cloud (cwd c) (parameters c) (roles c) ps (slept c) (launched c) (invoked c).
Definition add_slept (seconds : nat) (c : cloud) : cloud :=
  Cloud (cwd c) (parameters c) (roles c) (role_policies c) (slept c + seconds)
        (launched c) (invoked c).
Definition add_launched (rt : runtime) (c : cloud) : cloud :=
  Cloud (cwd c) (parameters c) (roles c) (role_policies c) (slept c)
        (launched c ++ [(cwd c, rt)]) (invoked c).
Definition add_invoked (i : invocation) (c : cloud) : cloud :=
  Cloud (cwd c) (parameters c) (roles c) (role_policies c) (slept c) (launched c)
        (invoked c ++ [i]).

(** [sys.exit(code)], [os.getcwd()], [os.chdir(dir)], [time.sleep(n)]. *)
Definition sys_exit {A} (code : Z) : D A := fail (SystemExit code).
Definition getcwd : D string := gets cwd.
Definition chdir (sv : services) (dir : string) : D unit :=
  bind (lift (os_chdir sv dir)) (fun _ => modify (set_cwd dir)).
Definition time_sleep (seconds : nat) : D unit := modify (add_slept seconds).

(** The region of [Session(region_name=os.getenv("AWS_REGION"))]. *)
Definition session_region (sv : services) : option string :=
  match env_AWS_REGION sv with
  | Some r => Some r
  | None => profile_region sv
  end.

(** *** IAM *)

Definition iam_create_role (sv : services) (name : string)
    (AssumeRolePolicyDocument : pyval) : D iam_role :=
  fun c => match roles c !! name with
           | Some _ => (inl EntityAlreadyExistsException, c)
           | None => (inr (IamRole name (role_arn_of sv name)),
                      set_roles (<[name := AssumeRolePolicyDocument]> (roles c)) c)
           end.

Definition iam_get_role (sv : services) (name : string) : D iam_role :=
  fun c => match roles c !! name with
           | Some _ => (inr (IamRole name (role_arn_of sv name)), c)
           | None => (inl NoSuchEntityException, c)
           end.

Definition iam_put_role_policy (name PolicyName : string) (PolicyDocument : pyval)
    : D unit :=
  fun c => match roles c !! name with
           | Some _ =>
               (inr tt,
                set_role_policies
                  (<[(name, PolicyName) := PolicyDocument]> (role_policies c)) c)
           | None => (inl NoSuchEntityException, c)
           end.

(** [iam.get_role_policy(...)['PolicyDocument']]. *)
Definition iam_get_role_policy (name PolicyName : string) : D pyval :=
  fun c => match role_policies c !! (name, PolicyName) with
           | Some doc => (inr doc, c)
           | None => (inl NoSuchEntityException, c)
           end.

(** *** Parameter Store *)

Definition ssm_put_parameter (Name Value : string) : D unit :=
  modify (fun c => set_parameters (<[Name := Value]> (parameters c)) c).

(** [ssm.get_parameter(Name=...)['Parameter']]: its [Value] and [ARN]. *)
Definition ssm_get_parameter (sv : services) (Name : string) : D (string * string) :=
  fun c => match parameters c !! Name with
           | Some v => (inr (v, parameter_arn_of sv Name), c)
           | None => (inl (Exc (ServiceError "ParameterNotFound")), c)
           end.

(** *** The starter toolkit and the remote runtime *)

Definition runtime_configure (sv : services) (rt : runtime) : D unit :=
  lift (rt_configure sv rt).

(** [runtime.launch(auto_update_on_conflict="true").agent_arn]. *)
Definition runtime_launch (sv : services) (rt : runtime) : D string :=
  bind (modify (add_launched rt)) (fun _ => lift (rt_launch sv rt)).

(** [client.invoke_agent_runtime(...)['response'].read().decode('utf-8')]. *)
Definition invoke_agent_runtime (sv : services) (i : invocation) : D string :=
  bind (modify (add_invoked i)) (fun _ => lift (invoke_outcome sv i)).

End Ops.

Declare Scope ops_scope.
Delimit Scope ops_scope with ops.
Notation "x <- m ;; k" := (Ops.bind m (fun x => k))
  (at level 100, m at next level, right associativity) : ops_scope.
Notation "m ;;; k" := (Ops.bind m (fun _ => k))
  (at level 100, right associativity) : ops_scope.

(** *** Python's [in] on strings and the values iterated by the verifier *)

(** [sub in s] for two strings. *)
Fixpoint contains (s sub : string) : bool :=
  String.prefix sub s ||
  match s with
  | EmptyString => false
  | String _ rest => contains rest sub
  end.

(** The elements a [for] loop or [list.extend] draws from a value.  A dict
    yields its keys; their order is not tracked. *)
Definition iterate (v : pyval) : result (list pyval) :=
  match v with
  | PList l => inr l
  | PStr s => inr (map (fun c => PStr (String c EmptyString)) (list_ascii_of_string s))
  | PDict d => inr (map (fun kv => PStr kv.1) (map_to_list d))
  | PNone => inl (TypeError "'NoneType' object is not iterable")
  | PBool _ => inl (TypeError "'bool' object is not iterable")
  | PInt _ => inl (TypeError "'int' object is not iterable")
  end.

(** [action in a] for a string [action]. *)
Definition py_in (action : string) (a : pyval) : result bool :=
  match a with
  | PStr s => inr (contains s action)
  | PList l =>
      inr (existsb (fun x => match x with
                             | PStr s => String.eqb s action
                             | _ => false
                             end) l)
  | PDict d => inr (bool_decide (is_Some (d !! action)))
  | PNone => inl (TypeError "argument of type 'NoneType' is not iterable")
  | PBool _ => inl (TypeError "argument of type 'bool' is not iterable")
  | PInt _ => inl (TypeError "argument of type 'int' is not iterable")
  end.

(** A dict literal and a list of strings. *)
Definition obj (fields : list (string * pyval)) : pyval := PDict (list_to_map fields).
Definition strs (l : list string) : pyval := PList (map PStr l).
(** ** Agents/deploy_no_memories.py *)

Module DeployNoMemories.
Import Ops.
Local Open Scope ops_scope.

Definition configure_runtime (sv : services) (agent_name : string)
    (agentcore_iam_role : iam_role) (python_file_name : string)
    : D (unit * runtime) :=
  let region := session_region sv in
  let agentcore_runtime :=
    Runtime python_file_name (Arn agentcore_iam_role) region agent_name in
  response <- runtime_configure sv agentcore_runtime ;;
  ret (response, agentcore_runtime).

Definition end_status : list string :=
  ["READY"; "CREATE_FAILED"; "DELETE_FAILED"; "UPDATE_FAILED"].

(** The [while status not in end_status:] loop, entered with the status of
    the poll before [i]. *)
Fixpoint poll (fuel : nat) (sv : services) (agent_runtime : runtime) (i : nat)
    (status : string) : D string :=
  if bool_decide (status ∈ end_status) then ret status
  else
    match fuel with
    | O => fail Unfinished
    | S fuel' =>
        time_sleep 10 ;;;
        status' <- lift (rt_status sv agent_runtime i) ;;
        poll fuel' sv agent_runtime (S i) status'
    end.

Definition check_status (fuel : nat) (sv : services) (agent_runtime : runtime)
    : D string :=
  status <- lift (rt_status sv agent_runtime 0) ;;
  poll fuel sv agent_runtime 1 status.

Definition get_existing_role_arn (sv : services) (role_name : string) : D iam_role :=
  except_no_such_entity (iam_get_role sv role_name) (sys_exit 1).

Definition deploy_agent (fuel : nat) (sv : services)
    (agent_dir agent_file agent_name role_name param_name : string) : D string :=
  original_dir <- getcwd ;;
  chdir sv agent_dir ;;;
  iam_role <- get_existing_role_arn sv role_name ;;
  configured <- configure_runtime sv agent_name iam_role agent_file ;;
  let runtime := configured.2 in
  agent_arn <- runtime_launch sv runtime ;;
  status <- check_status fuel sv runtime ;;
  ssm_put_parameter param_name agent_arn ;;;
  chdir sv original_dir ;;;
  ret agent_arn.

Record agent_entry := AgentEntry {
  a_dir : string;
  a_file : string;
  a_name : string;
  a_role : string;
  a_param : string
}.

Definition base_dir : string :=
  "/Users/sampatze/Documents/Projects/gitlab/accelerate-game-design-reviews-genai-agents/Agents/basic-strands-agents".

Definition agents : list agent_entry :=
  [AgentEntry (base_dir +:+ "/gameplay-agent-basic") "gameplay_agent.py"
     "gameplay_agent_no_memory" "agentcore-gameplay_agent_gbpz6w-role"
     "/agents/gameplay_agent_arn_no_memories";
   AgentEntry (base_dir +:+ "/lore-agent-basic") "lore_agent.py"
     "lore_agent_no_memories" "agentcore-lore_agent_piscxw-role"
     "/agents/lore_agent_arn_no_memories";
   AgentEntry (base_dir +:+ "/strategy-agent-basic") "strategy_agent.py"
     "strategy_agent_no_memories" "agentcore-strategy_agent_8zvhvo-role"
     "/agents/strategy_agent_arn_no_memories";
   AgentEntry (base_dir +:+ "/game-analyst-agent-basic") "game_analyst_agent.py"
     "game_analyst_agent_no_memories" "agentcore-game_analyst_agent_fm2dr4-role"
     "/agents/game_analyst_agent_arn_no_memories"].

(** [d[k] = v] on a dict kept in insertion order. *)
Fixpoint dict_set (d : list (string * string)) (k v : string)
    : list (string * string) :=
  match d with
  | [] => [(k, v)]
  | (k', v') :: rest =>
      if String.eqb k' k then (k', v) :: rest else (k', v') :: dict_set rest k v
  end.

(** The [for agent in agents:] loop of [main]. *)
Fixpoint deploy_each (fuel : nat) (sv : services) (agents : list agent_entry)
    (deployed_arns : list (string * string)) : D (list (string * string)) :=
  match agents with
  | [] => ret deployed_arns
  | agent :: rest =>
      deployed_arns' <-
        try_except
          (arn <- deploy_agent fuel sv (a_dir agent) (a_file agent) (a_name agent)
                    (a_role agent) (a_param agent) ;;
           ret (dict_set deployed_arns (a_name agent) arn))
          (fun e => ret deployed_arns) ;;
      deploy_each fuel sv rest deployed_arns'
  end.

(** [main()]: the value is [deployed_arns], which the summary prints. *)
Definition main (fuel : nat) (sv : services) : D (list (string * string)) :=
  deploy_each fuel sv agents [].

End DeployNoMemories.
(** ** Agents/deploy_with_memories.py

    [generate_random_suffix] draws from [random] and is called nowhere; it
    is left out. *)

Module DeployWithMemories.
Import Ops.
Local Open Scope ops_scope.

Definition trust_policy (region account_id : string) : pyval :=
  obj [("Version", PStr "2012-10-17");
       ("Statement",
        PList [obj [("Sid", PStr "AssumeRolePolicy");
                    ("Effect", PStr "Allow");
                    ("Principal",
                     obj [("Service", PStr "bedrock-agentcore.amazonaws.com")]);
                    ("Action", PStr "sts:AssumeRole");
                    ("Condition",
                     obj [("StringEquals",
                           obj [("aws:SourceAccount", PStr account_id)]);
                          ("ArnLike",
                           obj [("aws:SourceArn",
                                 PStr ("arn:aws:bedrock-agentcore:" +:+ region +:+ ":"
                                       +:+ account_id +:+ ":*"))])])]])].

(** [base_policy["Statement"]] as the literal has it. *)
Definition base_statements (agent_name region account_id : string) : list pyval :=
  [obj [("Sid", PStr "BedrockPermissions");
        ("Effect", PStr "Allow");
        ("Action", strs ["bedrock:InvokeModel";
                         "bedrock:InvokeModelWithResponseStream"]);
        ("Resource", PStr "*")];
   obj [("Sid", PStr "BedrockAgentKnowledgeBasePermissions");
        ("Effect", PStr "Allow");
        ("Action", strs ["bedrock:GetKnowledgeBase";
                         "bedrock:Retrieve";
                         "bedrock:Rerank";
                         "bedrock:ListTagsForResource";
                         "bedrock:ListDataSources"]);
        ("Resource",
         strs ["arn:aws:bedrock:" +:+ region +:+ ":" +:+ account_id
               +:+ ":knowledge-base/*"])];
   obj [("Sid", PStr "BedrockAgentListKnowledgeBasePermissions");
        ("Effect", PStr "Allow");
        ("Action", strs ["bedrock:ListKnowledgeBases"]);
        ("Resource",
         strs ["arn:aws:bedrock:" +:+ region +:+ ":" +:+ account_id +:+ ":*"])];
   obj [("Sid", PStr "S3Permissions");
        ("Effect", PStr "Allow");
        ("Action", strs ["s3:GetObject"; "s3:ListBucket"]);
        ("Resource", strs ["arn:aws:s3:::*"])];
   obj [("Sid", PStr "S3VectorPermissions");
        ("Effect", PStr "Allow");
        ("Action", strs ["s3vectors:GetIndex";
                         "s3vectors:ListIndexes";
                         "s3vectors:ListVectorBuckets";
                         "s3vectors:ListVectors";
                         "s3vectors:GetVectors";
                         "s3vectors:QueryVectors"]);
        ("Resource",
         strs ["arn:aws:s3vectors:" +:+ region +:+ ":" +:+ account_id
               +:+ ":bucket/*new-world*/index/*";
               "arn:aws:s3vectors:" +:+ region +:+ ":" +:+ account_id
               +:+ ":bucket/*new-world*"])];
   obj [("Sid", PStr "ECRImageAccess");
        ("Effect", PStr "Allow");
        ("Action", strs ["ecr:BatchGetImage";
                         "ecr:GetDownloadUrlForLayer";
                         "ecr:GetAuthorizationToken"]);
        ("Resource",
         strs ["arn:aws:ecr:" +:+ region +:+ ":" +:+ account_id
               +:+ ":repository/*"])];
   obj [("Effect", PStr "Allow");
        ("Action", strs ["logs:DescribeLogStreams"; "logs:CreateLogGroup"]);
        ("Resource",
         strs ["arn:aws:logs:" +:+ region +:+ ":" +:+ account_id
               +:+ ":log-group:/aws/bedrock-agentcore/runtimes/*"])];
   obj [("Effect", PStr "Allow");
        ("Action", strs ["logs:DescribeLogGroups"]);
        ("Resource",
         strs ["arn:aws:logs:" +:+ region +:+ ":" +:+ account_id
               +:+ ":log-group:*"])];
   obj [("Effect", PStr "Allow");
        ("Action", strs ["logs:CreateLogStream"; "logs:PutLogEvents"]);
        ("Resource",
         strs ["arn:aws:logs:" +:+ region +:+ ":" +:+ account_id
               +:+ ":log-group:/aws/bedrock-agentcore/runtimes/*:log-stream:*"])];
   obj [("Sid", PStr "ECRTokenAccess");
        ("Effect", PStr "Allow");
        ("Action", strs ["ecr:GetAuthorizationToken"]);
        ("Resource", PStr "*")];
   obj [("Effect", PStr "Allow");
        ("Action", strs ["xray:PutTraceSegments";
                         "xray:PutTelemetryRecords";
                         "xray:GetSamplingRules";
                         "xray:GetSamplingTargets"]);
        ("Resource", strs ["*"])];
   obj [("Effect", PStr "Allow");
        ("Resource", PStr "*");
        ("Action", PStr "cloudwatch:PutMetricData");
        ("Condition",
         obj [("StringEquals",
               obj [("cloudwatch:namespace", PStr "bedrock-agentcore")])])];
   obj [("Sid", PStr "GetAgentAccessToken");
        ("Effect", PStr "Allow");
        ("Action", strs ["bedrock-agentcore:GetWorkloadAccessToken";
                         "bedrock-agentcore:GetWorkloadAccessTokenForJWT";
                         "bedrock-agentcore:GetWorkloadAccessTokenForUserId"]);
        ("Resource",
         strs ["arn:aws:bedrock-agentcore:" +:+ region +:+ ":" +:+ account_id
               +:+ ":workload-identity-directory/default";
               "arn:aws:bedrock-agentcore:" +:+ region +:+ ":" +:+ account_id
               +:+ ":workload-identity-directory/default/workload-identity/"
               +:+ agent_name +:+ "-*"])];
   obj [("Sid", PStr "GetParameterSSMAccess");
        ("Effect", PStr "Allow");
        ("Action", strs ["ssm:GetParameter"]);
        ("Resource", PStr "*")]].

Definition memory_arn (region account_id mid : string) : string :=
  "arn:aws:bedrock-agentcore:" +:+ region +:+ ":" +:+ account_id +:+ ":memory/"
  +:+ mid.

Definition memory_statement (region account_id : string) (memory_ids : list string)
    : pyval :=
  obj [("Effect", PStr "Allow");
       ("Action", strs ["bedrock-agentcore:GetMemory";
                        "bedrock-agentcore:RetrieveMemoryRecords";
                        "bedrock-agentcore:GetMemoryRecord";
                        "bedrock-agentcore:CreateEvent";
                        "bedrock-agentcore:GetEvent";
                        "bedrock-agentcore:CreateMemory";
                        "bedrock-agentcore:DeleteMemoryRecord";
                        "bedrock-agentcore:DeleteMemory";
                        "bedrock-agentcore:UpdateMemory"]);
       ("Resource", strs (map (memory_arn region account_id) memory_ids))].

Definition list_statement : pyval :=
  obj [("Effect", PStr "Allow");
       ("Action", strs ["bedrock-agentcore:ListEvents";
                        "bedrock-agentcore:ListMemories";
                        "bedrock-agentcore:ListMemoryRecords";
                        "bedrock-agentcore:ListSessions"]);
       ("Resource", PStr "*")].

(** [base_policy] once the memory statements are appended
    ([if memory_ids:] holds for a non-empty list). *)
Definition base_policy (agent_name region account_id : string)
    (memory_ids : option (list string)) : pyval :=
  obj [("Version", PStr "2012-10-17");
       ("Statement",
        PList (base_statements agent_name region account_id ++
               match memory_ids with
               | Some (mid :: mids) =>
                   [memory_statement region account_id (mid :: mids); list_statement]
               | _ => []
               end))].

Definition create_agentcore_role (sv : services) (agent_name region : string)
    (memory_ids : option (list string)) : D iam_role :=
  account_id <- lift (sts_account sv) ;;
  let role_name := "agentcore-" +:+ agent_name +:+ "-role" in
  response <-
    except_already_exists
      (iam_create_role sv role_name (trust_policy region account_id))
      (iam_get_role sv role_name) ;;
  iam_put_role_policy role_name "AgentCorePolicy"
    (base_policy agent_name region account_id memory_ids) ;;;
  ret response.

Definition orchestrator_policy (sub_agent_arns sub_agent_param_arns : list string)
    : pyval :=
  obj [("Version", PStr "2012-10-17");
       ("Statement",
        PList [obj [("Effect", PStr "Allow");
                    ("Action", strs ["bedrock-agentcore:InvokeAgentRuntime"]);
                    ("Resource",
                     strs (map (fun arn => arn +:+ "/runtime-endpoint/DEFAULT")
                               sub_agent_arns ++ sub_agent_arns))];
               obj [("Effect", PStr "Allow");
                    ("Action", strs ["ssm:GetParameter"]);
                    ("Resource", strs sub_agent_param_arns)]])].

Definition add_orchestrator_permissions (sv : services) (role_name : string)
    (sub_agent_arns sub_agent_param_arns : list string) (region : string) : D unit :=
  account_id <- lift (sts_account sv) ;;
  iam_put_role_policy role_name "SubAgentInvokePermissions"
    (orchestrator_policy sub_agent_arns sub_agent_param_arns).

Definition configure_runtime (sv : services) (agent_name role_arn
    python_file_name : string) : D (unit * runtime) :=
  let region := session_region sv in
  let agentcore_runtime := Runtime python_file_name role_arn region agent_name in
  response <- runtime_configure sv agentcore_runtime ;;
  ret (response, agentcore_runtime).

(** The same text as in deploy_no_memories.py, up to the printed line. *)
Definition check_status : nat -> services -> runtime -> D string :=
  DeployNoMemories.check_status.

Definition deploy_agent (fuel : nat) (sv : services)
    (agent_dir agent_file agent_name role_arn param_name : string) : D string :=
  original_dir <- getcwd ;;
  chdir sv agent_dir ;;;
  configured <- configure_runtime sv agent_name role_arn agent_file ;;
  let runtime := configured.2 in
  agent_arn <- runtime_launch sv runtime ;;
  status <- check_status fuel sv runtime ;;
  ssm_put_parameter param_name agent_arn ;;;
  chdir sv original_dir ;;;
  ret agent_arn.

Definition base_dir : string :=
  "/Users/sampatze/Documents/Projects/gitlab/accelerate-game-design-reviews-genai-agents/Agents/strands-agents-with-memory".

Definition gameplay_memory_id : string := "Project_gameplay_597edeef-XOt1OmF0Zd".
Definition lore_memory_id : string := "Project_lore_78f09820-iidpdZ4wfj".
Definition strategy_memory_id : string := "Project_strategy_3443cbe2-0vOWxMHl4Y".
Definition user_prefs_memory_id : string := "GameAnalystUserPrefs_37d1e66e-Ytm1ni3Db5".
Definition session_memory_id : string := "GameAnalystShortTermMemory_6502d2be-wJVopQEE4H".

(** The four [create_agentcore_role] calls that open [main]. *)
Definition create_roles (sv : services) (region : string)
    : D (iam_role * iam_role * iam_role * iam_role) :=
  gameplay_role <- create_agentcore_role sv "gameplay_agent_mem" region
                     (Some [gameplay_memory_id]) ;;
  lore_role <- create_agentcore_role sv "lore_agent_mem" region
                 (Some [lore_memory_id]) ;;
  strategy_role <- create_agentcore_role sv "strategy_agent_mem" region
                     (Some [strategy_memory_id]) ;;
  analyst_role <- create_agentcore_role sv "game_analyst_mem" region
                    (Some [user_prefs_memory_id; session_memory_id]) ;;
  ret (gameplay_role, lore_role, strategy_role, analyst_role).

(** The branch on the operator's choice: the sub-agents' addresses, either
    deployed now or read from the parameter store, and the grant to the
    orchestrator's role. *)
Definition sub_agents (fuel : nat) (sv : services) (region : string)
    (gameplay_role lore_role strategy_role analyst_role : iam_role)
    : D (string * string * string) :=
  let choice := stdin_choice sv in
  if String.eqb choice "1" then
    gameplay_arn <- deploy_agent fuel sv (base_dir +:+ "/gameplay-agent-with-memory")
                      "gameplay_agent.py" "gameplay_agent" (Arn gameplay_role)
                      "/agents/gameplay_agent_arn" ;;
    lore_arn <- deploy_agent fuel sv (base_dir +:+ "/lore-agent-with-memory")
                  "lore_agent.py" "lore_agent" (Arn lore_role)
                  "/agents/lore_agent_arn" ;;
    strategy_arn <- deploy_agent fuel sv (base_dir +:+ "/strategy-agent-with-memory")
                      "strategy_agent.py" "strategy_agent" (Arn strategy_role)
                      "/agents/strategy_agent_arn" ;;
    gameplay_param <- ssm_get_parameter sv "/agents/gameplay_agent_arn" ;;
    lore_param <- ssm_get_parameter sv "/agents/lore_agent_arn" ;;
    strategy_param <- ssm_get_parameter sv "/agents/strategy_agent_arn" ;;
    add_orchestrator_permissions sv (RoleName analyst_role)
      [gameplay_arn; lore_arn; strategy_arn]
      [gameplay_param.2; lore_param.2; strategy_param.2] region ;;;
    ret (gameplay_arn, lore_arn, strategy_arn)
  else
    gameplay_value <- ssm_get_parameter sv "/agents/gameplay_agent_arn" ;;
    lore_value <- ssm_get_parameter sv "/agents/lore_agent_arn" ;;
    strategy_value <- ssm_get_parameter sv "/agents/strategy_agent_arn" ;;
    gameplay_param <- ssm_get_parameter sv "/agents/gameplay_agent_arn" ;;
    lore_param <- ssm_get_parameter sv "/agents/lore_agent_arn" ;;
    strategy_param <- ssm_get_parameter sv "/agents/strategy_agent_arn" ;;
    add_orchestrator_permissions sv (RoleName analyst_role)
      [gameplay_value.1; lore_value.1; strategy_value.1]
      [gameplay_param.2; lore_param.2; strategy_param.2] region ;;;
    ret (gameplay_value.1, lore_value.1, strategy_value.1).

(** [main()]: the value is the four addresses its last lines print. *)
Definition main (fuel : nat) (sv : services) : D (string * string * string * string) :=
  let region := default "us-west-2" (env_AWS_REGION sv) in
  created <- create_roles sv region ;;
  let '(gameplay_role, lore_role, strategy_role, analyst_role) := created in
  arns <- sub_agents fuel sv region gameplay_role lore_role strategy_role
            analyst_role ;;
  let '(gameplay_arn, lore_arn, strategy_arn) := arns in
  analyst_arn <- deploy_agent fuel sv (base_dir +:+ "/game-analyst-agent-with-memory")
                   "game_analyst_agent.py" "game_analyst_agent" (Arn analyst_role)
                   "/agents/game_analyst_agent_arn" ;;
  ret (gameplay_arn, lore_arn, strategy_arn, analyst_arn).

End DeployWithMemories.

(** ** Agents/verify_memory_agent_fixes.py *)

Module VerifyFixes.
Import Ops.
Local Open Scope ops_scope.

Definition memory_roles : list string :=
  ["agentcore-gameplay_agent_mem-role";
   "agentcore-lore_agent_mem-role";
   "agentcore-strategy_agent_mem-role";
   "agentcore-game_analyst_mem-role"].

Definition required_actions : list string :=
  ["bedrock:InvokeModel";
   "bedrock:GetKnowledgeBase";
   "bedrock:Retrieve";
   "bedrock:Rerank";
   "s3:GetObject";
   "s3vectors:QueryVectors";
   "ecr:GetAuthorizationToken";
   "logs:CreateLogStream";
   "xray:PutTraceSegments";
   "bedrock-agentcore:GetWorkloadAccessToken";
   "bedrock-agentcore:CreateEvent";
   "bedrock-agentcore:ListMemories"].

(** One turn of [for statement in policy_doc['Statement']:]. *)
Definition add_actions (all_actions : list pyval) (statement : pyval)
    : result (list pyval) :=
  match statement with
  | PDict d =>
      match default (PList []) (d !! "Action") with
      | PStr a => inr (all_actions ++ [PStr a])
      | actions =>
          match iterate actions with
          | inr items => inr (all_actions ++ items)
          | inl e => inl e
          end
      end
  | _ => inl (AttributeError "object has no attribute 'get'")
  end.

Fixpoint collect_actions (statements : list pyval) (all_actions : list pyval)
    : result (list pyval) :=
  match statements with
  | [] => inr all_actions
  | statement :: rest =>
      match add_actions all_actions statement with
      | inr all_actions' => collect_actions rest all_actions'
      | inl e => inl e
      end
  end.

(** [any(action in a for a in all_actions)]. *)
Fixpoint any_in (action : string) (all_actions : list pyval) : result bool :=
  match all_actions with
  | [] => inr false
  | a :: rest =>
      match py_in action a with
      | inr true => inr true
      | inr false => any_in action rest
      | inl e => inl e
      end
  end.

(** The [for action in required_actions:] loop. *)
Fixpoint find_missing (required : list string) (all_actions : list pyval)
    (missing : list string) : result (list string) :=
  match required with
  | [] => inr missing
  | action :: rest =>
      match any_in action all_actions with
      | inr found =>
          find_missing rest all_actions
            (if found then missing else missing ++ [action])
      | inl e => inl e
      end
  end.

(** What the [try] body computes from a policy document. *)
Definition missing_in (policy_doc : pyval) : result (list string) :=
  match subscript policy_doc "Statement" with
  | inr v =>
      match iterate v with
      | inr statements =>
          match collect_actions statements [] with
          | inr all_actions => find_missing required_actions all_actions []
          | inl e => inl e
          end
      | inl e => inl e
      end
  | inl e => inl e
  end.

(** The [for role_name in memory_roles:] loop. *)
Fixpoint check_roles (role_names : list string) (all_good : bool) : D bool :=
  match role_names with
  | [] => ret all_good
  | role_name :: rest =>
      all_good' <-
        try_except
          (policy_doc <- iam_get_role_policy role_name "AgentCorePolicy" ;;
           missing <- lift (missing_in policy_doc) ;;
           ret (match missing with [] => all_good | _ :: _ => false end))
          (fun e => ret false) ;;
      check_roles rest all_good'
  end.

Definition verify_iam_permissions : D bool := check_roles memory_roles true.

Definition agents : list (string * string) :=
  [("gameplay", "Project_gameplay_597edeef-XOt1OmF0Zd");
   ("lore", "Project_lore_78f09820-iidpdZ4wfj");
   ("strategy", "Project_strategy_3443cbe2-0vOWxMHl4Y")].

Definition base_path : string :=
  "/Users/sampatze/Documents/Projects/gitlab/accelerate-game-design-reviews-genai-agents/Agents/strands-agents-with-memory".

Definition agent_file (agent_name : string) : string :=
  base_path +:+ "/" +:+ agent_name +:+ "-agent-with-memory/" +:+ agent_name
  +:+ "_agent.py".

(** The [for agent_name, expected_id in agents:] loop. *)
Fixpoint check_files (sv : services) (agents : list (string * string))
    (all_good : bool) : bool :=
  match agents with
  | [] => all_good
  | (agent_name, expected_id) :: rest =>
      match files sv !! agent_file agent_name with
      | None => check_files sv rest false
      | Some content =>
          if contains content expected_id then check_files sv rest all_good
          else if contains content "{" && contains content "memory_id}"
               then check_files sv rest false
               else check_files sv rest all_good
      end
  end.

Definition verify_agent_code (sv : services) : bool := check_files sv agents true.

End VerifyFixes.

(** ** Agents/test_agent.py *)

Module TestAgent.
Import Ops.
Local Open Scope ops_scope.

Definition test_payload (prompt : string) : pyval :=
  obj [("prompt", PStr prompt);
       ("user_id", PStr "test-user");
       ("project_id", PStr "new-world-aternum")].

Definition test_agent (sv : services) (agent_name agent_arn prompt : string) : D unit :=
  try_except
    (body <- invoke_agent_runtime sv
               (Invocation agent_arn "DEFAULT" (test_payload prompt)) ;;
     ret tt)
    (fun e => ret tt).

Definition agents : list (string * string * string) :=
  [("Gameplay Agent", "/agents/gameplay_agent_arn",
    "What weapons scale with Strength?");
   ("Lore Agent", "/agents/lore_agent_arn", "What is the Corruption?");
   ("Strategy Agent", "/agents/strategy_agent_arn",
    "What are the Q1 2026 priorities?");
   ("Game Analyst (Orchestrator)", "/agents/game_analyst_agent_arn",
    "USE ALL TOOLS AND TELL ME IF YOU CANT. I want to add a Corrupted Blade that scales with Strength and aligns with Q1 2026 roadmap. What do you think?")].

(** The [for name, param_name, prompt in agents:] loop of the script. *)
Fixpoint test_each (sv : services) (agents : list (string * string * string))
    : D unit :=
  match agents with
  | [] => ret tt
  | (name, param_name, prompt) :: rest =>
      try_except
        (p <- ssm_get_parameter sv param_name ;;
         test_agent sv name p.1 prompt)
        (fun e => ret tt) ;;;
      test_each sv rest
  end.

Definition run_tests (sv : services) : D unit := test_each sv agents.

End TestAgent.

(** *** Vocabulary for the operator's scripts *)

(** The first [n] polls of the runtime answer with a status that is not
    final. *)
Definition pending (sv : Ops.services) (rt : Ops.runtime) (n : nat) : Prop :=
  forall i, i < n ->
    exists s, Ops.rt_status sv rt i = inr s /\ s ∉ DeployNoMemories.end_status.

(** A runtime that is ready at the third poll. *)
Definition slow_services : Ops.services :=
  Ops.Services (Some "us-west-2") None (inr "123456789012")
    (fun name => "arn:aws:iam::123456789012:role/" +:+ name)
    (fun name => "arn:aws:ssm:us-west-2:123456789012:parameter" +:+ name)
    (fun _ => inr tt) (fun _ => inr tt)
    (fun rt => inr ("arn:runtime/" +:+ Ops.agent_name rt))
    (fun _ i => inr (if (i <? 2)%nat then "CREATING" else "READY"))
    (fun _ => inr "{}") "1" ∅.

(** A runtime whose creation fails at the second poll. *)
Definition failing_services : Ops.services :=
  Ops.Services (Some "us-west-2") None (inr "123456789012")
    (fun name => "arn:aws:iam::123456789012:role/" +:+ name)
    (fun name => "arn:aws:ssm:us-west-2:123456789012:parameter" +:+ name)
    (fun _ => inr tt) (fun _ => inr tt)
    (fun rt => inr ("arn:runtime/" +:+ Ops.agent_name rt))
    (fun _ i => inr (if (i <? 1)%nat then "CREATING" else "CREATE_FAILED"))
    (fun _ => inr "{}") "1" ∅.

Definition a_runtime : Ops.runtime :=
  Ops.Runtime "lore_agent.py" "arn:aws:iam::123456789012:role/r" (Some "us-west-2")
    "lore_agent".

Definition empty_cloud : Ops.cloud := Ops.Cloud "/home" ∅ ∅ ∅ 0 [] [].

(** A cloud in which the role of the basic lore agent exists. *)
Definition cloud_with_role : Ops.cloud :=
  Ops.Cloud "/home" ∅ {[ "agentcore-lore_agent_piscxw-role" := PNone ]} ∅ 0 [] [].

Definition lore_basic_runtime : Ops.runtime :=
  Ops.Runtime "lore_agent.py"
    "arn:aws:iam::123456789012:role/agentcore-lore_agent_piscxw-role"
    (Some "us-west-2") "lore_agent_no_memories".

(** Services that cannot enter the agent's directory. *)
Definition no_directory_services : Ops.services :=
  Ops.Services (Some "us-west-2") None (inr "123456789012")
    (fun name => "arn:aws:iam::123456789012:role/" +:+ name)
    (fun name => "arn:aws:ssm:us-west-2:123456789012:parameter" +:+ name)
    (fun _ => inl (ServiceError "No such file or directory")) (fun _ => inr tt)
    (fun rt => inr ("arn:runtime/" +:+ Ops.agent_name rt))
    (fun _ i => inr "READY")
    (fun _ => inr "{}") "1" ∅.

(** Services whose launch fails. *)
Definition no_launch_services : Ops.services :=
  Ops.Services (Some "us-west-2") None (inr "123456789012")
    (fun name => "arn:aws:iam::123456789012:role/" +:+ name)
    (fun name => "arn:aws:ssm:us-west-2:123456789012:parameter" +:+ name)
    (fun _ => inr tt) (fun _ => inr tt)
    (fun rt => inl (ServiceError "build failed"))
    (fun _ i => inr "READY")
    (fun _ => inr "{}") "1" ∅.

(** [d.get(k)] on a dict kept in insertion order. *)
Definition dict_lookup (d : list (string * string)) (k : string) : option string :=
  snd <$> List.find (fun kv => String.eqb kv.1 k) d.

(** The services of a tool call when the parameter store holds [ps]. *)
Definition stored_parameters (ps : gmap string string) (w : world) : world :=
  World (fun name => match ps !! name with
                     | Some v => inr v
                     | None => inl (ServiceError "ParameterNotFound")
                     end)
        (invoke_agent_runtime w) (json_loads w) (ext_tool w).

(** A cloud in which the four roles of deploy_no_memories.py exist. *)
Definition cloud_with_basic_roles : Ops.cloud :=
  Ops.Cloud "/home" ∅
    (list_to_map (map (fun a => (DeployNoMemories.a_role a, PNone))
                      DeployNoMemories.agents))
    ∅ 0 [] [].

(** The role names and policy keys of deploy_with_memories.py. *)
Definition memory_role_name (agent_name : string) : string :=
  "agentcore-" +:+ agent_name +:+ "-role".

Definition core_policy (agent_name : string) : string * string :=
  (memory_role_name agent_name, "AgentCorePolicy").

(** The inline policies once [main] has created its four roles; [account_id]
    is the caller's account. *)
Definition created_policies (region account_id : string)
    (before : gmap (string * string) pyval) : gmap (string * string) pyval :=
  <[core_policy "game_analyst_mem" :=
      DeployWithMemories.base_policy "game_analyst_mem" region account_id
        (Some [DeployWithMemories.user_prefs_memory_id;
               DeployWithMemories.session_memory_id])]>
    (<[core_policy "strategy_agent_mem" :=
         DeployWithMemories.base_policy "strategy_agent_mem" region account_id
           (Some [DeployWithMemories.strategy_memory_id])]>
       (<[core_policy "lore_agent_mem" :=
            DeployWithMemories.base_policy "lore_agent_mem" region account_id
              (Some [DeployWithMemories.lore_memory_id])]>
          (<[core_policy "gameplay_agent_mem" :=
               DeployWithMemories.base_policy "gameplay_agent_mem" region account_id
                 (Some [DeployWithMemories.gameplay_memory_id])]>
             before))).

(** The region [main] builds the policies for. *)
Definition policy_region (sv : Ops.services) : string :=
  default "us-west-2" (Ops.env_AWS_REGION sv).

(** The sub-agent address [main] reports for a delegate. *)
Definition reported (arns : string * string * string * string) (d : delegate) : string :=
  match arns, d with
  | (gameplay_arn, _, _, _), Gameplay => gameplay_arn
  | (_, lore_arn, _, _), Lore => lore_arn
  | (_, _, strategy_arn, _), Strategy => strategy_arn
  end.

(** The resources of the first statement of a policy document. *)
Definition first_resources (doc : pyval) : list pyval :=
  match doc with
  | PDict d =>
      match d !! "Statement" with
      | Some (PList (PDict st :: _)) =>
          match st !! "Resource" with
          | Some (PList l) => l
          | _ => []
          end
      | _ => []
      end
  | _ => []
  end.

(** A cloud with the three sub-agent addresses already stored. *)
Definition cloud_with_sub_agents : Ops.cloud :=
  Ops.Cloud "/home"
    (<["/agents/gameplay_agent_arn" := "arn:g"]>
       (<["/agents/lore_agent_arn" := "arn:l"]>
          {[ "/agents/strategy_agent_arn" := "arn:s" ]}))
    ∅ ∅ 0 [] [].

(** Services with the operator answering 2: deploy the orchestrator only. *)
Definition orchestrator_only_services : Ops.services :=
  Ops.Services None (Some "eu-west-1") (inr "123456789012")
    (fun name => "arn:aws:iam::123456789012:role/" +:+ name)
    (fun name => "arn:aws:ssm:us-west-2:123456789012:parameter" +:+ name)
    (fun _ => inr tt) (fun _ => inr tt)
    (fun rt => inr ("arn:runtime/" +:+ Ops.agent_name rt))
    (fun _ i => inr "READY")
    (fun _ => inl (ServiceError "throttled")) "2" ∅.

(** The parameter names of the three sub-agents. *)
Definition sub_agent_parameters : list string :=
  ["/agents/gameplay_agent_arn"; "/agents/lore_agent_arn";
   "/agents/strategy_agent_arn"].

(** The invocations the smoke test makes when the parameter store holds
    [ps]: one per listed agent whose parameter exists. *)
Definition test_invocations (ps : gmap string string)
    (agents : list (string * string * string)) : list Ops.invocation :=
  omap (fun agent =>
          (fun arn => Ops.Invocation arn "DEFAULT" (TestAgent.test_payload agent.2))
          <$> ps !! agent.1.2) agents.

(** The launches of deploy_with_memories.py: directory, entrypoint, agent
    name and the role created for it. *)
Definition memory_launch (sv : Ops.services) (folder file name role : string)
    : string * Ops.runtime :=
  (DeployWithMemories.base_dir +:+ folder,
   Ops.Runtime file (Ops.role_arn_of sv (memory_role_name role))
     (Ops.session_region sv) name).

Definition sub_agent_launches (sv : Ops.services) : list (string * Ops.runtime) :=
  [memory_launch sv "/gameplay-agent-with-memory" "gameplay_agent.py"
     "gameplay_agent" "gameplay_agent_mem";
   memory_launch sv "/lore-agent-with-memory" "lore_agent.py"
     "lore_agent" "lore_agent_mem";
   memory_launch sv "/strategy-agent-with-memory" "strategy_agent.py"
     "strategy_agent" "strategy_agent_mem"].

Definition orchestrator_launch (sv : Ops.services) : string * Ops.runtime :=
  memory_launch sv "/game-analyst-agent-with-memory" "game_analyst_agent.py"
    "game_analyst_agent" "game_analyst_mem".

(** What [main] launches, by the operator's choice. *)
Definition memory_launches (sv : Ops.services) : list (string * Ops.runtime) :=
  (if String.eqb (Ops.stdin_choice sv) "1" then sub_agent_launches sv else [])
  ++ [orchestrator_launch sv].

(** The memories an agent's code reaches, by its entrypoint file: the memory
    of its setup for a specialist, the preferences memory and the session
    log for the orchestrator. *)
Definition entrypoint_of_file (file : string) : option entrypoint :=
  if String.eqb file "game_analyst_agent.py" then Some AnalystMemory
  else if String.eqb file "lore_agent.py" then Some LoreMemory
  else if String.eqb file "gameplay_agent.py" then Some GameplayMemory
  else if String.eqb file "strategy_agent.py" then Some StrategyMemory
  else None.

Definition memories_of (ep : entrypoint) : list string :=
  match memory_setup_of ep with
  | Some ms => [ms_memory_id ms]
  | None =>
      match ep with
      | AnalystMemory =>
          [WithMemory.user_prefs_memory_id; WithMemory.session_memory_id]
      | _ => []
      end
  end.

(** The resources of the statement of a policy document that allows
    [bedrock-agentcore:CreateEvent]. *)
Definition event_resources (doc : pyval) : list pyval :=
  match doc with
  | PDict d =>
      match d !! "Statement" with
      | Some (PList statements) =>
          concat (map (fun statement =>
                         match statement with
                         | PDict st =>
                             match py_in "bedrock-agentcore:CreateEvent"
                                     (default (PList []) (st !! "Action")),
                                   st !! "Resource" with
                             | inr true, Some (PList l) => l
                             | _, _ => []
                             end
                         | _ => []
                         end) statements)
      | _ => []
      end
  | _ => []
  end.

(** A cloud in which the lore role exists with a trust policy written for
    another region. *)
Definition cloud_with_old_role : Ops.cloud :=
  Ops.Cloud "/home" ∅
    {[ "agentcore-lore_agent_mem-role" :=
         DeployWithMemories.trust_policy "eu-west-1" "123456789012" ]}
    ∅ 0 [] [].

(** Files in which the lore agent carries neither its memory identifier nor
    a placeholder. *)
Definition files_without_lore_id : gmap string string :=
  <[VerifyFixes.agent_file "gameplay" := "id = 'Project_gameplay_597edeef-XOt1OmF0Zd'"]>
    (<[VerifyFixes.agent_file "lore" := "print('no memory here')"]>
       {[ VerifyFixes.agent_file "strategy" :=
            "id = 'Project_strategy_3443cbe2-0vOWxMHl4Y'" ]}).

Definition services_with_files (fs : gmap string string) : Ops.services :=
  Ops.Services (Some "us-west-2") None (inr "123456789012")
    (fun name => "arn:aws:iam::123456789012:role/" +:+ name)
    (fun name => "arn:aws:ssm:us-west-2:123456789012:parameter" +:+ name)
    (fun _ => inr tt) (fun _ => inr tt)
    (fun rt => inr ("arn:runtime/" +:+ Ops.agent_name rt))
    (fun _ i => inr "READY")
    (fun _ => inr "{}") "1" fs.

(** What [verify_agent_code] accepts of one agent file. *)
Definition file_accepted (sv : Ops.services) (agent : string * string) : Prop :=
  exists content,
    Ops.files sv !! VerifyFixes.agent_file agent.1 = Some content /\
    (contains content agent.2 = true \/
     contains content "{" = false \/
     contains content "memory_id}" = false).

(* ================================================================== *)
(** * Proofs *)

(** ** The monad *)

Lemma bind_inr {A B} (m : M A) (k : A -> M B) s x s' :
  m s = (inr x, s') -> bind m k s = k x s'.
Proof. intros H. unfold bind. by rewrite H. Qed.

Lemma bind_inl {A B} (m : M A) (k : A -> M B) s e s' :
  m s = (inl e, s') -> bind m k s = (inl e, s').
Proof. intros H. unfold bind. by rewrite H. Qed.

(** ** Delegation tools *)

Lemma delegation_tool_eq o d w payload s :
  delegation_tool o d w payload s =
  match ssm_get_parameter w (arn_parameter o d) with
  | inl e =>
      (inl match o with
           | OrchMemory => e
           | OrchBasic => AttributeError "'NoneType' object has no attribute 'exception'"
           end, s)
  | inr arn =>
      match invoke_agent_runtime w arn "DEFAULT" (PDict {[ "prompt" := payload ]}) with
      | inl e => (inl e, s)
      | inr body =>
          match json_loads w body with
          | inl e => (inl e, s)
          | inr response =>
              match subscript response "metrics" with
              | inl e => (inl e, s)
              | inr m =>
                  (subscript response "response",
                   set_toolmetrics (toolmetrics s ++ [m]) s)
              end
          end
      end
  end.
Proof.
  destruct o, d; cbn;
    unfold WithMemory.get_lore_agent, WithMemory.get_gameplay_agent,
      WithMemory.get_strategy_agent, Basic.get_lore_agent,
      Basic.get_gameplay_agent, Basic.get_strategy_agent,
      WithMemory.get_agent_arn, Basic.get_agent_arn, invoke_agent_with_boto3,
      bind, try_except, lift, modify, raise; cbn;
    (destruct (ssm_get_parameter w _) as [e|arn]; [done|]);
    (destruct (invoke_agent_runtime w arn _ _) as [e|body]; [done|]);
    (destruct (json_loads w body) as [e|response]; [done|]);
    (destruct (subscript response "metrics") as [e|m]; [done|]);
    by destruct (subscript response "response").
Qed.

Lemma subscript_inr v key x :
  subscript v key = inr x <-> exists d, v = PDict d /\ d !! key = Some x.
Proof.
  split.
  - destruct v; cbn; try discriminate.
    destruct (d !! key) eqn:E; [|discriminate].
    intros [= ->]. eauto.
  - intros (d & -> & E). cbn. by rewrite E.
Qed.

(** C6: a delegation tool call that succeeds hands the model the decoded
    [response] field and nothing else; the decoded [metrics] record goes to
    the accumulator only.  Whenever one of the three delegation tools (of
    either orchestrator) returns a value [v], the reply decoded to an object
    whose [response] is [v] and whose [metrics] is some [m]; the only change
    to the process state is [m] appended to [toolmetrics]; and the tool
    result the framework shows to the model is built from [v] alone. *)
Theorem delegation_returns_answer_only :
  forall o d w payload s v s',
    delegation_tool o d w payload s = (inr v, s') ->
    exists response m,
      decoded_reply o d w payload response /\
      subscript response "metrics" = inr m /\
      subscript response "response" = inr v /\
      s' = set_toolmetrics (toolmetrics s ++ [m]) s /\
      forall tools name lead,
        tools name = Some (delegation_tool o d) ->
        run_tool tools (Round lead name payload w) s
        = (inr (tool_result_block "success" v), s').
Proof.
  intros o d w payload s v s' Hrun.
  pose proof (delegation_tool_eq o d w payload s) as Heq.
  rewrite Hrun in Heq.
  destruct (ssm_get_parameter w _) as [e|arn] eqn:Hssm; [discriminate|].
  destruct (invoke_agent_runtime w arn _ _) as [e|body] eqn:Hinv; [discriminate|].
  destruct (json_loads w body) as [e|response] eqn:Hjson; [discriminate|].
  destruct (subscript response "metrics") as [e|m] eqn:Hm; [discriminate|].
  injection Heq as Hv Hs.
  exists response, m. repeat split; try done.
  - by exists arn, body.
  - intros tools name lead Htool.
    unfold run_tool; cbn. rewrite Htool.
    unfold try_except, bind, ret. by rewrite Hrun.
Qed.

Lemma delegation_returns_answer_only_witness :
  delegation_tool OrchMemory Gameplay (replying good_reply) (PStr "q") stale_state
  = (inr (PStr "Aeternum is an island"),
     set_toolmetrics [PInt 99; PInt 7] stale_state)
  /\ exists response m,
      decoded_reply OrchMemory Gameplay (replying good_reply) (PStr "q") response /\
      subscript response "metrics" = inr m /\
      subscript response "response" = inr (PStr "Aeternum is an island") /\
      set_toolmetrics [PInt 99; PInt 7] stale_state
      = set_toolmetrics (toolmetrics stale_state ++ [m]) stale_state /\
      forall tools name lead,
        tools name = Some (delegation_tool OrchMemory Gameplay) ->
        run_tool tools (Round lead name (PStr "q") (replying good_reply)) stale_state
        = (inr (tool_result_block "success" (PStr "Aeternum is an island")),
           set_toolmetrics [PInt 99; PInt 7] stale_state).
Proof.
  split; [reflexivity|].
  apply (delegation_returns_answer_only OrchMemory Gameplay (replying good_reply)
           (PStr "q") stale_state).
  reflexivity.
Defined.

(** C3, as the code has it: a delegation tool hands back a value exactly
    when the address resolves, the remote call answers and the body decodes
    to an object carrying both fields, and the value is then the [response]
    field as it is, empty or not; on a reply that is not such an object the
    tool function raises (the extraction error leaves the function) and no
    error value is returned by it. *)
Theorem delegation_raises_on_malformed_reply :
  forall o d w payload s,
    (forall v,
        fst (delegation_tool o d w payload s) = inr v <->
        exists response,
          decoded_reply o d w payload response /\
          (exists m, subscript response "metrics" = inr m) /\
          subscript response "response" = inr v) /\
    (forall response,
        decoded_reply o d w payload response ->
        ~ well_formed_reply response ->
        exists e, fst (delegation_tool o d w payload s) = inl e).
Proof.
  intros o d w payload s. rewrite delegation_tool_eq. split.
  - intros v. split.
    + destruct (ssm_get_parameter w _) as [e|arn] eqn:Hssm; [discriminate|].
      destruct (invoke_agent_runtime w arn _ _) as [e|body] eqn:Hinv; [discriminate|].
      destruct (json_loads w body) as [e|response] eqn:Hjson; [discriminate|].
      destruct (subscript response "metrics") as [e|m] eqn:Hm; [discriminate|].
      cbn. intros Hr. exists response. split; [by exists arn, body|]. eauto.
    + intros (response & (arn & body & Hssm & Hinv & Hjson) & [m Hm] & Hr).
      by rewrite Hssm, Hinv, Hjson, Hm.
  - intros response (arn & body & Hssm & Hinv & Hjson) Hbad.
    rewrite Hssm, Hinv, Hjson.
    destruct (subscript response "metrics") as [e|m] eqn:Hm; [by exists e|].
    destruct (subscript response "response") as [e|r] eqn:Hr; [by exists e|].
    exfalso. apply Hbad.
    apply subscript_inr in Hm as (dm & -> & Hm).
    apply subscript_inr in Hr as (dr & [= <-] & Hr).
    by exists dm, m, r.
Qed.

Lemma delegation_raises_on_malformed_reply_witness :
  decoded_reply OrchMemory Lore (replying error_string_reply) (PStr "q")
    error_string_reply /\
  ~ well_formed_reply error_string_reply /\
  exists e,
    fst (delegation_tool OrchMemory Lore (replying error_string_reply) (PStr "q")
           fresh_state) = inl e.
Proof.
  assert (Hd : decoded_reply OrchMemory Lore (replying error_string_reply)
                 (PStr "q") error_string_reply)
    by (by exists "arn:/agents/lore_agent_arn", "body").
  assert (Hb : ~ well_formed_reply error_string_reply)
    by (by intros (d & m & r & [=] & _)).
  split; [exact Hd|]. split; [exact Hb|].
  exact (proj2 (delegation_raises_on_malformed_reply OrchMemory Lore
                  (replying error_string_reply) (PStr "q") fresh_state)
               error_string_reply Hd Hb).
Defined.

(** C3, as stated, fails: on the specialist's plain-string error reply the
    delegation tool of either orchestrator raises [TypeError] instead of
    returning an error value, and an empty answer is returned like any
    other. *)
Lemma delegation_tool_throws_on_error_string :
  ~ well_formed_reply error_string_reply /\
  raises_type_error
    (WithMemory.get_lore_agent (replying error_string_reply) (PStr "q") fresh_state) /\
  raises_type_error
    (Basic.get_lore_agent (replying error_string_reply) (PStr "q") fresh_state) /\
  (WithMemory.get_lore_agent (replying empty_answer_reply) (PStr "q") fresh_state).1
  = inr (PStr EmptyString).
Proof.
  split; [by intros (d & m & r & [=] & _)|].
  repeat split; reflexivity.
Qed.

(** ** The module-level accumulator *)

(** The entrypoint rebinds [toolmetrics] first: what it returns and the
    state it leaves do not depend on what the list held before. *)
Lemma game_analyst_agent_resets P e payload sess s tm :
  WithMemory.game_analyst_agent P e payload sess (set_toolmetrics tm s)
  = WithMemory.game_analyst_agent P e payload sess s.
Proof. reflexivity. Qed.

Lemma basic_game_analyst_agent_resets P e payload s tm :
  Basic.game_analyst_agent P e payload (set_toolmetrics tm s)
  = Basic.game_analyst_agent P e payload s.
Proof. reflexivity. Qed.

(** C1 at a reply that carries [metrics] but no [response]: the delegation
    call raises [KeyError] after its append, the model is shown an error
    tool result, and the response of the invocation lists one metrics record
    although no delegation call completed. *)
Theorem toolmetrics_counts_call_that_raised :
  let w := replying metrics_only_reply in
  let e := env_of store_empty (one_call_script metrics_only_reply) in
  let run := WithMemory.game_analyst_agent "You are an analyst." e hello
               (PStr "s-1") stale_state in
  WithMemory.get_lore_agent w (PStr "q") fresh_state
  = (inl (KeyError "response"), set_toolmetrics [PInt 7] fresh_state) /\
  messages (the_agent (snd run)) !! 2%nat
  = Some (Message "user"
            [tool_result_block "error" (PStr "Error: KeyError - 'response'")]) /\
  exists d,
    fst run = inr (PDict d) /\
    d !! "response" = Some (PStr "final") /\
    d !! "toolMetrics" = Some (PList [PInt 7]).
Proof.
  cbv zeta. split; [reflexivity|]. split; [vm_compute; reflexivity|].
  eexists. split; [vm_compute; reflexivity|]. split; vm_compute; reflexivity.
Qed.

(** ** memories.py: the long-term persist step *)

Import LTMemoryHookProvider.

Lemma role_assistant_not_user r :
  String.eqb r "assistant" = true -> String.eqb r "user" = false.
Proof. intros H. apply String.eqb_eq in H. by subst. Qed.

Lemma true_user_message_cons r b bs :
  true_user_message (Message r (b :: bs))
  = String.eqb r "user" && bool_decide (b !! "toolResult" = None)
    && truthy (dict_get b "text").
Proof.
  unfold true_user_message, is_tool_result, text_of; cbn [content role].
  do 2 f_equal. repeat case_bool_decide; try done.
  - destruct H as [x Hx]. congruence.
  - destruct (b !! "toolResult") eqn:E; [|done]. exfalso. eauto.
Qed.

(** Once an assistant text is held, the loop goes on to the first true
    user message and stops there. *)
Lemma scan_after_assistant l : forall u a,
  truthy u = false -> truthy a = true ->
  match List.find true_user_message l with
  | Some m => scan l u a = (text_of m, a)
  | None => exists u', scan l u a = (u', a) /\ truthy u' = false
  end.
Proof.
  induction l as [|[r c] rest IH]; intros u a Hu Ha; cbn [List.find scan].
  - eauto.
  - destruct c as [|b bs]; cbn [content role].
    { unfold true_user_message at 1; cbn. rewrite andb_false_r. by apply IH. }
    rewrite true_user_message_cons, Ha. cbn [negb]. rewrite andb_false_r, Hu.
    cbn [negb]. rewrite andb_true_r.
    destruct (String.eqb r "user") eqn:Er; cbn [andb]; [|by apply IH].
    destruct (bool_decide (b !! "toolResult" = None)); cbn [andb].
    + destruct (truthy (dict_get b "text")) eqn:Et; [done|by apply IH].
    + rewrite Hu. by apply IH.
Qed.

(** Without a true user message the loop ends with no user text. *)
Lemma scan_no_user l : forall u a,
  truthy u = false -> List.find true_user_message l = None ->
  truthy (scan l u a).1 = false.
Proof.
  induction l as [|[r c] rest IH]; intros u a Hu Hfind; cbn [List.find scan] in *.
  - done.
  - destruct c as [|b bs]; cbn [content role] in *.
    { destruct (true_user_message _); [done|by apply IH]. }
    rewrite true_user_message_cons in Hfind.
    destruct (String.eqb r "assistant" && negb (truthy a)) eqn:Ea.
    { apply andb_prop in Ea as [Er _].
      rewrite (role_assistant_not_user _ Er) in Hfind. by apply IH. }
    rewrite Hu. cbn [negb]. rewrite andb_true_r.
    destruct (String.eqb r "user") eqn:Er; cbn [andb] in *; [|by apply IH].
    destruct (bool_decide (b !! "toolResult" = None)); cbn [andb] in *.
    + destruct (truthy (dict_get b "text")) eqn:Et; [done|by apply IH].
    + rewrite Hu. by apply IH.
Qed.

(** Without an assistant message the loop ends with no assistant text. *)
Lemma scan_no_assistant l : forall u a,
  truthy a = false -> List.find assistant_message l = None ->
  truthy (scan l u a).2 = false.
Proof.
  induction l as [|[r c] rest IH]; intros u a Ha Hfind; cbn [List.find scan] in *.
  - done.
  - destruct c as [|b bs]; cbn [content role] in *.
    { destruct (assistant_message _); [done|by apply IH]. }
    unfold assistant_message at 1 in Hfind; cbn in Hfind.
    rewrite Ha. cbn [negb]. rewrite andb_true_r.
    destruct (String.eqb r "assistant") eqn:Er; cbn [andb] in *.
    { destruct (truthy (dict_get b "text")) eqn:Et; [done|by apply IH]. }
    destruct (String.eqb r "user" && negb (truthy u)); [|by apply IH].
    destruct (truthy (if bool_decide _ then _ else _)); [done|by apply IH].
Qed.

Lemma save_memories_eq client memory_id s :
  save_memories client memory_id s
  = (inr tt,
     if (2 <=? length (messages (the_agent s)))%nat then
       let '(u, a) := scan (rev (messages (the_agent s))) PNone PNone in
       if truthy u && truthy a then
         if negb (truthy (actor_of s)) || negb (truthy (session_of s)) then s
         else add_mem_op (OpCreateEvent memory_id (actor_of s) (session_of s)
                            [(u, "USER"); (a, "ASSISTANT")]) s
       else s
     else s).
Proof.
  unfold save_memories, try_except, bind, get_agent, actor_of, session_of.
  cbn -[Nat.leb scan truthy].
  destruct (2 <=? length _)%nat; [|done].
  destruct (scan _ _ _) as [u a].
  destruct (truthy u && truthy a); [|done].
  destruct (negb _ || negb _); [done|].
  unfold call_create_event, bind, modify, lift; cbn.
  by destruct (create_event _ _ _ _ _) as [?|[]].
Qed.

Lemma most_recent_snoc P earlier m :
  most_recent P (earlier ++ [m])
  = if P m then Some m else most_recent P earlier.
Proof. unfold most_recent. by rewrite rev_app_distr. Qed.

Lemma assistant_message_not_user m :
  assistant_message m = true -> true_user_message m = false.
Proof.
  unfold assistant_message, true_user_message.
  intros [Hr _]%andb_prop. by rewrite (role_assistant_not_user _ Hr).
Qed.

Lemma tool_result_not_user m :
  is_tool_result m = true -> true_user_message m = false.
Proof.
  unfold true_user_message. intros ->. cbn. by rewrite andb_false_r.
Qed.

(** C2: after a completed turn, with both identifiers present, the persist
    step writes exactly the event [(user text, USER), (assistant text,
    ASSISTANT)] made of the most recent true user message (a user message
    that is not tool-result shaped) and the most recent assistant message,
    found from the end of the list; when the list ends with a tool-result
    user message followed by the assistant message, the user text is that of
    the nearest earlier true user message; and when either message is not
    found nothing is persisted. *)
Theorem long_term_persist_selects_pair :
  forall client memory_id s,
    (completed_turn (messages (the_agent s)) -> ids_present s ->
     save_memories client memory_id s
     = (inr tt,
        match selected_pair (messages (the_agent s)) with
        | Some (u, a) =>
            add_mem_op (OpCreateEvent memory_id (actor_of s) (session_of s)
                          [(u, "USER"); (a, "ASSISTANT")]) s
        | None => s
        end)) /\
    (forall earlier tool_msg answer,
        messages (the_agent s) = earlier ++ [tool_msg; answer] ->
        is_tool_result tool_msg = true ->
        assistant_message answer = true ->
        selected_pair (messages (the_agent s))
        = match most_recent true_user_message earlier with
          | Some u => Some (text_of u, text_of answer)
          | None => None
          end) /\
    (most_recent true_user_message (messages (the_agent s)) = None \/
     most_recent assistant_message (messages (the_agent s)) = None ->
     save_memories client memory_id s = (inr tt, s)).
Proof.
  intros client memory_id s. split; [|split].
  - intros (earlier & answer & Hm & Hans) [Hactor Hsess].
    rewrite save_memories_eq, Hm. unfold selected_pair.
    rewrite !most_recent_snoc, Hans, (assistant_message_not_user _ Hans).
    rewrite rev_app_distr, length_app. cbn [rev app length].
    destruct answer as [r c]. destruct c as [|b bs].
    { unfold assistant_message in Hans; cbn in Hans. by rewrite andb_false_r in Hans. }
    pose proof Hans as Hans'. unfold assistant_message in Hans'; cbn in Hans'.
    apply andb_prop in Hans' as [Hr Ht].
    cbn [scan content role truthy negb]. rewrite Hr. cbn [andb].
    pose proof (scan_after_assistant (rev earlier) PNone (dict_get b "text")
                  eq_refl Ht) as Hscan.
    unfold most_recent. rewrite Hactor, Hsess. cbn [negb orb].
    destruct (List.find true_user_message (rev earlier)) as [um|] eqn:Hfind.
    + rewrite Hscan.
      apply find_some in Hfind as [Hin Hum].
      assert (Htu : truthy (text_of um) = true).
      { unfold true_user_message in Hum. by apply andb_prop in Hum as [_ ?]. }
      rewrite Htu, Ht. cbn [andb text_of content].
      destruct earlier as [|e0 earlier']; [by destruct Hin|].
      cbn [length]. by replace (2 <=? S (length earlier') + 1)%nat with true
        by (symmetry; apply Nat.leb_le; lia).
    + destruct Hscan as (u' & -> & Hu'). rewrite Hu'. cbn [andb].
      by destruct (2 <=? _)%nat.
  - intros earlier tool_msg answer Hm Htool Hans.
    rewrite Hm. unfold selected_pair.
    replace (earlier ++ [tool_msg; answer]) with ((earlier ++ [tool_msg]) ++ [answer])
      by (by rewrite <- app_assoc).
    rewrite !most_recent_snoc, Hans, (assistant_message_not_user _ Hans),
      (tool_result_not_user _ Htool).
    by destruct (most_recent true_user_message earlier).
  - intros Hnone. rewrite save_memories_eq.
    destruct (2 <=? _)%nat; [|done].
    destruct (scan _ _ _) as [u a] eqn:Hscan.
    destruct Hnone as [Hnone|Hnone].
    + pose proof (scan_no_user _ PNone PNone eq_refl Hnone) as H.
      rewrite Hscan in H. cbn in H. by rewrite H.
    + pose proof (scan_no_assistant _ PNone PNone eq_refl Hnone) as H.
      rewrite Hscan in H. cbn in H. rewrite H. by rewrite andb_false_r.
Qed.

Lemma long_term_persist_selects_pair_witness :
  completed_turn tool_turn /\
  ids_present (with_messages tool_turn known_ids) /\
  save_memories store_empty "mem" (with_messages tool_turn known_ids)
  = (inr tt,
     add_mem_op
       (OpCreateEvent "mem" (PStr "alice") (PStr "s-1")
          [(PStr "What is Aeternum?", "USER"); (PStr "An island.", "ASSISTANT")])
       (with_messages tool_turn known_ids)).
Proof.
  assert (Hc : completed_turn tool_turn).
  { exists after_tool_result, (assistant_text "An island."). by split. }
  assert (Hi : ids_present (with_messages tool_turn known_ids)) by (by split).
  split; [exact Hc|]. split; [exact Hi|].
  exact (proj1 (long_term_persist_selects_pair store_empty "mem"
                  (with_messages tool_turn known_ids)) Hc Hi).
Defined.

(** ** memories.py: the per-message session log *)

Import ShortTermMemoryHook.

Lemma last_item_snoc {A} (l : list A) x : last_item (l ++ [x]) = inr x.
Proof. unfold last_item. by rewrite last_snoc. Qed.

(** C8, as the code has it: with both identifiers present, the
    message-added callback writes the pair (text of the first content block,
    role) of the message added last to the session log with one
    [create_event] on the hook's own memory, whatever the end-of-turn step
    does; a message whose first content block has no [text] key, as a
    tool-result message or an assistant message that starts with a tool-use
    block, or that has no content block, is not written: the callback
    returns and the log is left as it was.  The callback is registered for
    every added message. *)
Theorem session_log_stores_text_of_added_message :
  forall client memory_id s earlier m,
    ids_present s ->
    messages (the_agent s) = earlier ++ [m] ->
    on_message_added client memory_id s
    = (inr tt,
       match content m with
       | b :: _ =>
           match b !! "text" with
           | Some text =>
               add_mem_op (OpCreateEvent memory_id (actor_of s) (session_of s)
                             [(text, role m)]) s
           | None => s
           end
       | [] => s
       end) /\
    forall r, In (on_message_added client memory_id)
                 (cb_message_added (ShortTermMemoryHook.register_hooks client memory_id r)).
Proof.
  intros client memory_id s earlier m [Hactor Hsess] Hm. split.
  - unfold on_message_added, bind, get_agent, try_except.
    fold (actor_of s) (session_of s). rewrite Hactor, Hsess, Hm. cbn [negb orb].
    unfold lift at 1. rewrite last_item_snoc.
    destruct (content m) as [|b bs]; [done|]. cbn [first_item lift].
    unfold dict_item. destruct (b !! "text") as [text|]; [|done].
    unfold call_create_event, bind, modify, lift.
    by destruct (create_event _ _ _ _ _) as [?|[]].
  - intros r. cbn. apply in_or_app. right. by left.
Qed.

Lemma session_log_stores_text_of_added_message_witness :
  ids_present (with_messages tool_turn known_ids) /\
  on_message_added store_empty "log" (with_messages tool_turn known_ids)
  = (inr tt,
     add_mem_op (OpCreateEvent "log" (PStr "alice") (PStr "s-1")
                   [(PStr "An island.", "assistant")])
       (with_messages tool_turn known_ids)).
Proof.
  assert (Hi : ids_present (with_messages tool_turn known_ids)) by (by split).
  split; [exact Hi|].
  exact (proj1 (session_log_stores_text_of_added_message store_empty "log"
                  (with_messages tool_turn known_ids) after_tool_result
                  (assistant_text "An island.") Hi eq_refl)).
Defined.

(** C8, as stated, fails: when the message added last is a tool result
    (or an assistant message holding only a tool-use block), the callback
    makes no [create_event] although both identifiers are present. *)
Lemma session_log_skips_tool_messages :
  ids_present (with_messages after_tool_result known_ids) /\
  last (messages (the_agent (with_messages after_tool_result known_ids)))
  = Some user_tool_result /\
  on_message_added store_empty "log" (with_messages after_tool_result known_ids)
  = (inr tt, with_messages after_tool_result known_ids) /\
  on_message_added store_empty "log"
    (with_messages [user_text "What is Aeternum?"; assistant_tool_use] known_ids)
  = (inr tt,
     with_messages [user_text "What is Aeternum?"; assistant_tool_use] known_ids).
Proof. repeat split; vm_compute; reflexivity. Qed.

(** ** Reasoning about computations *)

Lemma total_run {A} (m : M A) s : total m -> exists x s', m s = (inr x, s').
Proof. intros H. destruct (H s) as [x Hx]. destruct (m s) as [r s']. cbn in Hx. subst. eauto. Qed.

Lemma total_ret {A} (x : A) : total (ret x).
Proof. intros s. by exists x. Qed.

Lemma total_modify f : total (modify f).
Proof. intros s. by exists tt. Qed.

Lemma total_gets {A} (f : st -> A) : total (gets f).
Proof. intros s. by exists (f s). Qed.

Lemma total_get_agent : total get_agent.
Proof. intros s. by eexists. Qed.

Lemma total_bind {A B} (m : M A) (k : A -> M B) :
  total m -> (forall x, total (k x)) -> total (bind m k).
Proof.
  intros Hm Hk s. destruct (total_run m s Hm) as (x & s' & E).
  rewrite (bind_inr _ _ _ _ _ E). apply Hk.
Qed.

Lemma total_try_except {A} (m : M A) h :
  (forall e, total (h e)) -> total (try_except m h).
Proof.
  intros Hh s. unfold try_except. destruct (m s) as [[e|x] s'].
  - apply Hh.
  - by exists x.
Qed.

Lemma total_fire cbs : Forall total cbs -> total (fire cbs).
Proof.
  induction 1 as [|cb rest Hcb _ IH]; cbn [fire].
  - apply total_ret.
  - apply total_bind; [done|]. by intros _.
Qed.

Lemma total_add_message reg m :
  Forall total (cb_message_added reg) -> total (add_message reg m).
Proof.
  intros H. apply total_bind; [apply total_modify|]. intros _. by apply total_fire.
Qed.

Lemma total_run_tool tools r : total (run_tool tools r).
Proof.
  unfold run_tool. destruct (tools _); [|apply total_ret].
  apply total_try_except. intros e. apply total_ret.
Qed.

Lemma total_run_rounds reg tools rs :
  Forall total (cb_message_added reg) -> total (run_rounds reg tools rs).
Proof.
  intros H. induction rs as [|r rest IH]; cbn [run_rounds].
  - apply total_ret.
  - apply total_bind; [apply total_modify|]. intros _.
    apply total_bind; [by apply total_add_message|]. intros _.
    apply total_bind; [apply total_run_tool|]. intros res.
    apply total_bind; [by apply total_add_message|]. by intros _.
Qed.

Lemma total_new_agent reg prompt state :
  Forall total (cb_agent_initialized reg) -> total (new_agent reg prompt state).
Proof.
  intros H. apply total_bind; [apply total_modify|]. intros _. by apply total_fire.
Qed.

(** The three hooks end every path in their handler or a return. *)
Lemma total_on_agent_initialized mc mid : total (on_agent_initialized mc mid).
Proof. apply total_try_except. intros e. apply total_ret. Qed.

Lemma total_on_message_added mc mid : total (on_message_added mc mid).
Proof.
  apply total_bind; [apply total_get_agent|]. intros ag.
  apply total_try_except. intros e. apply total_ret.
Qed.

Lemma total_save_memories mc mid : total (save_memories mc mid).
Proof. apply total_try_except. intros e. apply total_ret. Qed.

(** The value of [agent(user_input)] when no callback raises. *)
Lemma agent_call_value reg tools user_input sc s :
  Forall total (cb_message_added reg) ->
  Forall total (cb_after_invocation reg) ->
  (agent_call reg tools user_input sc s).1 = call_outcome sc.
Proof.
  intros Hmsg Hafter. unfold agent_call, try_finally, call_outcome.
  match goal with |- context [bind ?m ?k s] =>
    assert (Hfirst : total m) by
      (destruct user_input; try apply total_ret; by apply total_add_message);
    destruct (total_run m s Hfirst) as ([] & s1 & E1);
    rewrite (bind_inr m k s tt s1 E1)
  end.
  destruct (total_run _ s1 (total_run_rounds reg tools (rounds sc) Hmsg))
    as ([] & s2 & E2).
  rewrite (bind_inr _ _ _ _ _ E2).
  unfold bind at 1, modify at 1.
  destruct (ending sc) as [ex|c].
  - unfold raise.
    destruct (total_run _ (add_model_ctx s2) (total_fire _ Hafter)) as ([] & s3 & E3).
    by rewrite E3.
  - destruct (total_run _ (add_model_ctx s2) (total_add_message reg (Message "assistant" c) Hmsg))
      as ([] & s3 & E3).
    rewrite (bind_inr _ _ _ _ _ E3). unfold ret.
    destruct (total_run _ s3 (total_fire _ Hafter)) as ([] & s4 & E4).
    by rewrite E4.
Qed.

Lemma response_text_pure response :
  pure (response_text response) (response_text_value response).
Proof.
  intros s. unfold response_text, response_text_value, bind, lift.
  by destruct (content (res_message response)).
Qed.

Section Invariant.
Context (I : st -> Prop).

Lemma inv_ret {A} (x : A) : inv I (ret x).
Proof. by intros s. Qed.

Lemma inv_raise {A} e : inv I (@raise A e).
Proof. by intros s. Qed.

Lemma inv_lift {A} (r : result A) : inv I (lift r).
Proof. by intros s. Qed.

Lemma inv_gets {A} (f : st -> A) : inv I (gets f).
Proof. by intros s. Qed.

Lemma inv_get_agent : inv I get_agent.
Proof. by intros s. Qed.

Lemma inv_modify f : (forall s, I s -> I (f s)) -> inv I (modify f).
Proof. intros H s. apply H. Qed.

Lemma inv_bind {A B} (m : M A) (k : A -> M B) :
  inv I m -> (forall x, inv I (k x)) -> inv I (bind m k).
Proof.
  intros Hm Hk s Hs. unfold bind. specialize (Hm s Hs).
  destruct (m s) as [[e|x] s']; [done|]. by apply Hk.
Qed.

Lemma inv_try_except {A} (m : M A) h :
  inv I m -> (forall e, inv I (h e)) -> inv I (try_except m h).
Proof.
  intros Hm Hh s Hs. unfold try_except. specialize (Hm s Hs).
  destruct (m s) as [[e|x] s']; [|done]. by apply Hh.
Qed.

Lemma inv_try_finally {A} (m : M A) f :
  inv I m -> inv I f -> inv I (try_finally m f).
Proof.
  intros Hm Hf s Hs. unfold try_finally. specialize (Hm s Hs).
  destruct (m s) as [r s']. specialize (Hf s' Hm).
  by destruct (f s') as [[e|x] s''].
Qed.

Lemma inv_fire cbs : Forall (inv I) cbs -> inv I (fire cbs).
Proof.
  induction 1 as [|cb rest Hcb _ IH]; cbn [fire].
  - apply inv_ret.
  - apply inv_bind; [done|]. by intros _.
Qed.

(** What the agent loop needs from [I]: appending a message and recording
    a model call keep it, and so do the callbacks and the tools. *)
Context (reg : registry) (tools : string -> option tool_fn).
Hypothesis keep_message : forall m s, I s -> I (append_message m s).
Hypothesis keep_model_call : forall s, I s -> I (add_model_ctx s).
Hypothesis keep_added : Forall (inv I) (cb_message_added reg).
Hypothesis keep_after : Forall (inv I) (cb_after_invocation reg).
Hypothesis keep_tools : forall name f w input,
  tools name = Some f -> inv I (f w input).

Lemma inv_add_message m : inv I (add_message reg m).
Proof.
  apply inv_bind; [|intros _; by apply inv_fire].
  apply inv_modify. intros s. apply keep_message.
Qed.

Lemma inv_run_tool r : inv I (run_tool tools r).
Proof.
  unfold run_tool. destruct (tools (r_tool r)) as [f|] eqn:E; [|apply inv_ret].
  apply inv_try_except; [|intros e; apply inv_ret].
  apply inv_bind; [by eapply keep_tools|]. intros v. apply inv_ret.
Qed.

Lemma inv_run_rounds rs : inv I (run_rounds reg tools rs).
Proof.
  induction rs as [|r rest IH]; cbn [run_rounds].
  - apply inv_ret.
  - apply inv_bind; [by apply inv_modify|]. intros _.
    apply inv_bind; [apply inv_add_message|]. intros _.
    apply inv_bind; [apply inv_run_tool|]. intros res.
    apply inv_bind; [apply inv_add_message|]. by intros _.
Qed.

Lemma inv_agent_call user_input sc : inv I (agent_call reg tools user_input sc).
Proof.
  unfold agent_call. apply inv_try_finally; [|by apply inv_fire].
  apply inv_bind.
  { destruct user_input; try apply inv_ret; apply inv_add_message. }
  intros _. apply inv_bind; [apply inv_run_rounds|]. intros _.
  apply inv_bind; [by apply inv_modify|]. intros _.
  destruct (ending sc) as [ex|c]; [apply inv_raise|].
  apply inv_bind; [apply inv_add_message|]. intros _. apply inv_ret.
Qed.
End Invariant.

(** ** Generic invariance of the hooks and the tools *)

Section HookInvariant.
Context (I : st -> Prop) (mc : memory_client) (mid : string).
Hypothesis keep_event : forall msgs s,
  I s -> I (add_mem_op (OpCreateEvent mid (actor_of s) (session_of s) msgs) s).

Lemma inv_on_message_added : inv I (on_message_added mc mid).
Proof.
  intros s Hs. unfold on_message_added, bind, get_agent, try_except.
  fold (actor_of s) (session_of s).
  destruct (negb _ || negb _); [done|].
  unfold lift at 1. destruct (last_item _) as [e|m]; [done|].
  unfold lift at 1. destruct (first_item _) as [e|b]; [done|].
  unfold lift at 1. destruct (dict_item _ _) as [e|text]; [done|].
  unfold call_create_event, bind, modify, lift.
  destruct (create_event _ _ _ _ _) as [?|[]]; by apply keep_event.
Qed.

Lemma inv_save_memories : inv I (save_memories mc mid).
Proof.
  intros s Hs. rewrite save_memories_eq. cbn [snd].
  destruct (2 <=? _)%nat; [|done].
  destruct (scan _ _ _) as [u a].
  destruct (truthy u && truthy a); [|done].
  destruct (negb _ || negb _); [done|]. by apply keep_event.
Qed.
End HookInvariant.

Section ToolInvariant.
Context (I : st -> Prop).

Lemma inv_delegation_tool o d w payload :
  (forall tm s, I s -> I (set_toolmetrics tm s)) ->
  inv I (delegation_tool o d w payload).
Proof.
  intros H s Hs. rewrite delegation_tool_eq.
  destruct (ssm_get_parameter w _); [done|].
  destruct (invoke_agent_runtime w _ _ _); [done|].
  destruct (json_loads w _); [done|].
  destruct (subscript _ "metrics"); [done|]. by apply H.
Qed.

Lemma inv_provider_tool cfg w input :
  (forall s, I s -> I (add_mem_op (OpProviderTool cfg input) s)) ->
  inv I (provider_tool cfg w input).
Proof.
  intros H. unfold provider_tool.
  apply inv_bind; [by apply inv_modify|]. intros _. apply inv_lift.
Qed.

Lemma inv_kb_tool kb_client name w input :
  inv I (kb_request kb_client) -> inv I (kb_tool kb_client name w input).
Proof.
  intros H. unfold kb_tool. apply inv_bind; [done|]. intros _. apply inv_lift.
Qed.

Lemma inv_analyst_tools cfg name f w input :
  (forall tm s, I s -> I (set_toolmetrics tm s)) ->
  (forall i s, I s -> I (add_mem_op (OpProviderTool cfg i) s)) ->
  WithMemory.analyst_tools cfg name = Some f -> inv I (f w input).
Proof.
  intros Htm Hop. unfold WithMemory.analyst_tools.
  destruct (String.eqb name "get_gameplay_agent");
    [intros [= <-]; by apply (inv_delegation_tool OrchMemory Gameplay)|].
  destruct (String.eqb name "get_lore_agent");
    [intros [= <-]; by apply (inv_delegation_tool OrchMemory Lore)|].
  destruct (String.eqb name "get_strategy_agent");
    [intros [= <-]; by apply (inv_delegation_tool OrchMemory Strategy)|].
  destruct (String.eqb name "agent_core_memory");
    [intros [= <-]; apply inv_provider_tool, Hop|].
  discriminate.
Qed.
End ToolInvariant.

(** ** memories.py: the short-term load *)

Lemma format_turn_eq turn : forall acc,
  format_turn acc turn = acc ++ map role_line turn.
Proof.
  unfold format_turn. induction turn as [|m turn IH]; intros acc; cbn [fold_left map].
  - by rewrite app_nil_r.
  - rewrite IH, <- app_assoc. reflexivity.
Qed.

Lemma format_turns_eq turns : format_turns turns = history_lines turns.
Proof.
  unfold format_turns, history_lines.
  enough (H : forall acc,
             fold_left format_turn turns acc = acc ++ map role_line (concat turns))
    by apply (H []).
  induction turns as [|t turns IH]; intros acc; cbn [fold_left concat].
  - by rewrite app_nil_r.
  - by rewrite IH, format_turn_eq, map_app, app_assoc.
Qed.

Lemma on_agent_initialized_eq mc mid s :
  on_agent_initialized mc mid s
  = (inr tt,
     if negb (truthy (actor_of s)) || negb (truthy (session_of s)) then s
     else
       let s1 := add_mem_op (OpGetLastK mid (actor_of s) (session_of s) 5 "main") s in
       match get_last_k_turns mc mid (actor_of s) (session_of s) 5 "main" with
       | inr (t :: ts) =>
           set_agent (Agent (with_history (system_prompt (the_agent s)) (t :: ts))
                            (messages (the_agent s)) (state (the_agent s))) s1
       | _ => s1
       end).
Proof.
  unfold on_agent_initialized, try_except, bind, get_agent.
  fold (actor_of s) (session_of s).
  destruct (negb _ || negb _); [done|].
  unfold call_get_last_k_turns, bind, modify, lift. cbv zeta.
  destruct (get_last_k_turns _ _ _ _ _ _) as [e|[|t ts]]; [done|done|].
  unfold with_history. by rewrite format_turns_eq.
Qed.

Lemma on_message_added_no_ids mc mid s :
  negb (truthy (actor_of s)) || negb (truthy (session_of s)) = true ->
  on_message_added mc mid s = (inr tt, s).
Proof.
  intros H. unfold on_message_added, bind, get_agent, try_except.
  fold (actor_of s) (session_of s). by rewrite H.
Qed.

Lemma game_analyst_agent_unfold P e payload sess s mc :
  e_memory_client e = inr mc ->
  e_provider e (analyst_cfg payload sess) = inr tt ->
  WithMemory.game_analyst_agent P e payload sess s
  = bind (new_agent (analyst_registry mc) P (analyst_state payload sess))
         (fun _ => analyst_reply e payload sess mc) (set_toolmetrics [] s).
Proof.
  intros Hmc Hcfg. unfold WithMemory.game_analyst_agent.
  unfold bind at 1, modify at 1. unfold bind at 1, lift at 1. rewrite Hmc.
  unfold bind at 1, lift at 1. fold (analyst_user_id payload).
  fold (analyst_cfg payload sess). rewrite Hcfg. reflexivity.
Qed.

(** The state in which the model exchange of the orchestrator starts. *)
Lemma analyst_new_agent P payload sess mc s :
  new_agent (analyst_registry mc) P (analyst_state payload sess) s
  = (inr tt,
     (on_agent_initialized mc WithMemory.session_memory_id
        (set_agent (Agent P [] (analyst_state payload sess)) s)).2).
Proof.
  unfold new_agent, analyst_registry. cbn [cb_agent_initialized ShortTermMemoryHook.register_hooks
    LTMemoryHookProvider.register_hooks empty_registry app fire].
  unfold bind at 1, modify at 1. unfold bind, ret.
  rewrite on_agent_initialized_eq. reflexivity.
Qed.

Lemma analyst_callbacks_total mc :
  Forall total (cb_message_added (analyst_registry mc)) /\
  Forall total (cb_after_invocation (analyst_registry mc)).
Proof.
  split; cbn; repeat constructor.
  - apply total_on_message_added.
  - apply total_save_memories.
Qed.

(** An invariant that speaks of the instruction context and of the recorded
    model calls only is kept by the whole exchange of the orchestrator. *)
Lemma inv_analyst_reply (I : st -> Prop) e payload sess mc :
  (forall m s, I s -> I (append_message m s)) ->
  (forall s, I s -> I (add_model_ctx s)) ->
  (forall o s, I s -> I (add_mem_op o s)) ->
  (forall tm s, I s -> I (set_toolmetrics tm s)) ->
  inv I (analyst_reply e payload sess mc).
Proof.
  intros Hmsg Hctx Hop Htm. unfold analyst_reply.
  apply inv_try_except; [|intros ex; apply inv_ret].
  apply inv_bind.
  { apply inv_agent_call; try done.
    - cbn. repeat constructor. apply inv_on_message_added. intros; apply Hop; done.
    - cbn. repeat constructor. apply inv_save_memories. intros; apply Hop; done.
    - intros name f w input Hf.
      eapply inv_analyst_tools; [done| |done]. intros; by apply Hop. }
  intros response. apply inv_bind.
  { intros s Hs. by rewrite (response_text_pure response s). }
  intros text. apply inv_bind; [apply inv_gets|]. intros tm. apply inv_ret.
Qed.

(** C7: with actor and session present, the pre-turn load asks the store
    for the last 5 turns of that pair on branch [main], and, when turns come
    back, appends to the system prompt one role-labelled line per message in
    the order the store holds them (line [i] is message [i]); when no turn
    comes back the system prompt is left as it is.  In the orchestrator the
    load runs when the agent is built, so every model call of the invocation
    is shown the augmented instruction context. *)
Theorem short_term_load_appends_history :
  forall mc turns,
    (forall mid s,
        ids_present s ->
        get_last_k_turns mc mid (actor_of s) (session_of s) 5 "main" = inr turns ->
        on_agent_initialized mc mid s
        = (inr tt,
           let s1 := add_mem_op
                       (OpGetLastK mid (actor_of s) (session_of s) 5 "main") s in
           match turns with
           | [] => s1
           | _ :: _ =>
               set_agent (Agent (with_history (system_prompt (the_agent s)) turns)
                                (messages (the_agent s)) (state (the_agent s))) s1
           end)) /\
    (forall i m, concat turns !! i = Some m ->
                 history_lines turns !! i = Some (role_line m)) /\
    (forall P e payload sess s,
        e_memory_client e = inr mc ->
        e_provider e (analyst_cfg payload sess) = inr tt ->
        truthy (PStr (analyst_user_id payload)) = true ->
        truthy sess = true ->
        get_last_k_turns mc WithMemory.session_memory_id
          (PStr (analyst_user_id payload)) sess 5 "main" = inr turns ->
        exists calls,
          model_ctx (WithMemory.game_analyst_agent P e payload sess s).2
          = model_ctx s ++ calls /\
          Forall (fun c => c.1 = augmented P turns) calls).
Proof.
  intros mc turns. split; [|split].
  - intros mid s [Ha Hs] Hturns. rewrite on_agent_initialized_eq, Ha, Hs, Hturns.
    cbn [negb orb]. by destruct turns.
  - intros i m Hi. unfold history_lines. by rewrite list_lookup_fmap, Hi.
  - intros P e payload sess s Hmc Hcfg Hu Hsess Hturns.
    rewrite (game_analyst_agent_unfold _ _ _ _ _ mc Hmc Hcfg).
    rewrite (bind_inr _ _ _ _ _ (analyst_new_agent P payload sess mc _)).
    set (I := fun s' : st =>
           system_prompt (the_agent s') = augmented P turns /\
           exists calls, model_ctx s' = model_ctx s ++ calls /\
                         Forall (fun c => c.1 = augmented P turns) calls).
    assert (Hinv : inv I (analyst_reply e payload sess mc)).
    { apply inv_analyst_reply; unfold I; cbn.
      - intros m s' [Hp Hc]. by split.
      - intros s' [Hp (calls & Hc & Hall)]. split; [done|].
        exists (calls ++ [(system_prompt (the_agent s'), messages (the_agent s'))]).
        rewrite Hc, app_assoc. split; [done|].
        apply Forall_app. split; [done|]. by repeat constructor.
      - intros o s' [Hp Hc]. by split.
      - intros tm s' [Hp Hc]. by split. }
    apply Hinv. unfold I. rewrite on_agent_initialized_eq.
    unfold actor_of, session_of, analyst_state; cbn [the_agent set_agent state snd].
    unfold dict_get. rewrite lookup_insert_eq.
    rewrite lookup_insert_ne by done. rewrite lookup_singleton_eq.
    cbn [default from_option]. unfold id. rewrite Hu, Hsess, Hturns.
    cbn [negb orb]. split.
    + by destruct turns.
    + exists []. rewrite app_nil_r. split; [by destruct turns|constructor].
Qed.

Example with_history_two_lines :
  with_history "P" [[ConvMsg "USER" "hi"; ConvMsg "assistant" "hello"]]
  = "P" +:+ newline +:+ newline +:+ "Recent conversation history:" +:+ newline
    +:+ "User: hi" +:+ newline +:+ "Assistant: hello" +:+ newline +:+ newline
    +:+ "Continue the conversation naturally based on this context.".
Proof. reflexivity. Qed.

Lemma short_term_load_appends_history_witness :
  on_agent_initialized store_five "log" (with_messages [] known_ids)
  = (inr tt,
     set_agent (Agent (with_history "You are an analyst." five_turns) [] known_ids)
       (add_mem_op (OpGetLastK "log" (PStr "alice") (PStr "s-1") 5 "main")
          (with_messages [] known_ids))) /\
  exists calls,
    model_ctx (WithMemory.game_analyst_agent "You are an analyst."
                 (env_of store_five answer_script) alice_hello (PStr "s-1")
                 fresh_state).2
    = model_ctx fresh_state ++ calls /\
    Forall (fun c => c.1 = augmented "You are an analyst." five_turns) calls.
Proof.
  split.
  - exact (proj1 (short_term_load_appends_history store_five five_turns)
             "log" (with_messages [] known_ids) (conj eq_refl eq_refl) eq_refl).
  - exact (proj2 (proj2 (short_term_load_appends_history store_five five_turns))
             "You are an analyst." (env_of store_five answer_script) alice_hello
             (PStr "s-1") fresh_state eq_refl eq_refl eq_refl eq_refl eq_refl).
Defined.

(** ** Memory failures and missing identifiers *)

Lemma analyst_reply_value e payload sess mc s b bs t :
  ending (e_script e) = inr (b :: bs) ->
  b !! "text" = Some t ->
  exists tm,
    (analyst_reply e payload sess mc s).1
    = inr (PDict (<["response" := t]>
                    (<["metrics" := s_metrics (e_script e)]>
                       {[ "toolMetrics" := PList tm ]}))).
Proof.
  intros Hend Ht. unfold analyst_reply, try_except.
  destruct (analyst_callbacks_total mc) as [Hadded Hafter].
  pose proof (agent_call_value (analyst_registry mc)
                (WithMemory.analyst_tools (analyst_cfg payload sess))
                (get_prompt payload) (e_script e) s Hadded Hafter) as Hval.
  unfold call_outcome in Hval. rewrite Hend in Hval.
  unfold bind at 1.
  destruct (agent_call _ _ _ _ s) as [r s'].
  cbn [fst] in Hval. subst r.
  unfold bind at 1. rewrite (response_text_pure _ s').
  unfold response_text_value, dict_item; cbn [res_message content]. rewrite Ht.
  by exists (toolmetrics s').
Qed.

Lemma analyst_reply_error e payload sess mc s ex :
  ending (e_script e) = inl ex ->
  (analyst_reply e payload sess mc s).1
  = inr (PDict {[ "error" := PStr (exn_str ex) ]}).
Proof.
  intros Hend. unfold analyst_reply, try_except.
  destruct (analyst_callbacks_total mc) as [Hadded Hafter].
  pose proof (agent_call_value (analyst_registry mc)
                (WithMemory.analyst_tools (analyst_cfg payload sess))
                (get_prompt payload) (e_script e) s Hadded Hafter) as Hval.
  unfold call_outcome in Hval. rewrite Hend in Hval.
  unfold bind at 1.
  destruct (agent_call _ _ _ _ s) as [r s'].
  cbn [fst] in Hval. by subst r.
Qed.

(** C4: whatever the memory store does, also when every read and write
    raises, none of the three memory hooks raises; when [actor_id] or
    [session_id] is absent each hook returns having made no call on the
    store; and the turn goes on: whenever the model produces its answer, the
    orchestrator returns it in a success response, whatever the store did
    and whether or not the identifiers were there. *)
Theorem memory_failures_never_abort_turn :
  forall mc mid s,
    ((on_agent_initialized mc mid s).1 = inr tt /\
     (on_message_added mc mid s).1 = inr tt /\
     (save_memories mc mid s).1 = inr tt) /\
    (truthy (actor_of s) = false \/ truthy (session_of s) = false ->
     on_agent_initialized mc mid s = (inr tt, s) /\
     on_message_added mc mid s = (inr tt, s) /\
     save_memories mc mid s = (inr tt, s)) /\
    (forall P e payload sess b bs t,
        e_memory_client e = inr mc ->
        e_provider e (analyst_cfg payload sess) = inr tt ->
        ending (e_script e) = inr (b :: bs) ->
        b !! "text" = Some t ->
        exists tm,
          (WithMemory.game_analyst_agent P e payload sess s).1
          = inr (PDict (<["response" := t]>
                          (<["metrics" := s_metrics (e_script e)]>
                             {[ "toolMetrics" := PList tm ]})))).
Proof.
  intros mc mid s. split; [|split].
  - split; [by rewrite on_agent_initialized_eq|].
    split; [|by rewrite save_memories_eq].
    destruct (total_on_message_added mc mid s) as [[] H]. exact H.
  - intros Hmissing.
    assert (Hno : negb (truthy (actor_of s)) || negb (truthy (session_of s)) = true).
    { destruct Hmissing as [-> | ->]; [done|]. by rewrite orb_true_r. }
    split; [by rewrite on_agent_initialized_eq, Hno|].
    split; [by apply on_message_added_no_ids|].
    rewrite save_memories_eq, Hno.
    destruct (2 <=? _)%nat; [|done]. destruct (scan _ _ _) as [u a].
    by destruct (truthy u && truthy a).
  - intros P e payload sess b bs t Hmc Hcfg Hend Ht.
    rewrite (game_analyst_agent_unfold _ _ _ _ _ mc Hmc Hcfg).
    rewrite (bind_inr _ _ _ _ _ (analyst_new_agent P payload sess mc _)).
    by eapply analyst_reply_value.
Qed.

Lemma memory_failures_never_abort_turn_witness :
  (on_agent_initialized store_down "log" (with_messages tool_turn no_session)
   = (inr tt, with_messages tool_turn no_session) /\
   on_message_added store_down "log" (with_messages tool_turn no_session)
   = (inr tt, with_messages tool_turn no_session) /\
   save_memories store_down "log" (with_messages tool_turn no_session)
   = (inr tt, with_messages tool_turn no_session)) /\
  exists tm,
    (WithMemory.game_analyst_agent "You are an analyst."
       (env_of store_down (one_call_script good_reply)) hello PNone fresh_state).1
    = inr (PDict (<["response" := PStr "final"]>
                    (<["metrics" := PInt 1]> {[ "toolMetrics" := PList tm ]}))).
Proof.
  split.
  - exact (proj1 (proj2 (memory_failures_never_abort_turn store_down "log"
                           (with_messages tool_turn no_session)))
                 (or_intror eq_refl)).
  - exact (proj2 (proj2 (memory_failures_never_abort_turn store_down "log"
                           fresh_state))
                 "You are an analyst." (env_of store_down (one_call_script good_reply))
                 hello PNone {[ "text" := PStr "final" ]} [] (PStr "final")
                 eq_refl eq_refl eq_refl eq_refl).
Defined.

(** ** The entrypoints in their common shapes *)

Lemma basic_specialists_shape P :
  Basic.lore_agent P = plain_specialist object_reply P /\
  Basic.gameplay_agent P = plain_specialist object_reply P /\
  Basic.strategy_agent P = plain_specialist object_reply P /\
  Kiro.lore_agent P = plain_specialist response_text P.
Proof. repeat split; reflexivity. Qed.

Lemma lore_agent_shape P e payload sess s :
  WithMemory.lore_agent P e payload sess s
  = memory_specialist lore_setup P e payload sess s.
Proof.
  unfold WithMemory.lore_agent, memory_specialist, acquire. cbn [ms_client_first lore_setup].
  unfold try_except, bind, mcp_client_new, lift, ret. cbn [fst snd].
  destruct (e_memory_client e) as [ex|mc]; reflexivity.
Qed.

Lemma strategy_agent_shape P e payload sess s :
  WithMemory.strategy_agent P e payload sess s
  = memory_specialist strategy_setup P e payload sess s.
Proof.
  unfold WithMemory.strategy_agent, memory_specialist, acquire.
  cbn [ms_client_first strategy_setup].
  unfold try_except, bind, mcp_client_new, lift, ret. cbn [fst snd].
  destruct (e_memory_client e) as [ex|mc]; reflexivity.
Qed.

Lemma gameplay_agent_shape P e payload sess s :
  WithMemory.gameplay_agent P e payload sess s
  = memory_specialist gameplay_setup P e payload sess s.
Proof.
  unfold WithMemory.gameplay_agent, memory_specialist, acquire.
  cbn [ms_client_first gameplay_setup].
  unfold try_except, bind, mcp_client_new, lift, ret. cbn [fst snd].
  destruct (e_memory_client e) as [ex|mc]; reflexivity.
Qed.

(** ** What the entrypoints return *)

Lemma try_finally_value {A} (m : M A) f s :
  total f -> (try_finally m f s).1 = (m s).1.
Proof.
  intros Hf. unfold try_finally. destruct (m s) as [r s'].
  destruct (total_run f s' Hf) as ([] & s'' & E). by rewrite E.
Qed.

Lemma error_string_value (m : M pyval) s :
  (try_except m error_string s).1
  = match (m s).1 with
    | inl ex => inr (PStr ("error " +:+ exn_str ex))
    | inr v => inr v
    end.
Proof. unfold try_except. by destruct (m s) as [[ex|v] s']. Qed.

Lemma object_reply_pure response :
  pure (object_reply response) (object_reply_value response).
Proof.
  intros s. unfold object_reply, object_reply_value, bind.
  rewrite (response_text_pure response s).
  by destruct (response_text_value response).
Qed.

Lemma agent_session_value reg tools prompt state payload e finish fv s :
  Forall total (cb_agent_initialized reg) ->
  Forall total (cb_message_added reg) ->
  Forall total (cb_after_invocation reg) ->
  (forall r, pure (finish r) (fv r)) ->
  (agent_session reg tools prompt state payload e finish s).1
  = match call_outcome (e_script e) with
    | inl ex => inl ex
    | inr r => fv r
    end.
Proof.
  intros Hinit Hadded Hafter Hfin. unfold agent_session.
  destruct (total_run _ s (total_new_agent reg prompt state Hinit)) as ([] & s1 & E1).
  rewrite (bind_inr _ _ _ _ _ E1). unfold bind.
  pose proof (agent_call_value reg tools (get_prompt payload) (e_script e) s1
                Hadded Hafter) as Hval.
  destruct (agent_call _ _ _ _ s1) as [r s2]. cbn [fst] in Hval. subst r.
  destruct (call_outcome _) as [ex|r]; [done|]. by rewrite (Hfin r s2).
Qed.

Lemma kb_session_value e kb_client reg tools prompt state payload finish fv s names :
  e_kb_start e = inr tt ->
  e_kb_list_tools e = inr names ->
  Forall total (cb_agent_initialized reg) ->
  Forall total (cb_message_added reg) ->
  Forall total (cb_after_invocation reg) ->
  (forall r, pure (finish r) (fv r)) ->
  (kb_session e kb_client reg tools prompt state payload finish s).1
  = match call_outcome (e_script e) with
    | inl ex => inl ex
    | inr r => fv r
    end.
Proof.
  intros Hstart Hlist Hinit Hadded Hafter Hfin. unfold kb_session, with_kb.
  unfold bind at 1, lift at 1. rewrite Hstart.
  unfold bind at 1, modify at 1.
  rewrite try_finally_value by apply total_modify.
  unfold list_tools_sync. unfold bind at 1. unfold bind at 1, kb_request at 1.
  cbn [kb_live set_kb].
  rewrite bool_decide_eq_true_2 by set_solver.
  unfold lift at 1. rewrite Hlist.
  by apply agent_session_value.
Qed.

Lemma ltm_callbacks_total mid mc :
  Forall total (cb_agent_initialized (LTMemoryHookProvider.register_hooks mid mc empty_registry)) /\
  Forall total (cb_message_added (LTMemoryHookProvider.register_hooks mid mc empty_registry)) /\
  Forall total (cb_after_invocation (LTMemoryHookProvider.register_hooks mid mc empty_registry)).
Proof. repeat split; cbn; repeat constructor. apply total_save_memories. Qed.

Lemma memory_specialist_value ms P e payload sess s :
  setup_ok e ->
  (memory_specialist ms P e payload sess s).1
  = match call_outcome (e_script e) with
    | inl ex => inr (PStr ("error " +:+ exn_str ex))
    | inr r =>
        match object_reply_value r with
        | inl ex => inr (PStr ("error " +:+ exn_str ex))
        | inr v => inr v
        end
    end.
Proof.
  intros ([mc Hmc] & Hcfg & Hstart & [names Hlist]).
  unfold memory_specialist. rewrite error_string_value.
  assert (Hacq : exists s1, acquire ms e s = (inr (kb_next s, mc), s1)).
  { unfold acquire, bind, lift, mcp_client_new, ret. rewrite Hmc.
    destruct (ms_client_first ms); eauto. }
  destruct Hacq as [s1 Hacq]. rewrite (bind_inr _ _ _ _ _ Hacq).
  unfold bind at 1, lift at 1. rewrite Hcfg. cbn [fst snd].
  destruct (ltm_callbacks_total (ms_memory_id ms) mc) as (Hi & Ha & Hf).
  rewrite (kb_session_value _ _ _ _ _ _ _ _ object_reply_value _ names
             Hstart Hlist Hi Ha Hf object_reply_pure).
  destruct (call_outcome _) as [ex|r]; [done|]. by destruct (object_reply_value r).
Qed.

Lemma plain_specialist_value finish fv P e payload s :
  setup_ok e ->
  (forall r, pure (finish r) (fv r)) ->
  (plain_specialist finish P e payload s).1
  = match call_outcome (e_script e) with
    | inl ex => inr (PStr ("error " +:+ exn_str ex))
    | inr r =>
        match fv r with
        | inl ex => inr (PStr ("error " +:+ exn_str ex))
        | inr v => inr v
        end
    end.
Proof.
  intros (_ & _ & Hstart & [names Hlist]) Hfin.
  unfold plain_specialist. rewrite error_string_value.
  unfold bind at 1, mcp_client_new at 1.
  rewrite (kb_session_value _ _ _ _ _ _ _ _ fv _ names Hstart Hlist)
    by (done || constructor).
  destruct (call_outcome _) as [ex|r]; [done|]. by destruct (fv r).
Qed.

Lemma basic_analyst_value P e payload s :
  (Basic.game_analyst_agent P e payload s).1
  = match call_outcome (e_script e) with
    | inl ex => inr (PStr ("error " +:+ exn_str ex))
    | inr r =>
        match response_text_value r with
        | inl ex => inr (PStr ("error " +:+ exn_str ex))
        | inr text =>
            inr (PDict (<["response" := text]>
                          (<["metrics" := res_metrics r]>
                             {[ "toolMetrics" :=
                                  PList (toolmetrics
                                           (agent_call empty_registry Basic.analyst_tools
                                              (get_prompt payload) (e_script e)
                                              (set_agent (Agent P [] ∅)
                                                 (set_toolmetrics [] s))).2) ]})))
        end
    end.
Proof.
  unfold Basic.game_analyst_agent.
  unfold bind at 1, modify at 1. unfold bind at 1, new_agent at 1.
  unfold bind at 1, modify at 1. cbn [fire cb_agent_initialized empty_registry].
  unfold ret at 1. unfold try_except. unfold bind at 1.
  pose proof (agent_call_value empty_registry Basic.analyst_tools
                (get_prompt payload) (e_script e)
                (set_agent (Agent P [] ∅) (set_toolmetrics [] s))
                (List.Forall_nil _) (List.Forall_nil _)) as Hval.
  destruct (agent_call _ _ _ _ _) as [r s2]. cbn [fst snd] in *. subst r.
  destruct (call_outcome _) as [ex|r]; [done|].
  unfold bind at 1. rewrite (response_text_pure r s2).
  by destruct (response_text_value r).
Qed.

Lemma call_outcome_answer sc b bs :
  ending sc = inr (b :: bs) ->
  call_outcome sc = inr (AgentResult (Message "assistant" (b :: bs)) (s_metrics sc)).
Proof. intros H. unfold call_outcome. by rewrite H. Qed.

Lemma call_outcome_error sc ex : ending sc = inl ex -> call_outcome sc = inl ex.
Proof. intros H. unfold call_outcome. by rewrite H. Qed.

Lemma specialists_total ep P e payload sess :
  ep <> AnalystMemory -> total (run_entrypoint ep P e payload sess).
Proof.
  intros Hep.
  assert (Hbasic : total (Basic.game_analyst_agent P e payload)).
  { unfold Basic.game_analyst_agent.
    apply total_bind; [apply total_modify|]. intros _.
    apply total_bind; [apply total_new_agent; constructor|]. intros _.
    apply total_try_except. intros ex. apply total_ret. }
  destruct ep; try done; cbn [run_entrypoint];
    apply total_try_except; intros ex; apply total_ret.
Qed.

(** The shapes returned by the nine entrypoints.  When an exception escapes
    the agent call, the orchestrator with memory returns the object
    [{"error": str(e)}] and every other entrypoint returns the string
    ["error " + str(e)]; nothing propagates past an entrypoint whose body is
    inside the [try] (all but the orchestrator with memory, whose
    constructors run before it).  On success the entrypoints under [Agents/]
    return an object with [response] and [metrics] (and [toolMetrics] for the
    orchestrators); the lore agent under [Kiro building/] returns the answer
    text alone. *)
Theorem entrypoints_catch_failures :
  forall ep P e payload sess s,
    (setup_ok e ->
     (forall ex,
         ending (e_script e) = inl ex ->
         (run_entrypoint ep P e payload sess s).1 = inr (failure_value ep ex)) /\
     (forall b bs text,
         ending (e_script e) = inr (b :: bs) ->
         b !! "text" = Some text ->
         exists v,
           (run_entrypoint ep P e payload sess s).1 = inr v /\
           success_value ep text (s_metrics (e_script e)) v /\
           (ep <> LoreKiro -> response_object v))) /\
    (ep <> AnalystMemory ->
     exists v, (run_entrypoint ep P e payload sess s).1 = inr v).
Proof.
  intros ep P e payload sess s. split; [|intros Hep; by apply specialists_total].
  intros Hok.
  assert (Hobj : forall text m tm,
             response_object (PDict (<["response" := text]>
                                       (<["metrics" := m]>
                                          {[ "toolMetrics" := PList tm ]})))).
  { intros text m tm. eexists _, text, m. split; [done|].
    split; [apply lookup_insert_eq|].
    rewrite lookup_insert_ne by done. apply lookup_insert_eq. }
  assert (Hobj2 : forall text m,
             response_object (PDict (<["response" := text]> {[ "metrics" := m ]}))).
  { intros text m. eexists _, text, m. split; [done|].
    split; [apply lookup_insert_eq|].
    rewrite lookup_insert_ne by done. apply lookup_singleton_eq. }
  destruct (basic_specialists_shape P) as (Hl & Hg & Hs & Hk).
  split.
  - intros ex Hend.
    destruct ep; cbn [run_entrypoint failure_value].
    + destruct Hok as ([mc Hmc] & Hcfg & _).
      rewrite (game_analyst_agent_unfold _ _ _ _ _ mc Hmc (Hcfg _)).
      rewrite (bind_inr _ _ _ _ _ (analyst_new_agent P payload sess mc _)).
      by apply analyst_reply_error.
    + by rewrite lore_agent_shape, memory_specialist_value,
        (call_outcome_error _ _ Hend).
    + by rewrite gameplay_agent_shape, memory_specialist_value,
        (call_outcome_error _ _ Hend).
    + by rewrite strategy_agent_shape, memory_specialist_value,
        (call_outcome_error _ _ Hend).
    + by rewrite basic_analyst_value, (call_outcome_error _ _ Hend).
    + by rewrite Hl, (plain_specialist_value _ _ _ _ _ _ Hok object_reply_pure),
        (call_outcome_error _ _ Hend).
    + by rewrite Hg, (plain_specialist_value _ _ _ _ _ _ Hok object_reply_pure),
        (call_outcome_error _ _ Hend).
    + by rewrite Hs, (plain_specialist_value _ _ _ _ _ _ Hok object_reply_pure),
        (call_outcome_error _ _ Hend).
    + by rewrite Hk, (plain_specialist_value _ _ _ _ _ _ Hok response_text_pure),
        (call_outcome_error _ _ Hend).
  - intros b bs text Hend Htext.
    assert (Hrt : response_text_value
                    (AgentResult (Message "assistant" (b :: bs))
                       (s_metrics (e_script e))) = inr text).
    { unfold response_text_value, dict_item; cbn. by rewrite Htext. }
    assert (Hor : object_reply_value
                    (AgentResult (Message "assistant" (b :: bs))
                       (s_metrics (e_script e)))
                  = inr (PDict (<["response" := text]>
                                  {[ "metrics" := s_metrics (e_script e) ]}))).
    { unfold object_reply_value. by rewrite Hrt. }
    destruct ep; cbn [run_entrypoint success_value].
    + destruct Hok as ([mc Hmc] & Hcfg & _).
      rewrite (game_analyst_agent_unfold _ _ _ _ _ mc Hmc (Hcfg _)).
      rewrite (bind_inr _ _ _ _ _ (analyst_new_agent P payload sess mc _)).
      destruct (analyst_reply_value e payload sess mc
                  (on_agent_initialized mc WithMemory.session_memory_id
                     (set_agent (Agent P [] (analyst_state payload sess))
                        (set_toolmetrics [] s))).2 b bs text Hend Htext)
        as [tm Htm].
      eexists. split; [exact Htm|]. split; [by exists tm|]. intros _. apply Hobj.
    + rewrite lore_agent_shape, memory_specialist_value,
        (call_outcome_answer _ _ _ Hend), Hor by done.
      eexists. split; [done|]. split; [done|]. intros _. apply Hobj2.
    + rewrite gameplay_agent_shape, memory_specialist_value,
        (call_outcome_answer _ _ _ Hend), Hor by done.
      eexists. split; [done|]. split; [done|]. intros _. apply Hobj2.
    + rewrite strategy_agent_shape, memory_specialist_value,
        (call_outcome_answer _ _ _ Hend), Hor by done.
      eexists. split; [done|]. split; [done|]. intros _. apply Hobj2.
    + rewrite basic_analyst_value, (call_outcome_answer _ _ _ Hend), Hrt.
      eexists. split; [done|]. split; [by eexists|]. intros _. apply Hobj.
    + rewrite Hl, (plain_specialist_value _ _ _ _ _ _ Hok object_reply_pure),
        (call_outcome_answer _ _ _ Hend), Hor.
      eexists. split; [done|]. split; [done|]. intros _. apply Hobj2.
    + rewrite Hg, (plain_specialist_value _ _ _ _ _ _ Hok object_reply_pure),
        (call_outcome_answer _ _ _ Hend), Hor.
      eexists. split; [done|]. split; [done|]. intros _. apply Hobj2.
    + rewrite Hs, (plain_specialist_value _ _ _ _ _ _ Hok object_reply_pure),
        (call_outcome_answer _ _ _ Hend), Hor.
      eexists. split; [done|]. split; [done|]. intros _. apply Hobj2.
    + rewrite Hk, (plain_specialist_value _ _ _ _ _ _ Hok response_text_pure),
        (call_outcome_answer _ _ _ Hend), Hrt.
      eexists. split; [done|]. split; [done|]. by intros H.
Qed.

Lemma setup_ok_env_of mc sc : setup_ok (env_of mc sc).
Proof. repeat split; eauto. Qed.

Lemma entrypoints_catch_failures_witness :
  setup_ok (env_ok failing_script) /\
  (run_entrypoint AnalystMemory "P" (env_ok failing_script) hello (PStr "s-1")
     fresh_state).1
  = inr (PDict {[ "error" := PStr "model unavailable" ]}) /\
  (run_entrypoint LoreMemory "P" (env_ok failing_script) hello (PStr "s-1")
     fresh_state).1
  = inr (PStr "error model unavailable") /\
  exists v,
    (run_entrypoint GameplayBasic "P" (env_ok answer_script) hello PNone
       fresh_state).1 = inr v /\
    success_value GameplayBasic (PStr "final") (PInt 1) v /\
    (GameplayBasic <> LoreKiro -> response_object v).
Proof.
  split; [apply setup_ok_env_of|]. split; [|split].
  - exact (proj1 (proj1 (entrypoints_catch_failures AnalystMemory "P"
                           (env_ok failing_script) hello (PStr "s-1") fresh_state)
                        (setup_ok_env_of _ _))
                 (ServiceError "model unavailable") eq_refl).
  - exact (proj1 (proj1 (entrypoints_catch_failures LoreMemory "P"
                           (env_ok failing_script) hello (PStr "s-1") fresh_state)
                        (setup_ok_env_of _ _))
                 (ServiceError "model unavailable") eq_refl).
  - exact (proj2 (proj1 (entrypoints_catch_failures GameplayBasic "P"
                           (env_ok answer_script) hello PNone fresh_state)
                        (setup_ok_env_of _ _))
                 {[ "text" := PStr "final" ]} [] (PStr "final") eq_refl eq_refl).
Defined.

(** C5 at a successful run of the lore agent under [Kiro building/]: the
    entrypoint returns the answer text, which is not an object with
    [response] and [metrics], where the lore agent under [Agents/] returns
    that object on the same run. *)
Theorem kiro_lore_agent_returns_text :
  setup_ok (env_ok answer_script) /\
  (run_entrypoint LoreKiro "P" (env_ok answer_script) hello PNone fresh_state).1
  = inr (PStr "final") /\
  ~ response_object (PStr "final") /\
  (run_entrypoint LoreBasic "P" (env_ok answer_script) hello PNone fresh_state).1
  = inr (PDict (<["response" := PStr "final"]> {[ "metrics" := PInt 1 ]})).
Proof.
  split; [apply setup_ok_env_of|]. split; [vm_compute; reflexivity|].
  split; [by intros (d & r & m & [=] & _)|]. vm_compute; reflexivity.
Qed.

(** ** The knowledge-base connection *)

Section KbDuring.
Context (n : nat) (live : gset nat) (calls : list nat) (kb_client : nat).
Let K := kb_during n live calls kb_client.

Lemma kb_during_agent a s : K s -> K (set_agent a s).
Proof. done. Qed.

Lemma kb_during_message m s : K s -> K (append_message m s).
Proof. done. Qed.

Lemma kb_during_model_call s : K s -> K (add_model_ctx s).
Proof. done. Qed.

Lemma kb_during_mem_op o s : K s -> K (add_mem_op o s).
Proof. done. Qed.

Lemma kb_during_toolmetrics tm s : K s -> K (set_toolmetrics tm s).
Proof. done. Qed.

Lemma kb_during_request : inv K (kb_request kb_client).
Proof.
  intros s (Hn & Hl & k & Hc). unfold kb_request, K, kb_during.
  case_bool_decide; [|by eauto].
  cbn. split; [done|]. split; [done|]. exists (S k).
  rewrite Hc, <- app_assoc. f_equal.
  change [kb_client] with (replicate 1 kb_client).
  rewrite <- replicate_add. f_equal. lia.
Qed.

Lemma kb_during_save_memories mc mid : inv K (save_memories mc mid).
Proof. apply inv_save_memories. intros. by apply kb_during_mem_op. Qed.

Lemma kb_during_basic_tools names name f w input :
  Basic.specialist_tools kb_client names name = Some f -> inv K (f w input).
Proof.
  unfold Basic.specialist_tools. case_bool_decide; [|done].
  intros [= <-]. apply inv_kb_tool, kb_during_request.
Qed.

Lemma kb_during_memory_tools names cfg name f w input :
  WithMemory.specialist_tools kb_client names cfg name = Some f ->
  inv K (f w input).
Proof.
  unfold WithMemory.specialist_tools.
  destruct (String.eqb name "agent_core_memory").
  { intros [= <-]. apply inv_provider_tool. intros. by apply kb_during_mem_op. }
  case_bool_decide; [|done].
  intros [= <-]. apply inv_kb_tool, kb_during_request.
Qed.

(** The session kept by [Agent(...)], the call and the reply. *)
Lemma kb_during_agent_session reg tools prompt state payload e finish fv :
  Forall (inv K) (cb_agent_initialized reg) ->
  Forall (inv K) (cb_message_added reg) ->
  Forall (inv K) (cb_after_invocation reg) ->
  (forall name f w input, tools name = Some f -> inv K (f w input)) ->
  (forall r, pure (finish r) (fv r)) ->
  inv K (agent_session reg tools prompt state payload e finish).
Proof.
  intros Hinit Hadded Hafter Htools Hfin. unfold agent_session.
  apply inv_bind.
  { unfold new_agent. apply inv_bind; [|intros _; by apply inv_fire].
    apply inv_modify. intros s. apply kb_during_agent. }
  intros _. apply inv_bind.
  { by apply inv_agent_call. }
  intros r s Hs. by rewrite (Hfin r s).
Qed.
End KbDuring.

Lemma stop_after_start (live : gset nat) (kb_client : nat) :
  kb_client ∉ live -> (live ∪ {[ kb_client ]}) ∖ {[ kb_client ]} = live.
Proof.
  intros Hfresh. apply set_eq. intros x.
  rewrite elem_of_difference, elem_of_union, elem_of_singleton. split.
  - by intros [[?|?] ?].
  - intros Hx. split; [by left|]. by intros ->.
Qed.

(** [with kb_client:] stops the client however its body ends. *)
Lemma with_kb_scoped {A} e kb_client (body : M A) s :
  kb_client ∉ kb_live s ->
  inv (kb_during (kb_next s) (kb_live s ∪ {[ kb_client ]}) (kb_calls s) kb_client) body ->
  kb_next (with_kb e kb_client body s).2 = kb_next s /\
  kb_live (with_kb e kb_client body s).2 = kb_live s /\
  exists k, kb_calls (with_kb e kb_client body s).2
            = kb_calls s ++ replicate k kb_client.
Proof.
  intros Hfresh Hbody.
  set (s1 := set_kb (kb_next s) (kb_live s ∪ {[ kb_client ]}) (kb_calls s) s).
  assert (E : (with_kb e kb_client body s).2
              = match e_kb_start e with
                | inl _ => s
                | inr _ =>
                    set_kb (kb_next (body s1).2) (kb_live (body s1).2 ∖ {[ kb_client ]})
                      (kb_calls (body s1).2) (body s1).2
                end).
  { unfold with_kb, bind, lift, modify, try_finally.
    destruct (e_kb_start e) as [ex|[]]; [done|].
    fold s1. by destruct (body s1) as [[ex|x] s2]. }
  rewrite E. clear E.
  destruct (e_kb_start e) as [ex|[]].
  { split; [done|]. split; [done|]. exists 0. by rewrite app_nil_r. }
  assert (Hs1 : kb_during (kb_next s) (kb_live s ∪ {[ kb_client ]}) (kb_calls s)
                  kb_client s1)
    by (split; [done|]; split; [done|]; exists 0; by rewrite app_nil_r).
  destruct (Hbody s1 Hs1) as (Hn & Hl & k & Hc).
  cbn [set_kb kb_next kb_live kb_calls]. rewrite Hn, Hl, Hc.
  split; [done|]. split; [by apply stop_after_start|by exists k].
Qed.

Lemma kb_session_scoped e kb_client reg tools prompt state payload finish fv s :
  kb_client ∉ kb_live s ->
  Forall (inv (kb_during (kb_next s) (kb_live s ∪ {[ kb_client ]}) (kb_calls s)
                 kb_client)) (cb_agent_initialized reg) ->
  Forall (inv (kb_during (kb_next s) (kb_live s ∪ {[ kb_client ]}) (kb_calls s)
                 kb_client)) (cb_message_added reg) ->
  Forall (inv (kb_during (kb_next s) (kb_live s ∪ {[ kb_client ]}) (kb_calls s)
                 kb_client)) (cb_after_invocation reg) ->
  (forall names name f w input,
      tools names name = Some f ->
      inv (kb_during (kb_next s) (kb_live s ∪ {[ kb_client ]}) (kb_calls s)
             kb_client) (f w input)) ->
  (forall r, pure (finish r) (fv r)) ->
  kb_next (kb_session e kb_client reg tools prompt state payload finish s).2
  = kb_next s /\
  kb_live (kb_session e kb_client reg tools prompt state payload finish s).2
  = kb_live s /\
  exists k, kb_calls (kb_session e kb_client reg tools prompt state payload finish s).2
            = kb_calls s ++ replicate k kb_client.
Proof.
  intros Hfresh Hinit Hadded Hafter Htools Hfin. unfold kb_session.
  apply with_kb_scoped; [done|].
  apply inv_bind.
  { unfold list_tools_sync. apply inv_bind; [apply kb_during_request|].
    intros _. apply inv_lift. }
  intros names. eapply kb_during_agent_session; eauto.
Qed.

Lemma error_string_state (m : M pyval) s :
  (try_except m error_string s).2 = (m s).2.
Proof. unfold try_except. by destruct (m s) as [[ex|v] s']. Qed.

Lemma kb_scoped_started s s' k :
  kb_next s' = S (kb_next s) ->
  kb_live s' = kb_live s ->
  kb_calls s' = kb_calls s ++ replicate k (kb_next s) ->
  kb_scoped s s'.
Proof. intros Hn Hl Hc. split; [done|]. exists k. eauto. Qed.

Lemma kb_scoped_idle s s' :
  (kb_next s' = kb_next s \/ kb_next s' = S (kb_next s)) ->
  kb_live s' = kb_live s -> kb_calls s' = kb_calls s -> kb_scoped s s'.
Proof.
  intros Hn Hl Hc. split; [done|]. exists 0. rewrite app_nil_r.
  split; [done|]. split; [done|]. lia.
Qed.

Lemma memory_specialist_kb ms P e payload sess s :
  kb_next s ∉ kb_live s ->
  kb_scoped s (memory_specialist ms P e payload sess s).2.
Proof.
  intros Hfresh. unfold memory_specialist. rewrite error_string_state.
  set (s1 := set_kb (S (kb_next s)) (kb_live s) (kb_calls s) s).
  assert (Hacq : (exists ex, acquire ms e s = (inl ex, s)) \/
                 (exists ex, acquire ms e s = (inl ex, s1)) \/
                 (exists mc, acquire ms e s = (inr (kb_next s, mc), s1))).
  { unfold acquire, bind, lift, mcp_client_new, ret. fold s1.
    destruct (ms_client_first ms), (e_memory_client e) as [ex|mc]; eauto. }
  destruct Hacq as [[ex Hacq]|[[ex Hacq]|[mc Hacq]]].
  - rewrite (bind_inl _ _ _ _ _ Hacq). by apply kb_scoped_idle; eauto.
  - rewrite (bind_inl _ _ _ _ _ Hacq). by apply kb_scoped_idle; eauto.
  - rewrite (bind_inr _ _ _ _ _ Hacq). unfold bind at 1, lift at 1.
    destruct (e_provider e _) as [ex|[]]; [by apply kb_scoped_idle; eauto|].
    cbn [fst snd].
    edestruct (kb_session_scoped e (kb_next s)
                 (LTMemoryHookProvider.register_hooks (ms_memory_id ms) mc empty_registry)
                 (fun kb_tools =>
                    WithMemory.specialist_tools (kb_next s) kb_tools
                      (project_cfg ms payload sess))
                 P (project_state payload sess) payload object_reply
                 object_reply_value s1) as (Hn & Hl & k & Hc).
    + done.
    + constructor.
    + constructor.
    + cbn. constructor; [apply kb_during_save_memories|constructor].
    + intros names name f w input. apply kb_during_memory_tools.
    + apply object_reply_pure.
    + by apply (kb_scoped_started _ _ k).
Qed.

Lemma plain_specialist_kb finish fv P e payload s :
  (forall r, pure (finish r) (fv r)) ->
  kb_next s ∉ kb_live s ->
  kb_scoped s (plain_specialist finish P e payload s).2.
Proof.
  intros Hfin Hfresh. unfold plain_specialist. rewrite error_string_state.
  unfold bind at 1, mcp_client_new at 1.
  set (s1 := set_kb (S (kb_next s)) (kb_live s) (kb_calls s) s).
  edestruct (kb_session_scoped e (kb_next s) empty_registry
               (Basic.specialist_tools (kb_next s)) P ∅ payload finish fv s1)
    as (Hn & Hl & k & Hc).
  - done.
  - constructor.
  - constructor.
  - constructor.
  - intros names name f w input. apply kb_during_basic_tools.
  - done.
  - by apply (kb_scoped_started _ _ k).
Qed.

Lemma kb_wf_fresh s :
  kb_wf s ->
  (kb_next s ∉ kb_live s) /\ Forall (fun c => c <> kb_next s) (kb_calls s).
Proof.
  intros [Hlive Hcalls]. split.
  - intros Hin. apply Hlive in Hin. lia.
  - eapply Forall_impl; [exact Hcalls|]. intros c Hc. cbn in Hc. lia.
Qed.

Lemma kb_scoped_wf s s' : kb_wf s -> kb_scoped s s' -> kb_wf s'.
Proof.
  intros [Hlive Hcalls] (Hl & k & Hc & Hn & Hk). split.
  - intros i. rewrite Hl. intros Hi%Hlive. lia.
  - rewrite Hc. apply Forall_app. split.
    + eapply Forall_impl; [exact Hcalls|]. intros c Hlt. cbn in Hlt. lia.
    + destruct k as [|k]; [constructor|].
      rewrite Hk by lia. apply Forall_replicate. lia.
Qed.

Lemma specialist_kb_scoped ep P e payload sess s :
  is_specialist ep = true -> kb_wf s ->
  kb_scoped s (run_entrypoint ep P e payload sess s).2.
Proof.
  intros Hep Hwf. destruct (kb_wf_fresh s Hwf) as [Hfresh _].
  destruct (basic_specialists_shape P) as (Hl & Hg & Hs & Hk).
  destruct ep; try discriminate; cbn [run_entrypoint].
  - rewrite lore_agent_shape. by apply memory_specialist_kb.
  - rewrite gameplay_agent_shape. by apply memory_specialist_kb.
  - rewrite strategy_agent_shape. by apply memory_specialist_kb.
  - rewrite Hl. by eapply plain_specialist_kb, Hfresh; apply object_reply_pure.
  - rewrite Hg. by eapply plain_specialist_kb, Hfresh; apply object_reply_pure.
  - rewrite Hs. by eapply plain_specialist_kb, Hfresh; apply object_reply_pure.
  - rewrite Hk. by eapply plain_specialist_kb, Hfresh; apply response_text_pure.
Qed.

(** C9: a specialist invocation creates its own knowledge-base client,
    one that was neither started nor used before; every request of the
    invocation (tool listing and tool calls) goes through that client; and
    when the invocation ends no client is left started, whatever fails on
    the way: a constructor, the start of the client, the tool listing, the
    model call or the construction of the reply.  The requests of a second
    invocation go through a client that no earlier request used. *)
Theorem kb_connection_scoped_per_invocation :
  forall ep P e payload sess s,
    is_specialist ep = true ->
    kb_wf s ->
    let s' := (run_entrypoint ep P e payload sess s).2 in
    ((kb_next s ∉ kb_live s) /\ Forall (fun c => c <> kb_next s) (kb_calls s)) /\
    kb_scoped s s' /\
    kb_wf s' /\
    forall ep2 P2 e2 payload2 sess2,
      is_specialist ep2 = true ->
      kb_scoped s' (run_entrypoint ep2 P2 e2 payload2 sess2 s').2 /\
      Forall (fun c => c <> kb_next s') (kb_calls s').
Proof.
  intros ep P e payload sess s Hep Hwf s'.
  pose proof (specialist_kb_scoped ep P e payload sess s Hep Hwf) as Hsc.
  fold s' in Hsc. pose proof (kb_scoped_wf s s' Hwf Hsc) as Hwf'.
  split; [by apply kb_wf_fresh|]. split; [done|]. split; [done|].
  intros ep2 P2 e2 payload2 sess2 Hep2. split.
  - by apply specialist_kb_scoped.
  - by apply kb_wf_fresh.
Qed.

Example lore_agent_uses_one_fresh_client :
  let s' := (run_entrypoint LoreMemory "P" (env_ok search_script) hello (PStr "s-1")
               fresh_state).2 in
  kb_calls s' = [0; 0] /\ kb_live s' = ∅ /\ kb_next s' = 1.
Proof. vm_compute. done. Qed.

Example lore_agent_closes_when_listing_fails :
  let r := run_entrypoint LoreBasic "P" env_listing_fails hello PNone fresh_state in
  r.1 = inr (PStr "error listing failed") /\ kb_calls r.2 = [0] /\ kb_live r.2 = ∅.
Proof. vm_compute. done. Qed.

Lemma kb_wf_fresh_state : kb_wf fresh_state.
Proof. split; [intros i Hi; by apply not_elem_of_empty in Hi|constructor]. Qed.

Lemma kb_connection_scoped_per_invocation_witness :
  is_specialist LoreMemory = true /\
  kb_wf fresh_state /\
  kb_scoped fresh_state
    (run_entrypoint LoreMemory "P" env_listing_fails hello (PStr "s-1")
       fresh_state).2.
Proof.
  split; [reflexivity|]. split; [exact kb_wf_fresh_state|].
  exact (proj1 (proj2 (kb_connection_scoped_per_invocation LoreMemory "P"
                         env_listing_fails hello (PStr "s-1") fresh_state
                         eq_refl kb_wf_fresh_state))).
Defined.

(** ** Memory scoping of the specialists *)

Section OpsDuring.
Context (ms : memory_setup) (payload : gmap string string) (sess : pyval)
        (before : list mem_op).
Let I0 := ops_scoped ms (project_id_of payload) sess before.
Let I := ops_during ms (project_id_of payload) sess before.

Lemma ops_scoped_add o s :
  op_scoped ms (project_id_of payload) sess o -> I0 s -> I0 (add_mem_op o s).
Proof.
  intros Ho (ops & Hops & Hall). exists (ops ++ [o]). cbn.
  rewrite Hops, app_assoc. split; [done|].
  apply Forall_app. split; [done|]. by constructor.
Qed.

Lemma ops_during_event msgs s :
  I s ->
  I (add_mem_op (OpCreateEvent (ms_memory_id ms) (actor_of s) (session_of s) msgs) s).
Proof.
  intros (Ha & Hs & Hops). split; [done|]. split; [done|].
  apply ops_scoped_add; [|done]. cbn. by rewrite Ha, Hs.
Qed.

Lemma ops_during_provider input s :
  I s -> I (add_mem_op (OpProviderTool (project_cfg ms payload sess) input) s).
Proof.
  intros (Ha & Hs & Hops). split; [done|]. split; [done|].
  by apply ops_scoped_add.
Qed.

Lemma ops_during_request kb_client : inv I (kb_request kb_client).
Proof. intros s Hs. unfold kb_request. by case_bool_decide. Qed.

Lemma ops_scoped_request kb_client : inv I0 (kb_request kb_client).
Proof. intros s Hs. unfold kb_request. by case_bool_decide. Qed.

Lemma ops_during_tools kb_client names name f w input :
  WithMemory.specialist_tools kb_client names (project_cfg ms payload sess) name
  = Some f ->
  inv I (f w input).
Proof.
  unfold WithMemory.specialist_tools.
  destruct (String.eqb name "agent_core_memory").
  { intros [= <-]. apply inv_provider_tool. intros. by apply ops_during_provider. }
  case_bool_decide; [|done].
  intros [= <-]. apply inv_kb_tool, ops_during_request.
Qed.

Lemma ops_scoped_agent_session mc kb_client names P e :
  inv I0
    (agent_session (LTMemoryHookProvider.register_hooks (ms_memory_id ms) mc empty_registry)
       (WithMemory.specialist_tools kb_client names (project_cfg ms payload sess))
       P (project_state payload sess) payload e object_reply).
Proof.
  intros s Hs.
  set (reg := LTMemoryHookProvider.register_hooks (ms_memory_id ms) mc empty_registry).
  set (tools := WithMemory.specialist_tools kb_client names
                  (project_cfg ms payload sess)).
  set (s1 := set_agent (Agent P [] (project_state payload sess)) s).
  assert (Hs1 : I s1).
  { split; [|split; [|done]].
    - unfold s1, actor_of, project_state, dict_get.
      cbn [the_agent set_agent state]. by rewrite lookup_insert_eq.
    - unfold s1, session_of, project_state, dict_get.
      cbn [the_agent set_agent state].
      rewrite lookup_insert_ne by done. by rewrite lookup_singleton_eq. }
  assert (Hrest : inv I (response <- agent_call reg tools (get_prompt payload)
                                       (e_script e) ;;
                         object_reply response)).
  { apply inv_bind.
    - apply inv_agent_call; try done.
      + cbn. constructor; [|constructor].
        apply inv_save_memories. intros. by apply ops_during_event.
      + intros name f w input. apply ops_during_tools.
    - intros r s' Hs'. by rewrite (object_reply_pure r s'). }
  assert (E : agent_session reg tools P (project_state payload sess) payload e
                object_reply s
              = (response <- agent_call reg tools (get_prompt payload) (e_script e) ;;
                 object_reply response) s1) by reflexivity.
  rewrite E. by destruct (Hrest s1 Hs1) as (_ & _ & ?).
Qed.

Lemma ops_scoped_kb_session mc kb_client P e :
  inv I0
    (kb_session e kb_client
       (LTMemoryHookProvider.register_hooks (ms_memory_id ms) mc empty_registry)
       (fun kb_tools =>
          WithMemory.specialist_tools kb_client kb_tools (project_cfg ms payload sess))
       P (project_state payload sess) payload object_reply).
Proof.
  unfold kb_session, with_kb.
  apply inv_bind; [apply inv_lift|]. intros _.
  apply inv_bind; [by apply inv_modify|]. intros _.
  apply inv_try_finally; [|by apply inv_modify].
  apply inv_bind.
  { unfold list_tools_sync. apply inv_bind; [apply ops_scoped_request|].
    intros _. apply inv_lift. }
  intros names. apply ops_scoped_agent_session.
Qed.

Lemma ops_scoped_memory_specialist P e :
  inv I0 (memory_specialist ms P e payload sess).
Proof.
  unfold memory_specialist.
  apply inv_try_except; [|intros ex; apply inv_ret].
  apply inv_bind.
  { unfold acquire. destruct (ms_client_first ms).
    - apply inv_bind; [apply inv_lift|]. intros mc.
      apply inv_bind; [by intros s Hs|]. intros kb. apply inv_ret.
    - apply inv_bind; [by intros s Hs|]. intros kb.
      apply inv_bind; [apply inv_lift|]. intros mc. apply inv_ret. }
  intros [kb mc]. apply inv_bind; [apply inv_lift|]. intros _.
  apply ops_scoped_kb_session.
Qed.
End OpsDuring.

Lemma memory_specialist_ignores_user_id ms P e payload payload' sess s :
  (forall k, k <> "user_id" -> payload' !! k = payload !! k) ->
  memory_specialist ms P e payload' sess s = memory_specialist ms P e payload sess s.
Proof.
  intros Hsame.
  assert (Hpid : project_id_of payload' = project_id_of payload)
    by (unfold project_id_of; by rewrite Hsame).
  assert (Hprompt : get_prompt payload' = get_prompt payload)
    by (unfold get_prompt; by rewrite Hsame).
  unfold memory_specialist, kb_session, agent_session, project_cfg, project_state.
  by rewrite Hpid, Hprompt.
Qed.

Lemma memory_entrypoint_shape ep ms P e payload sess s :
  memory_setup_of ep = Some ms ->
  run_entrypoint ep P e payload sess s = memory_specialist ms P e payload sess s.
Proof.
  destruct ep; try discriminate; intros [= <-]; cbn [run_entrypoint].
  - apply lore_agent_shape.
  - apply gameplay_agent_shape.
  - apply strategy_agent_shape.
Qed.

(** C10, as the code has it: in every specialist with memory the actor of
    the memory tool provider and of the events written by the hook is the
    project identifier; the namespace read is [project/{project_id}/semantic]
    for lore and strategy and [project/gameplay/{project_id}/semantic] for
    gameplay; and two invocations whose payloads differ only in [user_id]
    return the same value and make the same calls on the memory service. *)
Theorem specialist_memory_scoped_by_project :
  forall ep ms P e payload sess s,
    memory_setup_of ep = Some ms ->
    (forall payload',
        (forall k, k <> "user_id" -> payload' !! k = payload !! k) ->
        run_entrypoint ep P e payload' sess s = run_entrypoint ep P e payload sess s) /\
    ms_namespace ms (project_id_of payload) = namespace_of ep (project_id_of payload) /\
    exists ops,
      mem_ops (run_entrypoint ep P e payload sess s).2 = mem_ops s ++ ops /\
      Forall (op_scoped ms (project_id_of payload) sess) ops.
Proof.
  intros ep ms P e payload sess s Hms. split; [|split].
  - intros payload' Hsame.
    rewrite !(memory_entrypoint_shape ep ms) by done.
    by apply memory_specialist_ignores_user_id.
  - by destruct ep; try discriminate; injection Hms as <-.
  - rewrite (memory_entrypoint_shape ep ms) by done.
    apply (ops_scoped_memory_specialist ms payload sess (mem_ops s) P e s).
    exists []. rewrite app_nil_r. split; [done|constructor].
Qed.

Lemma specialist_memory_scoped_by_project_witness :
  run_entrypoint LoreMemory "P" (env_ok recall_script) bob_hello (PStr "s-1") fresh_state
  = run_entrypoint LoreMemory "P" (env_ok recall_script) alice_hello (PStr "s-1")
      fresh_state.
Proof.
  apply (proj1 (specialist_memory_scoped_by_project LoreMemory lore_setup "P"
                  (env_ok recall_script) alice_hello (PStr "s-1") fresh_state
                  eq_refl)).
  intros k Hk. unfold bob_hello, alice_hello.
  rewrite !lookup_insert_ne by done. reflexivity.
Defined.

(** C10, as stated, fails on the namespace of the gameplay specialist: its
    memory tool reads [project/gameplay/{project_id}/semantic], not
    [project/{project_id}/semantic]. *)
Lemma gameplay_namespace_has_own_segment :
  mem_ops (run_entrypoint GameplayMemory "P" (env_ok recall_script) hello
             (PStr "s-1") fresh_state).2 !! 0%nat
  = Some (OpProviderTool
            (ProviderCfg "Project_gameplay_597edeef-XOt1OmF0Zd"
               (PStr "new-world-aternum") (PStr "s-1")
               "project/gameplay/new-world-aternum/semantic")
            (PStr "recall")) /\
  "project/gameplay/new-world-aternum/semantic" <> "project/new-world-aternum/semantic".
Proof. split; [vm_compute; reflexivity|discriminate]. Qed.

(** ** The accumulator over a whole invocation *)

Lemma keeps_toolmetrics_bind {A B} (m : M A) (k : A -> M B) :
  keeps_toolmetrics m -> (forall x, keeps_toolmetrics (k x)) ->
  keeps_toolmetrics (bind m k).
Proof.
  intros Hm Hk s. unfold bind. specialize (Hm s).
  destruct (m s) as [[e|x] s']; [done|]. cbn in Hm. by rewrite Hk.
Qed.

Lemma keeps_toolmetrics_inv {A} (m : M A) :
  (forall X, inv (fun s => toolmetrics s = X) m) -> keeps_toolmetrics m.
Proof. intros H s. by apply (H (toolmetrics s)). Qed.

Lemma keeps_toolmetrics_fire cbs :
  Forall keeps_toolmetrics cbs -> keeps_toolmetrics (fire cbs).
Proof.
  induction 1 as [|cb rest Hcb _ IH]; cbn [fire]; [done|].
  apply keeps_toolmetrics_bind; [done|]. by intros _.
Qed.

Lemma keeps_toolmetrics_add_message reg m :
  Forall keeps_toolmetrics (cb_message_added reg) ->
  keeps_toolmetrics (add_message reg m).
Proof.
  intros H. apply keeps_toolmetrics_bind; [done|]. intros _.
  by apply keeps_toolmetrics_fire.
Qed.

Lemma keeps_toolmetrics_on_message_added mc mid :
  keeps_toolmetrics (on_message_added mc mid).
Proof. apply keeps_toolmetrics_inv. intros X. by apply inv_on_message_added. Qed.

Lemma keeps_toolmetrics_save_memories mc mid :
  keeps_toolmetrics (save_memories mc mid).
Proof. apply keeps_toolmetrics_inv. intros X. by apply inv_save_memories. Qed.

Lemma delegate_of_tool_analyst cfg name :
  match delegate_of_tool name with
  | Some d => WithMemory.analyst_tools cfg name = Some (delegation_tool OrchMemory d)
  | None =>
      WithMemory.analyst_tools cfg name = None \/
      WithMemory.analyst_tools cfg name = Some (provider_tool cfg)
  end.
Proof.
  unfold delegate_of_tool, WithMemory.analyst_tools.
  destruct (String.eqb name "get_gameplay_agent"); [done|].
  destruct (String.eqb name "get_lore_agent"); [done|].
  destruct (String.eqb name "get_strategy_agent"); [done|].
  destruct (String.eqb name "agent_core_memory"); eauto.
Qed.

Lemma delegation_tool_state o d w payload s :
  toolmetrics (delegation_tool o d w payload s).2
  = toolmetrics s ++
    match reply_of o d w payload with
    | Some response =>
        match subscript response "metrics" with
        | inr m => [m]
        | inl _ => []
        end
    | None => []
    end.
Proof.
  rewrite delegation_tool_eq. unfold reply_of.
  destruct (ssm_get_parameter w _); [by rewrite app_nil_r|].
  destruct (invoke_agent_runtime w _ _ _); [by rewrite app_nil_r|].
  destruct (json_loads w _); [by rewrite app_nil_r|].
  destruct (subscript _ "metrics"); [by rewrite app_nil_r|]. done.
Qed.

(** One tool round appends the [metrics] of its reply, if any. *)
Lemma run_tool_toolmetrics cfg r s :
  toolmetrics (run_tool (WithMemory.analyst_tools cfg) r s).2
  = toolmetrics s ++ round_metrics r.
Proof.
  unfold run_tool, round_metrics.
  pose proof (delegate_of_tool_analyst cfg (r_tool r)) as Htool.
  destruct (delegate_of_tool (r_tool r)) as [d|].
  - rewrite Htool. unfold try_except, bind.
    pose proof (delegation_tool_state OrchMemory d (r_world r) (r_input r) s) as Hs.
    destruct (delegation_tool _ _ _ _ s) as [[e|v] s']; exact Hs.
  - destruct Htool as [-> | ->]; [by rewrite app_nil_r|].
    unfold try_except, bind, provider_tool, modify, lift.
    destruct (ext_tool _ _ _); by rewrite app_nil_r.
Qed.

Lemma step_keeping {A} (m : M A) s :
  total m -> keeps_toolmetrics m ->
  exists x s', m s = (inr x, s') /\ toolmetrics s' = toolmetrics s.
Proof.
  intros Ht Hk. destruct (total_run m s Ht) as (x & s' & E).
  exists x, s'. split; [done|]. specialize (Hk s). by rewrite E in Hk.
Qed.

Lemma analyst_add_message mc m :
  total (add_message (analyst_registry mc) m) /\
  keeps_toolmetrics (add_message (analyst_registry mc) m).
Proof.
  split.
  - apply total_add_message, analyst_callbacks_total.
  - apply keeps_toolmetrics_add_message. cbn.
    constructor; [apply keeps_toolmetrics_on_message_added|constructor].
Qed.

Lemma run_rounds_toolmetrics mc cfg rs : forall s,
  toolmetrics (run_rounds (analyst_registry mc) (WithMemory.analyst_tools cfg) rs s).2
  = toolmetrics s ++ concat (map round_metrics rs).
Proof.
  induction rs as [|r rest IH]; intros s; cbn [run_rounds map concat].
  - by rewrite app_nil_r.
  - unfold bind at 1, modify at 1.
    set (m := Message "assistant"
                (lead_blocks (r_lead r) ++ [tool_use_block (r_tool r) (r_input r)])).
    destruct (step_keeping _ (add_model_ctx s)
                (proj1 (analyst_add_message mc m)) (proj2 (analyst_add_message mc m)))
      as ([] & s1 & E1 & H1).
    rewrite (bind_inr _ _ _ _ _ E1).
    destruct (total_run _ s1 (total_run_tool (WithMemory.analyst_tools cfg) r))
      as (res & s2 & E2).
    pose proof (run_tool_toolmetrics cfg r s1) as H2. rewrite E2 in H2. cbn in H2.
    rewrite (bind_inr _ _ _ _ _ E2).
    destruct (step_keeping _ s2
                (proj1 (analyst_add_message mc (Message "user" [res])))
                (proj2 (analyst_add_message mc (Message "user" [res]))))
      as ([] & s3 & E3 & H3).
    rewrite (bind_inr _ _ _ _ _ E3).
    rewrite IH, H3, H2, H1. cbn. by rewrite app_assoc.
Qed.

Lemma agent_call_toolmetrics mc cfg user_input sc s :
  toolmetrics (agent_call (analyst_registry mc) (WithMemory.analyst_tools cfg)
                 user_input sc s).2
  = toolmetrics s ++ concat (map round_metrics (rounds sc)).
Proof.
  assert (Hafter : keeps_toolmetrics (fire (cb_after_invocation (analyst_registry mc)))).
  { apply keeps_toolmetrics_fire. cbn.
    constructor; [apply keeps_toolmetrics_save_memories|constructor]. }
  unfold agent_call, try_finally.
  match goal with |- context [bind ?m ?k s] =>
    assert (Hfirst : total m /\ keeps_toolmetrics m) by
      (destruct user_input;
       first [apply analyst_add_message | split; [apply total_ret|done]]);
    destruct (step_keeping m s (proj1 Hfirst) (proj2 Hfirst)) as ([] & s1 & E1 & H1);
    rewrite (bind_inr m k s tt s1 E1)
  end.
  destruct (total_run _ s1 (total_run_rounds (analyst_registry mc)
              (WithMemory.analyst_tools cfg) (rounds sc)
              (proj1 (analyst_callbacks_total mc)))) as ([] & s2 & E2).
  pose proof (run_rounds_toolmetrics mc cfg (rounds sc) s1) as H2.
  rewrite E2 in H2. cbn in H2.
  rewrite (bind_inr _ _ _ _ _ E2). unfold bind at 1, modify at 1.
  destruct (ending sc) as [ex|c].
  - unfold raise. pose proof (Hafter (add_model_ctx s2)) as H3.
    destruct (fire _ (add_model_ctx s2)) as [[e|[]] s3]; cbn in *;
      by rewrite H3, H2, H1.
  - destruct (step_keeping _ (add_model_ctx s2)
                (proj1 (analyst_add_message mc (Message "assistant" c)))
                (proj2 (analyst_add_message mc (Message "assistant" c))))
      as ([] & s3 & E3 & H3).
    rewrite (bind_inr _ _ _ _ _ E3). unfold ret.
    pose proof (Hafter s3) as H4.
    destruct (fire _ s3) as [[e|[]] s4]; cbn in *; by rewrite H4, H3, H2, H1.
Qed.

(** The [toolMetrics] of a success response are the [metrics] fields of the
    replies received in this invocation, in call order, whatever the list
    held before. *)
Lemma game_analyst_agent_toolmetrics P e payload sess s mc b bs text :
  e_memory_client e = inr mc ->
  e_provider e (analyst_cfg payload sess) = inr tt ->
  ending (e_script e) = inr (b :: bs) ->
  b !! "text" = Some text ->
  (WithMemory.game_analyst_agent P e payload sess s).1
  = inr (PDict (<["response" := text]>
                  (<["metrics" := s_metrics (e_script e)]>
                     {[ "toolMetrics" :=
                          PList (concat (map round_metrics (rounds (e_script e)))) ]}))).
Proof.
  intros Hmc Hcfg Hend Htext.
  rewrite (game_analyst_agent_unfold _ _ _ _ _ mc Hmc Hcfg).
  rewrite (bind_inr _ _ _ _ _ (analyst_new_agent P payload sess mc _)).
  set (s1 := (on_agent_initialized mc WithMemory.session_memory_id _).2).
  assert (Hs1 : toolmetrics s1 = []).
  { unfold s1. rewrite on_agent_initialized_eq. cbn [snd].
    destruct (negb _ || negb _); [done|].
    by destruct (get_last_k_turns _ _ _ _ _ _) as [?|[|? ?]]. }
  unfold analyst_reply, try_except.
  destruct (analyst_callbacks_total mc) as [Hadded Hafter].
  pose proof (agent_call_value (analyst_registry mc)
                (WithMemory.analyst_tools (analyst_cfg payload sess))
                (get_prompt payload) (e_script e) s1 Hadded Hafter) as Hval.
  pose proof (agent_call_toolmetrics mc (analyst_cfg payload sess)
                (get_prompt payload) (e_script e) s1) as Htm.
  unfold call_outcome in Hval. rewrite Hend in Hval. unfold bind at 1.
  destruct (agent_call _ _ _ _ s1) as [r s2]. cbn [fst snd] in Hval, Htm. subst r.
  unfold bind at 1. rewrite (response_text_pure _ s2).
  unfold response_text_value, dict_item; cbn [res_message content]. rewrite Htext.
  unfold bind, gets, ret. cbn [fst]. by rewrite Htm, Hs1.
Qed.

(** When no reply carries [metrics] without [response], the records are as
    many as the delegation calls that completed. *)
Lemma toolmetrics_count_whole_replies rs :
  replies_whole rs ->
  length (concat (map round_metrics rs)) = length (filter round_completes rs).
Proof.
  induction 1 as [|r rest Hr _ IH]; [done|].
  cbn [map concat]. rewrite length_app, IH.
  assert (Hone : length (round_metrics r) = if round_completes r then 1 else 0).
  { unfold round_metrics, round_completes in *.
    destruct (delegate_of_tool (r_tool r)); [|done].
    destruct (reply_of _ _ _ _) as [response|]; [|done].
    destruct (subscript response "metrics") as [e|m]; [done|].
    destruct (subscript response "response"); [|done].
    by specialize (Hr ltac:(done)). }
  rewrite Hone. rewrite filter_cons.
  destruct (round_completes r); cbn; [|done].
  by rewrite decide_True.
Qed.

(* ================================================================== *)
(** * Further properties of the modelled code *)

(** ** save_memories on any message list *)





(** ** The accumulator and the delegation rounds *)

Lemma round_completes_spec r s :
  round_completes r = true <->
  exists d v,
    delegate_of_tool (r_tool r) = Some d /\
    (delegation_tool OrchMemory d (r_world r) (r_input r) s).1 = inr v.
Proof.
  unfold round_completes. split.
  - destruct (delegate_of_tool (r_tool r)) as [d|]; [|done].
    intros H. exists d. rewrite delegation_tool_eq. unfold reply_of in H.
    destruct (ssm_get_parameter _ _); [done|].
    destruct (invoke_agent_runtime _ _ _ _); [done|].
    destruct (json_loads _ _); [done|].
    destruct (subscript _ "metrics"); [done|].
    destruct (subscript _ "response") as [|v]; [done|]. by exists v.
  - intros (d & v & -> & H). rewrite delegation_tool_eq in H. unfold reply_of.
    destruct (ssm_get_parameter _ _); [done|].
    destruct (invoke_agent_runtime _ _ _ _); [done|].
    destruct (json_loads _ _); [done|].
    destruct (subscript _ "metrics"); [done|].
    by destruct (subscript _ "response").
Qed.

(** What the orchestrator with memory reports as [toolMetrics]: exactly the
    [metrics] fields of the replies decoded in this invocation, in the order
    of the calls, whatever the module-level list held before; tool rounds
    that are no delegation, or whose reply did not decode to an object with a
    [metrics] field, add nothing.  When every reply that carries [metrics]
    also carries [response], the records are as many as the delegation calls
    that returned a value. *)
Theorem toolmetrics_lists_replies_in_call_order :
  forall P e payload sess s mc b bs text,
    e_memory_client e = inr mc ->
    e_provider e (analyst_cfg payload sess) = inr tt ->
    ending (e_script e) = inr (b :: bs) ->
    b !! "text" = Some text ->
    (WithMemory.game_analyst_agent P e payload sess s).1
    = inr (PDict (<["response" := text]>
                    (<["metrics" := s_metrics (e_script e)]>
                       {[ "toolMetrics" :=
                            PList (concat (map round_metrics
                                             (rounds (e_script e)))) ]}))) /\
    (replies_whole (rounds (e_script e)) ->
     length (concat (map round_metrics (rounds (e_script e))))
     = length (filter round_completes (rounds (e_script e)))) /\
    (forall r s',
        round_completes r = true <->
        exists d v,
          delegate_of_tool (r_tool r) = Some d /\
          (delegation_tool OrchMemory d (r_world r) (r_input r) s').1 = inr v).
Proof.
  intros P e payload sess s mc b bs text Hmc Hcfg Hend Htext.
  split; [by eapply game_analyst_agent_toolmetrics|].
  split; [apply toolmetrics_count_whole_replies|].
  intros r s'. apply round_completes_spec.
Qed.

Lemma toolmetrics_lists_replies_in_call_order_witness :
  (WithMemory.game_analyst_agent "P" (env_ok two_calls_script) hello (PStr "s-1")
     stale_state).1
  = inr (PDict (<["response" := PStr "final"]>
                  (<["metrics" := PInt 1]> {[ "toolMetrics" := PList [PInt 7] ]}))).
Proof.
  exact (proj1 (toolmetrics_lists_replies_in_call_order "P"
                  (env_ok two_calls_script) hello (PStr "s-1") stale_state
                  store_empty {[ "text" := PStr "final" ]} [] (PStr "final")
                  eq_refl eq_refl eq_refl eq_refl)).
Defined.

(** ** Failures around the agent call *)

(** A failing lookup of the specialist's address.  In the orchestrator with
    memory the parameter store's exception leaves the tool as it is.  In the
    basic orchestrator it is replaced: the handler calls [logger.exception]
    on a [logger] that is [None], so the tool raises [AttributeError]
    whatever the parameter store raised, and that is the error text the
    model is shown.  In both, no remote call is made and the accumulator is
    not touched. *)
Theorem failed_lookup_in_delegation :
  forall d w payload s ex,
    (ssm_get_parameter w (arn_parameter OrchMemory d) = inl ex ->
     delegation_tool OrchMemory d w payload s = (inl ex, s)) /\
    (ssm_get_parameter w (arn_parameter OrchBasic d) = inl ex ->
     delegation_tool OrchBasic d w payload s
     = (inl (AttributeError "'NoneType' object has no attribute 'exception'"), s) /\
     forall tools name lead,
       tools name = Some (delegation_tool OrchBasic d) ->
       run_tool tools (Round lead name payload w) s
       = (inr (tool_result_block "error"
                 (PStr "Error: AttributeError - 'NoneType' object has no attribute 'exception'")),
          s)).
Proof.
  intros d w payload s ex. split.
  - intros H. by rewrite delegation_tool_eq, H.
  - intros H.
    assert (E : delegation_tool OrchBasic d w payload s
                = (inl (AttributeError "'NoneType' object has no attribute 'exception'"), s))
      by (by rewrite delegation_tool_eq, H).
    split; [done|]. intros tools name lead Htool.
    unfold run_tool; cbn [r_tool r_world r_input]. rewrite Htool.
    unfold try_except, bind. by rewrite E.
Qed.

Lemma failed_lookup_in_delegation_witness :
  delegation_tool OrchMemory Lore ssm_down (PStr "q") stale_state
  = (inl (ServiceError "ParameterNotFound"), stale_state) /\
  delegation_tool OrchBasic Lore ssm_down (PStr "q") stale_state
  = (inl (AttributeError "'NoneType' object has no attribute 'exception'"),
     stale_state).
Proof.
  split.
  - exact (proj1 (failed_lookup_in_delegation Lore ssm_down (PStr "q") stale_state
                    (ServiceError "ParameterNotFound")) eq_refl).
  - exact (proj1 (proj2 (failed_lookup_in_delegation Lore ssm_down (PStr "q")
                           stale_state (ServiceError "ParameterNotFound")) eq_refl)).
Defined.

Lemma constructor_failures_before_agent_call_aux P e payload sess s ex :
  (e_memory_client e = inl ex ->
   WithMemory.game_analyst_agent P e payload sess s
   = (inl ex, set_toolmetrics [] s)) /\
  (forall mc,
      e_memory_client e = inr mc ->
      e_provider e (analyst_cfg payload sess) = inl ex ->
      WithMemory.game_analyst_agent P e payload sess s
      = (inl ex, set_toolmetrics [] s)).
Proof.
  split.
  - intros H. unfold WithMemory.game_analyst_agent.
    unfold bind at 1, modify at 1. unfold bind at 1, lift at 1. by rewrite H.
  - intros mc Hmc H. unfold WithMemory.game_analyst_agent.
    unfold bind at 1, modify at 1. unfold bind at 1, lift at 1. rewrite Hmc.
    unfold bind at 1, lift at 1. fold (analyst_user_id payload).
    fold (analyst_cfg payload sess). by rewrite H.
Qed.

(** Failures before the agent call.  The orchestrator with memory builds
    [MemoryClient] and the memory tool provider before its [try]: when either
    constructor raises, the exception leaves the entrypoint, with the
    accumulator already reset and nothing else done.  A specialist with
    memory builds them inside its [try]: the same failures come back as the
    string ["error " + str(e)]. *)
Theorem constructor_failures_before_agent_call :
  forall P e payload sess s ex,
    (e_memory_client e = inl ex ->
     WithMemory.game_analyst_agent P e payload sess s
     = (inl ex, set_toolmetrics [] s)) /\
    (forall mc,
        e_memory_client e = inr mc ->
        e_provider e (analyst_cfg payload sess) = inl ex ->
        WithMemory.game_analyst_agent P e payload sess s
        = (inl ex, set_toolmetrics [] s)) /\
    (forall ep ms,
        memory_setup_of ep = Some ms ->
        (e_memory_client e = inl ex \/
         e_provider e (project_cfg ms payload sess) = inl ex /\
         exists mc, e_memory_client e = inr mc) ->
        (run_entrypoint ep P e payload sess s).1
        = inr (PStr ("error " +:+ exn_str ex)) /\
        mem_ops (run_entrypoint ep P e payload sess s).2 = mem_ops s /\
        kb_calls (run_entrypoint ep P e payload sess s).2 = kb_calls s).
Proof.
  intros P e payload sess s ex. split; [|split].
  - intros H. unfold WithMemory.game_analyst_agent.
    unfold bind at 1, modify at 1. unfold bind at 1, lift at 1. by rewrite H.
  - intros mc Hmc H. unfold WithMemory.game_analyst_agent.
    unfold bind at 1, modify at 1. unfold bind at 1, lift at 1. rewrite Hmc.
    unfold bind at 1, lift at 1. fold (analyst_user_id payload).
    fold (analyst_cfg payload sess). by rewrite H.
  - intros ep ms Hms Hfail.
    rewrite (memory_entrypoint_shape ep ms) by done.
    unfold memory_specialist.
    assert (E : exists s1,
               (kc <- acquire ms e ;;
                lift (e_provider e (project_cfg ms payload sess)) ;;;
                kb_session e kc.1
                  (LTMemoryHookProvider.register_hooks (ms_memory_id ms) kc.2
                     empty_registry)
                  (fun kb_tools =>
                     WithMemory.specialist_tools kc.1 kb_tools
                       (project_cfg ms payload sess))
                  P (project_state payload sess) payload object_reply) s
               = (inl ex, s1) /\ mem_ops s1 = mem_ops s /\ kb_calls s1 = kb_calls s).
    { unfold acquire, bind, lift, mcp_client_new, ret.
      destruct Hfail as [H | [H [mc Hmc]]].
      - rewrite H. destruct (ms_client_first ms); eauto.
      - rewrite Hmc. destruct (ms_client_first ms); rewrite H; eauto. }
    destruct E as (s1 & E & Hops & Hcalls).
    unfold try_except. rewrite E. by cbn.
Qed.

Lemma constructor_failures_before_agent_call_witness :
  WithMemory.game_analyst_agent "P" env_no_memory_client hello (PStr "s-1") stale_state
  = (inl (ServiceError "no credentials"), set_toolmetrics [] stale_state) /\
  (run_entrypoint GameplayMemory "P" env_no_memory_client hello (PStr "s-1")
     stale_state).1
  = inr (PStr "error no credentials").
Proof.
  split.
  - exact (proj1 (constructor_failures_before_agent_call "P" env_no_memory_client
                    hello (PStr "s-1") stale_state (ServiceError "no credentials"))
                 eq_refl).
  - exact (proj1 (proj2 (proj2 (constructor_failures_before_agent_call "P"
                                  env_no_memory_client hello (PStr "s-1") stale_state
                                  (ServiceError "no credentials")))
                        GameplayMemory gameplay_setup eq_refl (or_introl eq_refl))).
Defined.

(** ** What an invocation leaves untouched *)

Section Frame.
Context (I : st -> Prop).
Hypothesis keep_agent : forall a s, I s -> I (set_agent a s).
Hypothesis keep_ctx : forall s, I s -> I (add_model_ctx s).

Lemma frame_new_agent reg P state :
  Forall (inv I) (cb_agent_initialized reg) -> inv I (new_agent reg P state).
Proof.
  intros H. unfold new_agent.
  apply inv_bind; [apply inv_modify; intros s; apply keep_agent|].
  intros _. by apply inv_fire.
Qed.

Lemma frame_response_text r : inv I (response_text r).
Proof. intros s Hs. by rewrite (response_text_pure r s). Qed.

Lemma frame_object_reply r : inv I (object_reply r).
Proof. intros s Hs. by rewrite (object_reply_pure r s). Qed.

Lemma frame_agent_session reg tools P state payload e finish :
  Forall (inv I) (cb_agent_initialized reg) ->
  Forall (inv I) (cb_message_added reg) ->
  Forall (inv I) (cb_after_invocation reg) ->
  (forall name f w input, tools name = Some f -> inv I (f w input)) ->
  (forall r, inv I (finish r)) ->
  inv I (agent_session reg tools P state payload e finish).
Proof.
  intros Hinit Hadd Hafter Htools Hfin. unfold agent_session.
  apply inv_bind; [by apply frame_new_agent|]. intros _.
  apply inv_bind; [|done].
  apply inv_agent_call; try done. intros m s. apply keep_agent.
Qed.

Section Connector.
Hypothesis keep_kb : forall n live calls s, I s -> I (set_kb n live calls s).

Lemma frame_kb_request kb_client : inv I (kb_request kb_client).
Proof. intros s Hs. unfold kb_request. case_bool_decide; [by apply keep_kb|done]. Qed.

Lemma frame_mcp_client_new : inv I mcp_client_new.
Proof. intros s Hs. by apply keep_kb. Qed.

Lemma frame_kb_session e kb_client reg tools P state payload finish :
  Forall (inv I) (cb_agent_initialized reg) ->
  Forall (inv I) (cb_message_added reg) ->
  Forall (inv I) (cb_after_invocation reg) ->
  (forall names name f w input, tools names name = Some f -> inv I (f w input)) ->
  (forall r, inv I (finish r)) ->
  inv I (kb_session e kb_client reg tools P state payload finish).
Proof.
  intros Hinit Hadd Hafter Htools Hfin. unfold kb_session, with_kb.
  apply inv_bind; [apply inv_lift|]. intros _.
  apply inv_bind; [apply inv_modify; intros s; apply keep_kb|]. intros _.
  apply inv_try_finally; [|apply inv_modify; intros s; apply keep_kb].
  apply inv_bind.
  { unfold list_tools_sync. apply inv_bind; [apply frame_kb_request|].
    intros _. apply inv_lift. }
  intros names. apply frame_agent_session; try done. apply Htools.
Qed.

Lemma frame_plain_specialist finish P e payload :
  (forall r, inv I (finish r)) -> inv I (plain_specialist finish P e payload).
Proof.
  intros Hfin. unfold plain_specialist.
  apply inv_try_except; [|intros ex; apply inv_ret].
  apply inv_bind; [apply frame_mcp_client_new|]. intros kb.
  apply frame_kb_session; try done; try constructor.
  intros names name f w input. unfold Basic.specialist_tools.
  case_bool_decide; [|done]. intros [= <-].
  apply inv_kb_tool, frame_kb_request.
Qed.

Lemma frame_memory_specialist ms P e payload sess :
  (forall o s, I s -> I (add_mem_op o s)) ->
  inv I (memory_specialist ms P e payload sess).
Proof.
  intros Hop. unfold memory_specialist.
  apply inv_try_except; [|intros ex; apply inv_ret].
  apply inv_bind.
  { unfold acquire. destruct (ms_client_first ms).
    - apply inv_bind; [apply inv_lift|]. intros mc.
      apply inv_bind; [apply frame_mcp_client_new|]. intros kb. apply inv_ret.
    - apply inv_bind; [apply frame_mcp_client_new|]. intros kb.
      apply inv_bind; [apply inv_lift|]. intros mc. apply inv_ret. }
  intros [kb mc]. apply inv_bind; [apply inv_lift|]. intros _.
  apply frame_kb_session.
  - cbn. constructor.
  - cbn. constructor.
  - cbn. constructor; [|constructor]. apply inv_save_memories.
    intros msgs s. apply Hop.
  - intros names name f w input. unfold WithMemory.specialist_tools.
    destruct (String.eqb name "agent_core_memory").
    { intros [= <-]. apply inv_provider_tool. intros s. apply Hop. }
    case_bool_decide; [|done]. intros [= <-].
    apply inv_kb_tool, frame_kb_request.
  - apply frame_object_reply.
Qed.
End Connector.

Section Accumulator.
Hypothesis keep_tm : forall tm s, I s -> I (set_toolmetrics tm s).

Lemma frame_basic_analyst P e payload :
  inv I (Basic.game_analyst_agent P e payload).
Proof.
  unfold Basic.game_analyst_agent.
  apply inv_bind; [apply inv_modify; intros s; apply keep_tm|]. intros _.
  apply inv_bind; [apply frame_new_agent; constructor|]. intros _.
  apply inv_try_except; [|intros ex; apply inv_ret].
  apply inv_bind.
  { apply inv_agent_call; try done; try constructor.
    - intros m s. apply keep_agent.
    - intros name f w input. unfold Basic.analyst_tools.
      destruct (String.eqb name "get_lore_agent");
        [intros [= <-]; by apply (inv_delegation_tool I OrchBasic Lore)|].
      destruct (String.eqb name "get_strategy_agent");
        [intros [= <-]; by apply (inv_delegation_tool I OrchBasic Strategy)|].
      destruct (String.eqb name "get_gameplay_agent");
        [intros [= <-]; by apply (inv_delegation_tool I OrchBasic Gameplay)|].
      discriminate. }
  intros r. apply inv_bind; [apply frame_response_text|]. intros text.
  apply inv_bind; [apply inv_gets|]. intros tm. apply inv_ret.
Qed.

Lemma frame_on_agent_initialized mc mid :
  (forall o s, I s -> I (add_mem_op o s)) ->
  inv I (on_agent_initialized mc mid).
Proof.
  intros Hop s Hs. rewrite on_agent_initialized_eq. cbn [snd].
  destruct (negb _ || negb _); [done|].
  destruct (get_last_k_turns _ _ _ _ _ _) as [ex|[|t ts]];
    try apply keep_agent; by apply Hop.
Qed.

Lemma frame_memory_analyst P e payload sess :
  (forall o s, I s -> I (add_mem_op o s)) ->
  inv I (WithMemory.game_analyst_agent P e payload sess).
Proof.
  intros Hop. unfold WithMemory.game_analyst_agent.
  apply inv_bind; [apply inv_modify; intros s; apply keep_tm|]. intros _.
  apply inv_bind; [apply inv_lift|]. intros mc.
  apply inv_bind; [apply inv_lift|]. intros _.
  apply inv_bind.
  { apply frame_new_agent. cbn. constructor; [|constructor].
    by apply frame_on_agent_initialized. }
  intros _. apply inv_try_except; [|intros ex; apply inv_ret].
  apply inv_bind.
  { apply inv_agent_call; try done.
    - intros m s. apply keep_agent.
    - cbn. constructor; [|constructor]. apply inv_on_message_added.
      intros msgs s. apply Hop.
    - cbn. constructor; [|constructor]. apply inv_save_memories.
      intros msgs s. apply Hop.
    - intros name f w input Hf.
      eapply inv_analyst_tools; [done| |done]. intros i s. apply Hop. }
  intros r. apply inv_bind; [apply frame_response_text|]. intros text.
  apply inv_bind; [apply inv_gets|]. intros tm. apply inv_ret.
Qed.
End Accumulator.
End Frame.

(** Each entrypoint stays within its layers.  An entrypoint built without
    the memory classes makes no call on the memory service; an orchestrator
    hands out no knowledge-base client, starts none and sends no request; a
    specialist leaves the module-level [toolmetrics] list as it found it.
    This holds for every script of the model and however the services answer
    or fail. *)
Theorem entrypoints_stay_within_their_layers :
  forall ep P e payload sess s,
    (uses_memory ep = false ->
     mem_ops (run_entrypoint ep P e payload sess s).2 = mem_ops s) /\
    (is_specialist ep = false ->
     kb_state (run_entrypoint ep P e payload sess s).2 = kb_state s) /\
    (is_specialist ep = true ->
     toolmetrics (run_entrypoint ep P e payload sess s).2 = toolmetrics s).
Proof.
  intros ep P e payload sess s.
  destruct (basic_specialists_shape P) as (Hl & Hg & Hs & Hk).
  split; [|split].
  - intros Hep.
    set (I := fun s' : st => mem_ops s' = mem_ops s).
    enough (H : inv I (run_entrypoint ep P e payload sess)) by (by apply H).
    destruct ep; try discriminate; cbn [run_entrypoint].
    + by apply frame_basic_analyst.
    + rewrite Hl. apply frame_plain_specialist; try done. apply frame_object_reply.
    + rewrite Hg. apply frame_plain_specialist; try done. apply frame_object_reply.
    + rewrite Hs. apply frame_plain_specialist; try done. apply frame_object_reply.
    + rewrite Hk. apply frame_plain_specialist; try done. apply frame_response_text.
  - intros Hep.
    set (I := fun s' : st => kb_state s' = kb_state s).
    enough (H : inv I (run_entrypoint ep P e payload sess)) by (by apply H).
    destruct ep; try discriminate; cbn [run_entrypoint].
    + by apply frame_memory_analyst.
    + by apply frame_basic_analyst.
  - intros Hep.
    set (I := fun s' : st => toolmetrics s' = toolmetrics s).
    enough (H : inv I (run_entrypoint ep P e payload sess)) by (by apply H).
    destruct ep; try discriminate; cbn [run_entrypoint].
    + intros s' Hs'. rewrite lore_agent_shape.
      by apply (frame_memory_specialist I).
    + intros s' Hs'. rewrite gameplay_agent_shape.
      by apply (frame_memory_specialist I).
    + intros s' Hs'. rewrite strategy_agent_shape.
      by apply (frame_memory_specialist I).
    + rewrite Hl. apply frame_plain_specialist; try done. apply frame_object_reply.
    + rewrite Hg. apply frame_plain_specialist; try done. apply frame_object_reply.
    + rewrite Hs. apply frame_plain_specialist; try done. apply frame_object_reply.
    + rewrite Hk. apply frame_plain_specialist; try done. apply frame_response_text.
Qed.

Lemma entrypoints_stay_within_their_layers_witness :
  mem_ops (run_entrypoint LoreBasic "P" (env_ok search_script) hello (PStr "s-1")
             stale_state).2 = mem_ops stale_state /\
  kb_state (run_entrypoint AnalystMemory "P" (env_ok two_calls_script) hello
              (PStr "s-1") stale_state).2 = kb_state stale_state /\
  toolmetrics (run_entrypoint GameplayMemory "P" (env_ok search_script) hello
                 (PStr "s-1") stale_state).2 = toolmetrics stale_state.
Proof.
  split; [|split].
  - exact (proj1 (entrypoints_stay_within_their_layers LoreBasic "P"
                    (env_ok search_script) hello (PStr "s-1") stale_state) eq_refl).
  - exact (proj1 (proj2 (entrypoints_stay_within_their_layers AnalystMemory "P"
                           (env_ok two_calls_script) hello (PStr "s-1") stale_state))
                 eq_refl).
  - exact (proj2 (proj2 (entrypoints_stay_within_their_layers GameplayMemory "P"
                           (env_ok search_script) hello (PStr "s-1") stale_state))
                 eq_refl).
Defined.

(** ** Memory scoping of the orchestrator *)

Section AnalystOps.
Context (payload : gmap string string) (sess : pyval) (before : list mem_op).
Let uid := analyst_user_id payload.
Let I (s : st) : Prop :=
  actor_of s = PStr uid /\ session_of s = sess /\
  exists ops, mem_ops s = before ++ ops /\ Forall (analyst_op_scoped uid sess) ops.

Lemma analyst_ops_add o s :
  analyst_op_scoped uid sess o -> I s -> I (add_mem_op o s).
Proof.
  intros Ho (Ha & Hs & ops & Hops & Hall). split; [done|]. split; [done|].
  exists (ops ++ [o]). cbn. rewrite Hops, app_assoc. split; [done|].
  apply Forall_app. split; [done|]. by constructor.
Qed.

Lemma analyst_ops_event mid msgs s :
  mid = WithMemory.session_memory_id \/ mid = WithMemory.user_prefs_memory_id ->
  I s -> I (add_mem_op (OpCreateEvent mid (actor_of s) (session_of s) msgs) s).
Proof.
  intros Hmid Hs. apply analyst_ops_add; [|done].
  destruct Hs as (Ha & Hs & _). cbn. by rewrite Ha, Hs.
Qed.

Lemma analyst_ops_reply e mc : inv I (analyst_reply e payload sess mc).
Proof.
  unfold analyst_reply.
  apply inv_try_except; [|intros ex; apply inv_ret].
  apply inv_bind.
  { apply inv_agent_call.
    - by intros m s Hs.
    - by intros s Hs.
    - cbn. constructor; [|constructor]. apply inv_on_message_added.
      intros msgs s. apply analyst_ops_event. by left.
    - cbn. constructor; [|constructor]. apply inv_save_memories.
      intros msgs s. apply analyst_ops_event. by right.
    - intros name f w input Hf.
      eapply inv_analyst_tools; [| |exact Hf].
      + by intros tm s Hs.
      + intros i s. by apply analyst_ops_add. }
  intros r. apply inv_bind; [by apply frame_response_text|]. intros text.
  apply inv_bind; [apply inv_gets|]. intros tm. apply inv_ret.
Qed.

Lemma analyst_ops_new_agent P mc s :
  mem_ops s = before ->
  I (new_agent (analyst_registry mc) P (analyst_state payload sess) s).2.
Proof.
  intros Hs. rewrite analyst_new_agent. cbn [snd].
  rewrite on_agent_initialized_eq. cbn [snd].
  set (s0 := set_agent (Agent P [] (analyst_state payload sess)) s).
  assert (Ha : actor_of s0 = PStr uid).
  { unfold s0, actor_of, analyst_state, dict_get.
    cbn [the_agent set_agent state]. by rewrite lookup_insert_eq. }
  assert (Hsess : session_of s0 = sess).
  { unfold s0, session_of, analyst_state, dict_get.
    cbn [the_agent set_agent state].
    rewrite lookup_insert_ne by done. by rewrite lookup_singleton_eq. }
  assert (H0 : I s0).
  { split; [done|]. split; [done|]. exists []. rewrite app_nil_r.
    split; [done|constructor]. }
  destruct (negb _ || negb _); [done|].
  assert (H1 : I (add_mem_op (OpGetLastK WithMemory.session_memory_id (actor_of s0)
                                (session_of s0) 5 "main") s0)).
  { apply analyst_ops_add; [|done]. cbn. by rewrite Ha, Hsess. }
  by destruct (get_last_k_turns _ _ _ _ _ _) as [ex|[|t ts]].
Qed.
End AnalystOps.

Lemma analyst_ignores_project_id P e payload payload' sess s :
  (forall k, k <> "project_id" -> payload' !! k = payload !! k) ->
  WithMemory.game_analyst_agent P e payload' sess s
  = WithMemory.game_analyst_agent P e payload sess s.
Proof.
  intros Hsame. unfold WithMemory.game_analyst_agent, get_prompt.
  by rewrite !Hsame.
Qed.

(** The orchestrator with memory keeps its memory per user.  Every call one
    invocation makes on the memory service has the payload's [user_id]
    (["default-user"] when absent) as actor and the context's session: the
    load of the last five turns and the events of the session log, the
    events of the preferences memory, and the provider tool over the
    namespace [analyst/{user_id}/preferences].  The payload's [project_id]
    is read and never used: two payloads that differ only there give the
    same run. *)
Theorem analyst_memory_scoped_by_user :
  forall P e payload sess s,
    (forall payload',
        (forall k, k <> "project_id" -> payload' !! k = payload !! k) ->
        WithMemory.game_analyst_agent P e payload' sess s
        = WithMemory.game_analyst_agent P e payload sess s) /\
    exists ops,
      mem_ops (WithMemory.game_analyst_agent P e payload sess s).2 = mem_ops s ++ ops /\
      Forall (analyst_op_scoped (analyst_user_id payload) sess) ops.
Proof.
  intros P e payload sess s. split.
  - intros payload'. apply analyst_ignores_project_id.
  - destruct (e_memory_client e) as [ex|mc] eqn:Hmc.
    { rewrite (proj1 (constructor_failures_before_agent_call_aux P e payload sess s ex)
                 Hmc).
      exists []. by rewrite app_nil_r. }
    destruct (e_provider e (analyst_cfg payload sess)) as [ex|[]] eqn:Hcfg.
    { rewrite (proj2 (constructor_failures_before_agent_call_aux P e payload sess s ex)
                 mc Hmc Hcfg).
      exists []. by rewrite app_nil_r. }
    rewrite (game_analyst_agent_unfold _ _ _ _ _ mc Hmc Hcfg).
    pose proof (analyst_ops_new_agent payload sess (mem_ops s) P mc
                  (set_toolmetrics [] s) eq_refl) as Hnew.
    unfold bind.
    destruct (new_agent _ _ _ _) as [[ex|[]] s1] eqn:E; cbn [snd] in Hnew.
    { destruct Hnew as (_ & _ & H). exact H. }
    by destruct (analyst_ops_reply payload sess (mem_ops s) e mc s1 Hnew)
      as (_ & _ & H).
Qed.

Lemma analyst_memory_scoped_by_user_witness :
  WithMemory.game_analyst_agent "P" (env_ok recall_script) carol_project (PStr "s-1")
    fresh_state
  = WithMemory.game_analyst_agent "P" (env_ok recall_script) hello (PStr "s-1")
      fresh_state.
Proof.
  apply (proj1 (analyst_memory_scoped_by_user "P" (env_ok recall_script) hello
                  (PStr "s-1") fresh_state)).
  intros k Hk. unfold carol_project. by rewrite lookup_insert_ne.
Defined.

(* ================================================================== *)
(** * The operator's scripts *)

(** ** Python's [in] on strings *)

Lemma append_cons x p q : String x p +:+ q = String x (p +:+ q).
Proof. reflexivity. Qed.

Lemma prefix_nil s : String.prefix EmptyString s = true.
Proof. by destruct s. Qed.

Lemma prefix_cons x a y s :
  String.prefix (String x a) (String y s)
  = if Ascii.ascii_dec x y then String.prefix a s else false.
Proof. reflexivity. Qed.

Lemma prefix_spec a : forall s,
  String.prefix a s = true <-> exists q, s = a +:+ q.
Proof.
  induction a as [|x a IH]; intros s.
  - rewrite prefix_nil. split; [intros _; by exists s|done].
  - destruct s as [|y s].
    + split; [done|]. intros [q Hq]. by rewrite append_cons in Hq.
    + rewrite prefix_cons. destruct (Ascii.ascii_dec x y) as [->|Hne].
      * rewrite IH. split; intros [q Hq]; exists q.
        -- by rewrite append_cons, Hq.
        -- rewrite append_cons in Hq. congruence.
      * split; [done|]. intros [q Hq]. rewrite append_cons in Hq. congruence.
Qed.

Lemma contains_spec s : forall sub,
  contains s sub = true <-> exists p q, s = p +:+ sub +:+ q.
Proof.
  induction s as [|x s IH]; intros sub; cbn [contains].
  - rewrite orb_false_r, prefix_spec. split.
    + intros [q Hq]. by exists EmptyString, q.
    + intros (p & q & H). destruct p; [by exists q|].
      by rewrite append_cons in H.
  - rewrite orb_true_iff, prefix_spec, IH. split.
    + intros [[q Hq]|(p & q & Hq)].
      * by exists EmptyString, q.
      * exists (String x p), q. by rewrite append_cons, Hq.
    + intros (p & q & Hq). destruct p as [|y p].
      * left. by exists q.
      * right. exists p, q. rewrite append_cons in Hq. congruence.
Qed.

(** ** The deployment monad *)

Lemma ops_bind_inr {A B} (m : Ops.D A) (k : A -> Ops.D B) c x c1 :
  m c = (inr x, c1) -> Ops.bind m k c = k x c1.
Proof. intros H. unfold Ops.bind. by rewrite H. Qed.

Lemma ops_bind_inl {A B} (m : Ops.D A) (k : A -> Ops.D B) c f c1 :
  m c = (inl f, c1) -> Ops.bind m k c = (inl f, c1).
Proof. intros H. unfold Ops.bind. by rewrite H. Qed.

Lemma ops_bind_value {A B} (m : Ops.D A) (k : A -> Ops.D B) c v c' :
  Ops.bind m k c = (inr v, c') ->
  exists x c1, m c = (inr x, c1) /\ k x c1 = (inr v, c').
Proof.
  unfold Ops.bind. destruct (m c) as [[f|x] c1]; [done|]. intros H. by exists x, c1.
Qed.

Lemma add_slept_add a b c :
  Ops.add_slept a (Ops.add_slept b c) = Ops.add_slept (b + a) c.
Proof. unfold Ops.add_slept; cbn. f_equal. lia. Qed.

Lemma add_slept_zero c : Ops.add_slept 0 c = c.
Proof. destruct c. unfold Ops.add_slept; cbn. f_equal. lia. Qed.

(** ** check_status *)

Lemma poll_reaches sv rt t : forall m fuel i s c,
  s ∉ DeployNoMemories.end_status ->
  (forall j, j < m ->
     exists sj, Ops.rt_status sv rt (i + j) = inr sj /\
                sj ∉ DeployNoMemories.end_status) ->
  Ops.rt_status sv rt (i + m) = inr t ->
  t ∈ DeployNoMemories.end_status ->
  m < fuel ->
  DeployNoMemories.poll fuel sv rt i s c = (inr t, Ops.add_slept (10 * S m) c).
Proof.
  induction m as [|m IH]; intros fuel i s c Hs Hpend Ht Hend Hfuel.
  - destruct fuel as [|fuel]; [lia|]. cbn [DeployNoMemories.poll].
    rewrite bool_decide_eq_false_2 by done.
    rewrite Nat.add_0_r in Ht.
    unfold Ops.bind, Ops.time_sleep, Ops.modify, Ops.lift. rewrite Ht.
    destruct fuel; cbn [DeployNoMemories.poll];
      by rewrite bool_decide_eq_true_2.
  - destruct fuel as [|fuel]; [lia|]. cbn [DeployNoMemories.poll].
    rewrite bool_decide_eq_false_2 by done.
    destruct (Hpend 0) as (s0 & Hs0 & Hn0); [lia|]. rewrite Nat.add_0_r in Hs0.
    unfold Ops.bind at 1, Ops.time_sleep, Ops.modify. unfold Ops.bind at 1, Ops.lift.
    rewrite Hs0.
    rewrite (IH fuel (S i) s0 (Ops.add_slept 10 c)); try done; try lia.
    + rewrite add_slept_add. do 2 f_equal. lia.
    + intros j Hj. destruct (Hpend (S j)) as (sj & Hsj & Hnj); [lia|].
      exists sj. split; [|done]. by replace (S i + j) with (i + S j) by lia.
    + by replace (S i + m) with (i + S m) by lia.
Qed.

Lemma poll_unfinished sv rt : forall fuel i s c,
  s ∉ DeployNoMemories.end_status ->
  (forall j, j < fuel ->
     exists sj, Ops.rt_status sv rt (i + j) = inr sj /\
                sj ∉ DeployNoMemories.end_status) ->
  DeployNoMemories.poll fuel sv rt i s c
  = (inl Ops.Unfinished, Ops.add_slept (10 * fuel) c).
Proof.
  induction fuel as [|fuel IH]; intros i s c Hs Hpend; cbn [DeployNoMemories.poll];
    rewrite bool_decide_eq_false_2 by done.
  - by rewrite add_slept_zero.
  - destruct (Hpend 0) as (s0 & Hs0 & Hn0); [lia|]. rewrite Nat.add_0_r in Hs0.
    unfold Ops.bind at 1, Ops.time_sleep, Ops.modify. unfold Ops.bind at 1, Ops.lift.
    rewrite Hs0. rewrite (IH (S i) s0); [|done|].
    + rewrite add_slept_add. do 2 f_equal. lia.
    + intros j Hj. destruct (Hpend (S j)) as (sj & Hsj & Hnj); [lia|].
      exists sj. split; [|done]. by replace (S i + j) with (i + S j) by lia.
Qed.

Lemma check_status_final sv rt n t fuel c :
  pending sv rt n ->
  Ops.rt_status sv rt n = inr t ->
  t ∈ DeployNoMemories.end_status ->
  n <= fuel ->
  DeployNoMemories.check_status fuel sv rt c = (inr t, Ops.add_slept (10 * n) c).
Proof.
  intros Hpend Ht Hend Hfuel. unfold DeployNoMemories.check_status.
  destruct n as [|n].
  - unfold Ops.bind, Ops.lift. rewrite Ht.
    rewrite add_slept_zero.
    destruct fuel; cbn [DeployNoMemories.poll]; by rewrite bool_decide_eq_true_2.
  - destruct (Hpend 0) as (s0 & Hs0 & Hn0); [lia|].
    unfold Ops.bind, Ops.lift. rewrite Hs0.
    apply poll_reaches; try done; try lia.
    intros j Hj. apply Hpend. lia.
Qed.

Lemma check_status_cut sv rt n fuel c :
  pending sv rt n ->
  fuel < n ->
  DeployNoMemories.check_status fuel sv rt c
  = (inl Ops.Unfinished, Ops.add_slept (10 * fuel) c).
Proof.
  intros Hpend Hfuel. unfold DeployNoMemories.check_status.
  destruct (Hpend 0) as (s0 & Hs0 & Hn0); [lia|].
  unfold Ops.bind, Ops.lift. rewrite Hs0.
  apply poll_unfinished; [done|]. intros j Hj. apply Hpend. lia.
Qed.

(** [check_status] polls until the first final status.  When the polls
    before the [n]-th answer with a status that is not final and the [n]-th
    answers with a final one, the call returns that status after exactly [n]
    sleeps of ten seconds, whether it is [READY] or one of the three failure
    statuses; with room for fewer than [n] sleeps it has not returned.  A
    runtime that never reaches a final status is polled forever. *)
Theorem check_status_returns_first_final_status :
  forall sv rt,
    (forall n t fuel c,
        pending sv rt n ->
        Ops.rt_status sv rt n = inr t ->
        t ∈ DeployNoMemories.end_status ->
        (n <= fuel ->
         DeployNoMemories.check_status fuel sv rt c
         = (inr t, Ops.add_slept (10 * n) c)) /\
        (fuel < n ->
         DeployNoMemories.check_status fuel sv rt c
         = (inl Ops.Unfinished, Ops.add_slept (10 * fuel) c))) /\
    ((forall n, pending sv rt n) ->
     forall fuel c,
       DeployNoMemories.check_status fuel sv rt c
       = (inl Ops.Unfinished, Ops.add_slept (10 * fuel) c)).
Proof.
  intros sv rt. split.
  - intros n t fuel c Hpend Ht Hend. split.
    + by apply check_status_final.
    + by apply check_status_cut.
  - intros Hpend fuel c. apply (check_status_cut sv rt (S fuel)); [apply Hpend|lia].
Qed.

Lemma pending_slow : pending slow_services a_runtime 2.
Proof.
  intros i Hi. destruct i as [|[|i]]; [| |lia]; cbn.
  - exists "CREATING". split; [done|]. unfold DeployNoMemories.end_status.
    rewrite !elem_of_cons, elem_of_nil. intros [H|[H|[H|[H|[]]]]]; discriminate.
  - exists "CREATING". split; [done|]. unfold DeployNoMemories.end_status.
    rewrite !elem_of_cons, elem_of_nil. intros [H|[H|[H|[H|[]]]]]; discriminate.
Qed.

Lemma check_status_returns_first_final_status_witness :
  DeployNoMemories.check_status 5 slow_services a_runtime empty_cloud
  = (inr "READY", Ops.add_slept 20 empty_cloud) /\
  DeployNoMemories.check_status 1 slow_services a_runtime empty_cloud
  = (inl Ops.Unfinished, Ops.add_slept 10 empty_cloud).
Proof.
  split.
  - apply (proj1 (proj1 (check_status_returns_first_final_status slow_services
                           a_runtime) 2 "READY" 5 empty_cloud pending_slow eq_refl
                        ltac:(apply (bool_decide_unpack _); by vm_compute))).
    lia.
  - apply (proj2 (proj1 (check_status_returns_first_final_status slow_services
                           a_runtime) 2 "READY" 1 empty_cloud pending_slow eq_refl
                        ltac:(apply (bool_decide_unpack _); by vm_compute))).
    lia.
Defined.

(** ** deploy_agent *)

Lemma poll_state sv rt : forall fuel i s c,
  exists k, (DeployNoMemories.poll fuel sv rt i s c).2 = Ops.add_slept k c.
Proof.
  induction fuel as [|fuel IH]; intros i s c; cbn [DeployNoMemories.poll];
    case_bool_decide; try (exists 0; by rewrite add_slept_zero).
  unfold Ops.bind at 1, Ops.time_sleep, Ops.modify. unfold Ops.bind at 1, Ops.lift.
  destruct (Ops.rt_status sv rt i) as [e|s']; [by exists 10|].
  destruct (IH (S i) s' (Ops.add_slept 10 c)) as [k Hk].
  exists (10 + k). by rewrite Hk, add_slept_add.
Qed.

Lemma check_status_state fuel sv rt c :
  exists k, (DeployNoMemories.check_status fuel sv rt c).2 = Ops.add_slept k c.
Proof.
  unfold DeployNoMemories.check_status, Ops.bind, Ops.lift.
  destruct (Ops.rt_status sv rt 0) as [e|s]; [exists 0; by rewrite add_slept_zero|].
  apply poll_state.
Qed.

(** The steps of [deploy_agent] of deploy_with_memories.py, one by one. *)
Lemma deploy_agent_steps fuel sv dir file name role_arn param c :
  let rt := Ops.Runtime file role_arn (Ops.session_region sv) name in
  DeployWithMemories.deploy_agent fuel sv dir file name role_arn param c
  = match Ops.os_chdir sv dir with
    | inl e => (inl (Ops.Exc e), c)
    | inr _ =>
        let c1 := Ops.set_cwd dir c in
        match Ops.rt_configure sv rt with
        | inl e => (inl (Ops.Exc e), c1)
        | inr _ =>
            let c2 := Ops.add_launched rt c1 in
            match Ops.rt_launch sv rt with
            | inl e => (inl (Ops.Exc e), c2)
            | inr arn =>
                match DeployNoMemories.check_status fuel sv rt c2 with
                | (inl f, c3) => (inl f, c3)
                | (inr _, c3) =>
                    let c4 := Ops.set_parameters (<[param := arn]> (Ops.parameters c3))
                                c3 in
                    match Ops.os_chdir sv (Ops.cwd c) with
                    | inl e => (inl (Ops.Exc e), c4)
                    | inr _ => (inr arn, Ops.set_cwd (Ops.cwd c) c4)
                    end
                end
            end
        end
    end.
Proof.
  intros rt. unfold DeployWithMemories.deploy_agent.
  unfold Ops.bind at 1, Ops.getcwd, Ops.gets.
  unfold Ops.bind at 1. unfold Ops.chdir at 1, Ops.bind at 1, Ops.lift at 1.
  destruct (Ops.os_chdir sv dir) as [e|[]]; [done|].
  unfold Ops.modify at 1. cbv zeta.
  unfold Ops.bind at 1. unfold DeployWithMemories.configure_runtime, Ops.bind at 1.
  unfold Ops.runtime_configure, Ops.lift at 1. fold rt.
  destruct (Ops.rt_configure sv rt) as [e|[]]; [done|].
  unfold Ops.ret at 1. cbn [snd].
  unfold Ops.bind at 1. unfold Ops.runtime_launch, Ops.bind at 1, Ops.modify at 1.
  unfold Ops.lift at 1.
  destruct (Ops.rt_launch sv rt) as [e|arn]; [done|].
  unfold Ops.bind at 1. unfold DeployWithMemories.check_status.
  destruct (DeployNoMemories.check_status fuel sv rt _) as [[f|t] c3]; [done|].
  unfold Ops.bind at 1, Ops.ssm_put_parameter, Ops.modify at 1.
  unfold Ops.bind at 1. unfold Ops.chdir, Ops.bind at 1, Ops.lift at 1.
  by destruct (Ops.os_chdir sv (Ops.cwd c)) as [e|[]].
Qed.

(** With its role in place, [deploy_agent] of deploy_no_memories.py is that
    of deploy_with_memories.py at the role's ARN. *)
Lemma deploy_agent_with_role fuel sv dir file name role param c :
  is_Some (Ops.roles c !! role) ->
  DeployNoMemories.deploy_agent fuel sv dir file name role param c
  = DeployWithMemories.deploy_agent fuel sv dir file name (Ops.role_arn_of sv role)
      param c.
Proof.
  intros [doc Hrole].
  unfold DeployNoMemories.deploy_agent, DeployWithMemories.deploy_agent.
  unfold Ops.bind at 1, Ops.getcwd, Ops.gets.
  unfold Ops.bind at 1. symmetry.
  unfold Ops.bind at 1, Ops.getcwd, Ops.gets.
  unfold Ops.bind at 1. symmetry.
  destruct (Ops.chdir sv dir c) as [[f|[]] c1] eqn:E; [done|].
  assert (Hc1 : Ops.roles c1 = Ops.roles c).
  { unfold Ops.chdir, Ops.bind, Ops.lift, Ops.modify in E.
    destruct (Ops.os_chdir sv dir) as [e|[]]; [done|]. by injection E as <-. }
  unfold Ops.bind at 1.
  unfold DeployNoMemories.get_existing_role_arn, Ops.except_no_such_entity,
    Ops.iam_get_role. rewrite Hc1, Hrole. reflexivity.
Qed.

Lemma deploy_agent_without_role fuel sv dir file name role param c :
  Ops.roles c !! role = None ->
  DeployNoMemories.deploy_agent fuel sv dir file name role param c
  = match Ops.os_chdir sv dir with
    | inl e => (inl (Ops.Exc e), c)
    | inr _ => (inl (Ops.SystemExit 1), Ops.set_cwd dir c)
    end.
Proof.
  intros Hrole. unfold DeployNoMemories.deploy_agent.
  unfold Ops.bind at 1, Ops.getcwd, Ops.gets.
  unfold Ops.bind at 1. unfold Ops.chdir, Ops.bind at 1, Ops.lift at 1.
  destruct (Ops.os_chdir sv dir) as [e|[]]; [done|].
  unfold Ops.modify at 1. unfold Ops.bind at 1.
  unfold DeployNoMemories.get_existing_role_arn, Ops.except_no_such_entity,
    Ops.iam_get_role. cbn [Ops.roles Ops.set_cwd]. by rewrite Hrole.
Qed.

(** What a deployment that returns has done. *)
Lemma deploy_agent_value fuel sv dir file name role_arn param c arn c' :
  DeployWithMemories.deploy_agent fuel sv dir file name role_arn param c
  = (inr arn, c') ->
  let rt := Ops.Runtime file role_arn (Ops.session_region sv) name in
  Ops.rt_launch sv rt = inr arn /\
  Ops.parameters c' = <[param := arn]> (Ops.parameters c) /\
  Ops.launched c' = Ops.launched c ++ [(dir, rt)] /\
  Ops.cwd c' = Ops.cwd c /\ Ops.roles c' = Ops.roles c /\
  Ops.role_policies c' = Ops.role_policies c /\ Ops.invoked c' = Ops.invoked c.
Proof.
  rewrite deploy_agent_steps. cbv zeta.
  destruct (Ops.os_chdir sv dir) as [e|[]]; [done|].
  destruct (Ops.rt_configure sv _) as [e|[]]; [done|].
  destruct (Ops.rt_launch sv _) as [e|arn']; [done|].
  destruct (check_status_state fuel sv
              (Ops.Runtime file role_arn (Ops.session_region sv) name)
              (Ops.add_launched
                 (Ops.Runtime file role_arn (Ops.session_region sv) name)
                 (Ops.set_cwd dir c))) as [k Hk].
  destruct (DeployNoMemories.check_status fuel sv _ _) as [[f|t] c3]; [done|].
  cbn [snd] in Hk. subst c3.
  destruct (Ops.os_chdir sv (Ops.cwd c)) as [e|[]]; [done|].
  intros [= <- <-]. by cbn.
Qed.

(** What any deployment leaves alone. *)
Lemma deploy_agent_frame fuel sv dir file name role_arn param c :
  let c' := (DeployWithMemories.deploy_agent fuel sv dir file name role_arn param c).2 in
  Ops.roles c' = Ops.roles c /\ Ops.role_policies c' = Ops.role_policies c /\
  Ops.invoked c' = Ops.invoked c /\
  (forall k, k <> param -> Ops.parameters c' !! k = Ops.parameters c !! k) /\
  (Ops.cwd c' = Ops.cwd c \/ Ops.cwd c' = dir).
Proof.
  cbv zeta. rewrite deploy_agent_steps. cbv zeta.
  destruct (Ops.os_chdir sv dir) as [e|[]]; [by repeat split; eauto|].
  destruct (Ops.rt_configure sv _) as [e|[]]; [by repeat split; eauto|].
  destruct (Ops.rt_launch sv _) as [e|arn']; [by repeat split; eauto|].
  destruct (check_status_state fuel sv
              (Ops.Runtime file role_arn (Ops.session_region sv) name)
              (Ops.add_launched
                 (Ops.Runtime file role_arn (Ops.session_region sv) name)
                 (Ops.set_cwd dir c))) as [k Hk].
  destruct (DeployNoMemories.check_status fuel sv _ _) as [[f|t] c3];
    cbn [snd] in Hk; subst c3; [by repeat split; eauto|].
  destruct (Ops.os_chdir sv (Ops.cwd c)) as [e|[]]; cbn;
    (split; [done|]); (split; [done|]); (split; [done|]);
    (split; [intros k' Hk'; by rewrite lookup_insert_ne|]); eauto.
Qed.

Lemma not_final s :
  existsb (String.eqb s) DeployNoMemories.end_status = false ->
  s ∉ DeployNoMemories.end_status.
Proof.
  intros H Hin. apply list_elem_of_In in Hin.
  assert (existsb (String.eqb s) DeployNoMemories.end_status = true); [|congruence].
  apply existsb_exists. exists s. split; [done|]. apply String.eqb_refl.
Qed.

(** [deploy_agent] publishes the address whatever the final status.  When
    the directory can be entered and left, the role exists, and configure
    and launch succeed, the address returned by [launch] is stored under
    the parameter name as soon as polling ends, be the final status [READY]
    or [CREATE_FAILED], [DELETE_FAILED], [UPDATE_FAILED]; the call returns
    that address and the working directory is the one it started from.
    Both deployment scripts do so. *)
Theorem deploy_agent_publishes_whatever_final_status :
  forall fuel sv dir file name role param c arn t n,
    let rt := Ops.Runtime file (Ops.role_arn_of sv role) (Ops.session_region sv) name in
    Ops.os_chdir sv dir = inr tt ->
    Ops.os_chdir sv (Ops.cwd c) = inr tt ->
    is_Some (Ops.roles c !! role) ->
    Ops.rt_configure sv rt = inr tt ->
    Ops.rt_launch sv rt = inr arn ->
    pending sv rt n ->
    Ops.rt_status sv rt n = inr t ->
    t ∈ DeployNoMemories.end_status ->
    n <= fuel ->
    let c' := Ops.Cloud (Ops.cwd c) (<[param := arn]> (Ops.parameters c))
                (Ops.roles c) (Ops.role_policies c) (Ops.slept c + 10 * n)
                (Ops.launched c ++ [(dir, rt)]) (Ops.invoked c) in
    DeployNoMemories.deploy_agent fuel sv dir file name role param c = (inr arn, c') /\
    DeployWithMemories.deploy_agent fuel sv dir file name (Ops.role_arn_of sv role)
      param c = (inr arn, c').
Proof.
  intros fuel sv dir file name role param c arn t n rt Hin Hout Hrole Hconf Hlaunch
    Hpend Ht Hend Hfuel c'.
  rewrite deploy_agent_with_role by done.
  enough (H : DeployWithMemories.deploy_agent fuel sv dir file name
                (Ops.role_arn_of sv role) param c = (inr arn, c')) by done.
  rewrite deploy_agent_steps. cbv zeta. fold rt.
  rewrite Hin, Hconf, Hlaunch.
  rewrite (check_status_final sv rt n t fuel) by done.
  by rewrite Hout.
Qed.

Lemma deploy_agent_publishes_whatever_final_status_witness :
  DeployNoMemories.deploy_agent 3 failing_services "/agents/lore" "lore_agent.py"
    "lore_agent_no_memories" "agentcore-lore_agent_piscxw-role"
    "/agents/lore_agent_arn_no_memories" cloud_with_role
  = (inr "arn:runtime/lore_agent_no_memories",
     Ops.Cloud "/home"
       (<["/agents/lore_agent_arn_no_memories" := "arn:runtime/lore_agent_no_memories"]> ∅)
       {[ "agentcore-lore_agent_piscxw-role" := PNone ]} ∅ 10
       [("/agents/lore", lore_basic_runtime)] []).
Proof.
  refine (proj1 (deploy_agent_publishes_whatever_final_status 3 failing_services
                   "/agents/lore" "lore_agent.py" "lore_agent_no_memories"
                   "agentcore-lore_agent_piscxw-role"
                   "/agents/lore_agent_arn_no_memories" cloud_with_role
                   "arn:runtime/lore_agent_no_memories" "CREATE_FAILED" 1
                   eq_refl eq_refl _ eq_refl eq_refl _ eq_refl _ _)).
  - by eexists.
  - intros i Hi. destruct i as [|i]; [|lia].
    exists "CREATING". split; [reflexivity|]. by apply not_final.
  - apply (bool_decide_unpack _). by vm_compute.
  - lia.
Defined.

(** A deployment that fails does not go back.  Once the agent's directory is
    entered, every failure of [deploy_agent], in either script, leaves the
    process in that directory: [os.chdir(original_dir)] is reached on success
    only.  In deploy_no_memories.py a missing role ends the call by
    [sys.exit(1)] before anything is configured or launched. *)
Theorem failed_deploy_stays_in_agent_directory :
  forall fuel sv dir file name role role_arn param c,
    Ops.os_chdir sv dir = inr tt ->
    (forall f,
        (DeployWithMemories.deploy_agent fuel sv dir file name role_arn param c).1
        = inl f ->
        Ops.cwd (DeployWithMemories.deploy_agent fuel sv dir file name role_arn
                   param c).2 = dir) /\
    (forall f,
        (DeployNoMemories.deploy_agent fuel sv dir file name role param c).1
        = inl f ->
        Ops.cwd (DeployNoMemories.deploy_agent fuel sv dir file name role param c).2
        = dir) /\
    (Ops.roles c !! role = None ->
     DeployNoMemories.deploy_agent fuel sv dir file name role param c
     = (inl (Ops.SystemExit 1), Ops.set_cwd dir c)).
Proof.
  intros fuel sv dir file name role role_arn param c Hin.
  assert (Hwith : forall role_arn f,
             (DeployWithMemories.deploy_agent fuel sv dir file name role_arn param c).1
             = inl f ->
             Ops.cwd (DeployWithMemories.deploy_agent fuel sv dir file name role_arn
                        param c).2 = dir).
  { intros ra f. rewrite deploy_agent_steps. cbv zeta. rewrite Hin.
    destruct (Ops.rt_configure sv _) as [e|[]]; [done|].
    destruct (Ops.rt_launch sv _) as [e|arn']; [done|].
    destruct (check_status_state fuel sv
                (Ops.Runtime file ra (Ops.session_region sv) name)
                (Ops.add_launched
                   (Ops.Runtime file ra (Ops.session_region sv) name)
                   (Ops.set_cwd dir c))) as [k Hk].
    destruct (DeployNoMemories.check_status fuel sv _ _) as [[f'|t] c3];
      cbn [snd] in Hk; subst c3; [done|].
    by destruct (Ops.os_chdir sv (Ops.cwd c)) as [e|[]]. }
  split; [apply Hwith|]. split.
  - intros f. destruct (Ops.roles c !! role) as [doc|] eqn:Hrole.
    + rewrite deploy_agent_with_role by (by eexists). apply Hwith.
    + rewrite deploy_agent_without_role by done. by rewrite Hin.
  - intros Hrole. rewrite deploy_agent_without_role by done. by rewrite Hin.
Qed.

Lemma failed_deploy_stays_in_agent_directory_witness :
  Ops.cwd (DeployWithMemories.deploy_agent 3 no_launch_services "/agents/lore"
             "lore_agent.py" "lore_agent" "arn:role" "/agents/lore_agent_arn"
             empty_cloud).2 = "/agents/lore" /\
  DeployNoMemories.deploy_agent 3 slow_services "/agents/lore" "lore_agent.py"
    "lore_agent_no_memories" "agentcore-lore_agent_piscxw-role"
    "/agents/lore_agent_arn_no_memories" empty_cloud
  = (inl (Ops.SystemExit 1), Ops.set_cwd "/agents/lore" empty_cloud).
Proof.
  split.
  - exact (proj1 (failed_deploy_stays_in_agent_directory 3 no_launch_services
                    "/agents/lore" "lore_agent.py" "lore_agent" "r" "arn:role"
                    "/agents/lore_agent_arn" empty_cloud eq_refl)
                 (Ops.Exc (ServiceError "build failed")) eq_refl).
  - exact (proj2 (proj2 (failed_deploy_stays_in_agent_directory 3 slow_services
                           "/agents/lore" "lore_agent.py" "lore_agent_no_memories"
                           "agentcore-lore_agent_piscxw-role" "arn:role"
                           "/agents/lore_agent_arn_no_memories" empty_cloud eq_refl))
                 eq_refl).
Defined.

(** ** deploy_no_memories.py: main *)

Lemma nomem_deploy_value fuel sv dir file name role param c arn c' :
  DeployNoMemories.deploy_agent fuel sv dir file name role param c = (inr arn, c') ->
  Ops.parameters c' = <[param := arn]> (Ops.parameters c).
Proof.
  destruct (Ops.roles c !! role) as [doc|] eqn:Hrole.
  - rewrite deploy_agent_with_role by (by eexists). intros H.
    by destruct (deploy_agent_value _ _ _ _ _ _ _ _ _ _ H) as (_ & ? & _).
  - rewrite deploy_agent_without_role by done.
    by destruct (Ops.os_chdir sv dir) as [e|[]].
Qed.

Lemma nomem_deploy_frame fuel sv dir file name role param c k :
  k <> param ->
  Ops.parameters (DeployNoMemories.deploy_agent fuel sv dir file name role param c).2
    !! k = Ops.parameters c !! k.
Proof.
  intros Hk. destruct (Ops.roles c !! role) as [doc|] eqn:Hrole.
  - rewrite deploy_agent_with_role by (by eexists).
    by apply (deploy_agent_frame fuel sv dir file name (Ops.role_arn_of sv role)
                param c).
  - rewrite deploy_agent_without_role by done.
    by destruct (Ops.os_chdir sv dir) as [e|[]].
Qed.

Lemma deploy_each_cons fuel sv a rest d c :
  DeployNoMemories.deploy_each fuel sv (a :: rest) d c
  = match DeployNoMemories.deploy_agent fuel sv (DeployNoMemories.a_dir a)
            (DeployNoMemories.a_file a) (DeployNoMemories.a_name a)
            (DeployNoMemories.a_role a) (DeployNoMemories.a_param a) c with
    | (inr arn, c') =>
        DeployNoMemories.deploy_each fuel sv rest
          (DeployNoMemories.dict_set d (DeployNoMemories.a_name a) arn) c'
    | (inl f, c') =>
        if Ops.is_exception f then DeployNoMemories.deploy_each fuel sv rest d c'
        else (inl f, c')
    end.
Proof.
  cbn [DeployNoMemories.deploy_each]. unfold Ops.bind at 1, Ops.try_except.
  unfold Ops.bind at 1.
  destruct (DeployNoMemories.deploy_agent _ _ _ _ _ _ _ _) as [[f|arn] c']; [|done].
  by destruct (Ops.is_exception f).
Qed.

Lemma deploy_each_no_exception fuel sv : forall agents d c f,
  (DeployNoMemories.deploy_each fuel sv agents d c).1 = inl f ->
  Ops.is_exception f = false.
Proof.
  induction agents as [|a rest IH]; intros d c f; [done|].
  rewrite deploy_each_cons.
  destruct (DeployNoMemories.deploy_agent _ _ _ _ _ _ _ _) as [[f'|arn] c'];
    [|apply IH].
  destruct (Ops.is_exception f') eqn:E; [apply IH|]. by intros [= <-].
Qed.

(** The loop of [main] in deploy_no_memories.py keeps going after an
    exception and stops at [sys.exit].  An agent whose deployment raises an
    exception is skipped: the loop goes on with the next agent, the
    dictionary of deployed addresses unchanged.  An agent whose role is
    missing ends the whole script with exit code 1, since [SystemExit] is not
    an [Exception]: the agents after it are not deployed.  No exception
    leaves [main]. *)
Theorem main_skips_failures_and_exits_on_missing_role :
  forall fuel sv a rest d c,
    (forall f c',
        DeployNoMemories.deploy_agent fuel sv (DeployNoMemories.a_dir a)
          (DeployNoMemories.a_file a) (DeployNoMemories.a_name a)
          (DeployNoMemories.a_role a) (DeployNoMemories.a_param a) c = (inl f, c') ->
        Ops.is_exception f = true ->
        DeployNoMemories.deploy_each fuel sv (a :: rest) d c
        = DeployNoMemories.deploy_each fuel sv rest d c') /\
    (Ops.os_chdir sv (DeployNoMemories.a_dir a) = inr tt ->
     Ops.roles c !! DeployNoMemories.a_role a = None ->
     DeployNoMemories.deploy_each fuel sv (a :: rest) d c
     = (inl (Ops.SystemExit 1), Ops.set_cwd (DeployNoMemories.a_dir a) c)) /\
    (forall f,
        (DeployNoMemories.main fuel sv c).1 = inl f -> Ops.is_exception f = false).
Proof.
  intros fuel sv a rest d c. split; [|split].
  - intros f c' H Hf. by rewrite deploy_each_cons, H, Hf.
  - intros Hin Hrole. rewrite deploy_each_cons.
    rewrite deploy_agent_without_role by done. by rewrite Hin.
  - intros f. apply deploy_each_no_exception.
Qed.

Lemma main_skips_failures_and_exits_on_missing_role_witness :
  DeployNoMemories.main 3 no_directory_services empty_cloud = (inr [], empty_cloud) /\
  DeployNoMemories.main 3 slow_services empty_cloud
  = (inl (Ops.SystemExit 1),
     Ops.set_cwd (DeployNoMemories.base_dir +:+ "/gameplay-agent-basic") empty_cloud).
Proof.
  split.
  - unfold DeployNoMemories.main, DeployNoMemories.agents.
    do 4 (erewrite (proj1 (main_skips_failures_and_exits_on_missing_role 3
                             no_directory_services _ _ [] empty_cloud)
                      (Ops.Exc (ServiceError "No such file or directory")) empty_cloud);
          [|reflexivity|reflexivity]).
    reflexivity.
  - exact (proj1 (proj2 (main_skips_failures_and_exits_on_missing_role 3 slow_services
                           _ _ [] empty_cloud)) eq_refl eq_refl).
Defined.

Lemma dict_lookup_set d k v : forall k',
  dict_lookup (DeployNoMemories.dict_set d k v) k'
  = if String.eqb k k' then Some v else dict_lookup d k'.
Proof.
  intros k'. unfold dict_lookup.
  induction d as [|[k0 v0] d IH]; cbn [DeployNoMemories.dict_set List.find fst].
  - destruct (String.eqb k k'); reflexivity.
  - destruct (String.eqb k0 k) eqn:E0.
    + apply String.eqb_eq in E0. subst k0. cbn [List.find fst].
      destruct (String.eqb k k') eqn:E; reflexivity.
    + cbn [List.find fst]. destruct (String.eqb k0 k') eqn:E1.
      * apply String.eqb_eq in E1. subst k0.
        rewrite String.eqb_sym in E0. by rewrite E0.
      * apply IH.
Qed.

Lemma deploy_each_tracks fuel sv : forall agents d c d',
  (DeployNoMemories.deploy_each fuel sv agents d c).1 = inr d' ->
  NoDup (map DeployNoMemories.a_name agents) ->
  NoDup (map DeployNoMemories.a_param agents) ->
  (forall a, a ∈ agents -> dict_lookup d (DeployNoMemories.a_name a) = None) ->
  let c' := (DeployNoMemories.deploy_each fuel sv agents d c).2 in
  (forall a arn,
      a ∈ agents ->
      dict_lookup d' (DeployNoMemories.a_name a) = Some arn ->
      Ops.parameters c' !! DeployNoMemories.a_param a = Some arn) /\
  (forall k, k ∉ map DeployNoMemories.a_name agents ->
             dict_lookup d' k = dict_lookup d k) /\
  (forall p, p ∉ map DeployNoMemories.a_param agents ->
             Ops.parameters c' !! p = Ops.parameters c !! p).
Proof.
  induction agents as [|a rest IH]; intros d c d' Hrun Hnames Hparams Hfresh; cbv zeta.
  - cbn in Hrun. injection Hrun as <-. cbn. split; [|done].
    intros a arn Ha. by apply elem_of_nil in Ha.
  - rewrite deploy_each_cons in Hrun |- *.
    cbn [map] in Hnames, Hparams.
    apply NoDup_cons in Hnames as [Hname Hnames].
    apply NoDup_cons in Hparams as [Hparam Hparams].
    pose proof (nomem_deploy_frame fuel sv (DeployNoMemories.a_dir a)
                  (DeployNoMemories.a_file a) (DeployNoMemories.a_name a)
                  (DeployNoMemories.a_role a) (DeployNoMemories.a_param a) c) as Hframe.
    pose proof (nomem_deploy_value fuel sv (DeployNoMemories.a_dir a)
                  (DeployNoMemories.a_file a) (DeployNoMemories.a_name a)
                  (DeployNoMemories.a_role a) (DeployNoMemories.a_param a) c) as Hvalue.
    destruct (DeployNoMemories.deploy_agent _ _ _ _ _ _ _ _) as [[f|arn0] c1].
    + destruct (Ops.is_exception f); [|done]. cbn [snd] in Hframe.
      destruct (IH d c1 d' Hrun Hnames Hparams) as (Hi & Hii & Hiii).
      { intros b Hb. apply Hfresh. by right. }
      split; [|split].
      * intros b arn Hb Hlook. apply elem_of_cons in Hb as [->|Hb]; [|by apply Hi].
        rewrite Hii in Hlook by done.
        rewrite Hfresh in Hlook by (by left). done.
      * intros k Hk. apply Hii. intros Hin. apply Hk. by right.
      * intros p Hp. rewrite Hiii by (intros Hin; apply Hp; by right).
        apply Hframe. intros ->. apply Hp. by left.
    + specialize (Hvalue arn0 c1 eq_refl).
      destruct (IH (DeployNoMemories.dict_set d (DeployNoMemories.a_name a) arn0) c1 d'
                  Hrun Hnames Hparams) as (Hi & Hii & Hiii).
      { intros b Hb. rewrite dict_lookup_set.
        destruct (String.eqb _ _) eqn:E; [|apply Hfresh; by right].
        apply String.eqb_eq in E. exfalso. apply Hname.
        rewrite E. apply list_elem_of_fmap. by exists b. }
      split; [|split].
      * intros b arn Hb Hlook. apply elem_of_cons in Hb as [->|Hb]; [|by apply Hi].
        rewrite Hii in Hlook by done. rewrite dict_lookup_set in Hlook.
        rewrite String.eqb_refl in Hlook. injection Hlook as <-.
        rewrite Hiii by done. rewrite Hvalue. apply lookup_insert_eq.
      * intros k Hk. rewrite Hii by (intros Hin; apply Hk; by right).
        rewrite dict_lookup_set.
        destruct (String.eqb _ _) eqn:E; [|done].
        apply String.eqb_eq in E. exfalso. apply Hk. subst k. by left.
      * intros p Hp. rewrite Hiii by (intros Hin; apply Hp; by right).
        rewrite Hvalue. apply lookup_insert_ne. intros <-. apply Hp. by left.
Qed.

Lemma basic_agents_distinct :
  NoDup (map DeployNoMemories.a_name DeployNoMemories.agents) /\
  NoDup (map DeployNoMemories.a_param DeployNoMemories.agents).
Proof.
  split; apply (bool_decide_unpack _); by vm_compute.
Qed.

(** The basic orchestrator finds what deploy_no_memories.py deployed.  When
    [main] ends, every agent listed in its summary has the summary's address
    under its parameter name, also when agents before or after it failed;
    each delegation tool of the basic orchestrator reads a name the script
    writes, so its lookup answers with the address deployed for its
    specialist. *)
Theorem basic_orchestrator_reads_deployed_addresses :
  forall fuel sv c deployed,
    (DeployNoMemories.main fuel sv c).1 = inr deployed ->
    (forall a arn,
        a ∈ DeployNoMemories.agents ->
        dict_lookup deployed (DeployNoMemories.a_name a) = Some arn ->
        Ops.parameters (DeployNoMemories.main fuel sv c).2
          !! DeployNoMemories.a_param a = Some arn) /\
    (forall d, exists a,
        a ∈ DeployNoMemories.agents /\
        DeployNoMemories.a_param a = arn_parameter OrchBasic d /\
        forall arn w s,
          dict_lookup deployed (DeployNoMemories.a_name a) = Some arn ->
          Basic.get_agent_arn
            (stored_parameters (Ops.parameters (DeployNoMemories.main fuel sv c).2) w)
            (delegate_name d) s
          = (inr arn, s)).
Proof.
  intros fuel sv c deployed Hrun.
  destruct basic_agents_distinct as [Hnames Hparams].
  destruct (deploy_each_tracks fuel sv DeployNoMemories.agents [] c deployed Hrun
              Hnames Hparams ltac:(done)) as (Hi & _ & _).
  split; [exact Hi|].
  intros d.
  assert (Hex : exists a, a ∈ DeployNoMemories.agents /\
                          DeployNoMemories.a_param a = arn_parameter OrchBasic d).
  { destruct d.
    - exists (DeployNoMemories.AgentEntry
                (DeployNoMemories.base_dir +:+ "/lore-agent-basic") "lore_agent.py"
                "lore_agent_no_memories" "agentcore-lore_agent_piscxw-role"
                "/agents/lore_agent_arn_no_memories").
      split; [|reflexivity]. apply list_elem_of_In. right. by left.
    - exists (DeployNoMemories.AgentEntry
                (DeployNoMemories.base_dir +:+ "/gameplay-agent-basic")
                "gameplay_agent.py" "gameplay_agent_no_memory"
                "agentcore-gameplay_agent_gbpz6w-role"
                "/agents/gameplay_agent_arn_no_memories").
      split; [|reflexivity]. apply list_elem_of_In. by left.
    - exists (DeployNoMemories.AgentEntry
                (DeployNoMemories.base_dir +:+ "/strategy-agent-basic")
                "strategy_agent.py" "strategy_agent_no_memories"
                "agentcore-strategy_agent_8zvhvo-role"
                "/agents/strategy_agent_arn_no_memories").
      split; [|reflexivity]. apply list_elem_of_In. right. right. by left. }
  destruct Hex as (a & Ha & Hp). exists a. split; [done|]. split; [done|].
  intros arn w s Hlook. specialize (Hi a arn Ha Hlook).
  unfold Basic.get_agent_arn, try_except, lift, stored_parameters.
  cbn [ssm_get_parameter].
  change ("/agents/" +:+ delegate_name d +:+ "_arn_no_memories")
    with (arn_parameter OrchBasic d).
  rewrite <- Hp. unfold DeployNoMemories.main in Hi. unfold DeployNoMemories.main.
  by rewrite Hi.
Qed.

Lemma basic_orchestrator_reads_deployed_addresses_witness :
  Ops.parameters (DeployNoMemories.main 3 slow_services cloud_with_basic_roles).2
    !! "/agents/lore_agent_arn_no_memories"
  = Some "arn:runtime/lore_agent_no_memories".
Proof.
  refine (proj1 (basic_orchestrator_reads_deployed_addresses 3 slow_services
                   cloud_with_basic_roles
                   [("gameplay_agent_no_memory", "arn:runtime/gameplay_agent_no_memory");
                    ("lore_agent_no_memories", "arn:runtime/lore_agent_no_memories");
                    ("strategy_agent_no_memories",
                     "arn:runtime/strategy_agent_no_memories");
                    ("game_analyst_agent_no_memories",
                     "arn:runtime/game_analyst_agent_no_memories")] _)
                (DeployNoMemories.AgentEntry
                   (DeployNoMemories.base_dir +:+ "/lore-agent-basic") "lore_agent.py"
                   "lore_agent_no_memories" "agentcore-lore_agent_piscxw-role"
                   "/agents/lore_agent_arn_no_memories")
                "arn:runtime/lore_agent_no_memories" _ _).
  - vm_compute. reflexivity.
  - apply list_elem_of_In. right. by left.
  - reflexivity.
Defined.

(** ** deploy_with_memories.py: roles and policies *)

Lemma create_agentcore_role_steps sv name region mids c :
  DeployWithMemories.create_agentcore_role sv name region mids c
  = match Ops.sts_account sv with
    | inl e => (inl (Ops.Exc e), c)
    | inr account_id =>
        let rn := "agentcore-" +:+ name +:+ "-role" in
        let c1 := match Ops.roles c !! rn with
                  | Some _ => c
                  | None =>
                      Ops.set_roles
                        (<[rn := DeployWithMemories.trust_policy region account_id]>
                           (Ops.roles c)) c
                  end in
        (inr (Ops.IamRole rn (Ops.role_arn_of sv rn)),
         Ops.set_role_policies
           (<[(rn, "AgentCorePolicy") :=
                DeployWithMemories.base_policy name region account_id mids]>
              (Ops.role_policies c1)) c1)
    end.
Proof.
  unfold DeployWithMemories.create_agentcore_role.
  unfold Ops.bind at 1, Ops.lift at 1.
  destruct (Ops.sts_account sv) as [e|account_id]; [done|]. cbv zeta.
  unfold Ops.bind at 1, Ops.except_already_exists, Ops.iam_create_role,
    Ops.iam_get_role.
  destruct (Ops.roles c !! _) as [doc|] eqn:Hrole.
  - rewrite Hrole. unfold Ops.bind, Ops.iam_put_role_policy, Ops.ret.
    by rewrite Hrole.
  - unfold Ops.bind, Ops.iam_put_role_policy, Ops.ret.
    cbn [Ops.roles Ops.set_roles]. by rewrite lookup_insert_eq.
Qed.

Lemma missing_in_base_policy name region account_id mids :
  VerifyFixes.missing_in (DeployWithMemories.base_policy name region account_id mids)
  = inr match mids with
        | Some (_ :: _) => []
        | _ => ["bedrock-agentcore:CreateEvent"; "bedrock-agentcore:ListMemories"]
        end.
Proof. destruct mids as [[|mid mids]|]; vm_compute; reflexivity. Qed.

Lemma create_role_effect sv name region mids c account_id :
  Ops.sts_account sv = inr account_id ->
  exists c',
    DeployWithMemories.create_agentcore_role sv name region mids c
    = (inr (Ops.IamRole (memory_role_name name)
              (Ops.role_arn_of sv (memory_role_name name))), c') /\
    Ops.role_policies c'
    = <[core_policy name := DeployWithMemories.base_policy name region account_id mids]>
        (Ops.role_policies c) /\
    Ops.roles c' !! memory_role_name name
    = Some (default (DeployWithMemories.trust_policy region account_id)
              (Ops.roles c !! memory_role_name name)) /\
    (forall k, k <> memory_role_name name -> Ops.roles c' !! k = Ops.roles c !! k) /\
    Ops.parameters c' = Ops.parameters c /\ Ops.cwd c' = Ops.cwd c /\
    Ops.launched c' = Ops.launched c /\ Ops.invoked c' = Ops.invoked c /\
    Ops.slept c' = Ops.slept c.
Proof.
  intros Hsts. rewrite create_agentcore_role_steps, Hsts. cbv zeta.
  fold (memory_role_name name). eexists. split; [reflexivity|].
  destruct (Ops.roles c !! memory_role_name name) as [doc|] eqn:Hrole; cbn.
  - by rewrite Hrole.
  - rewrite lookup_insert_eq.
    repeat split; try done. intros k Hk. by rewrite lookup_insert_ne.
Qed.

Lemma create_agentcore_role_needs_sts sv name region mids c r c' :
  DeployWithMemories.create_agentcore_role sv name region mids c = (inr r, c') ->
  exists account_id, Ops.sts_account sv = inr account_id.
Proof.
  rewrite create_agentcore_role_steps.
  destruct (Ops.sts_account sv) as [e|account_id]; [done|]. by exists account_id.
Qed.

(** What the four role creations of [main] leave behind. *)
Lemma create_roles_value sv region c r c' :
  DeployWithMemories.create_roles sv region c = (inr r, c') ->
  exists account_id,
    Ops.sts_account sv = inr account_id /\
    r = (Ops.IamRole (memory_role_name "gameplay_agent_mem")
           (Ops.role_arn_of sv (memory_role_name "gameplay_agent_mem")),
         Ops.IamRole (memory_role_name "lore_agent_mem")
           (Ops.role_arn_of sv (memory_role_name "lore_agent_mem")),
         Ops.IamRole (memory_role_name "strategy_agent_mem")
           (Ops.role_arn_of sv (memory_role_name "strategy_agent_mem")),
         Ops.IamRole (memory_role_name "game_analyst_mem")
           (Ops.role_arn_of sv (memory_role_name "game_analyst_mem"))) /\
    Ops.role_policies c' = created_policies region account_id (Ops.role_policies c) /\
    is_Some (Ops.roles c' !! memory_role_name "game_analyst_mem") /\
    Ops.parameters c' = Ops.parameters c /\ Ops.cwd c' = Ops.cwd c /\
    Ops.launched c' = Ops.launched c /\ Ops.invoked c' = Ops.invoked c.
Proof.
  unfold DeployWithMemories.create_roles. intros H.
  apply ops_bind_value in H as (r1 & c1 & H1 & H).
  destruct (create_agentcore_role_needs_sts _ _ _ _ _ _ _ H1) as [account_id Hsts].
  exists account_id. split; [done|].
  destruct (create_role_effect sv "gameplay_agent_mem" region
              (Some [DeployWithMemories.gameplay_memory_id]) c account_id Hsts)
    as (c1' & E1 & Hp1 & _ & _ & Hq1 & Hw1 & Hl1 & Hi1 & _).
  rewrite E1 in H1. injection H1 as <- <-.
  apply ops_bind_value in H as (r2 & c2 & H2 & H).
  destruct (create_role_effect sv "lore_agent_mem" region
              (Some [DeployWithMemories.lore_memory_id]) c1' account_id Hsts)
    as (c2' & E2 & Hp2 & _ & _ & Hq2 & Hw2 & Hl2 & Hi2 & _).
  rewrite E2 in H2. injection H2 as <- <-.
  apply ops_bind_value in H as (r3 & c3 & H3 & H).
  destruct (create_role_effect sv "strategy_agent_mem" region
              (Some [DeployWithMemories.strategy_memory_id]) c2' account_id Hsts)
    as (c3' & E3 & Hp3 & _ & _ & Hq3 & Hw3 & Hl3 & Hi3 & _).
  rewrite E3 in H3. injection H3 as <- <-.
  apply ops_bind_value in H as (r4 & c4 & H4 & H).
  destruct (create_role_effect sv "game_analyst_mem" region
              (Some [DeployWithMemories.user_prefs_memory_id;
                     DeployWithMemories.session_memory_id]) c3' account_id Hsts)
    as (c4' & E4 & Hp4 & Hr4 & _ & Hq4 & Hw4 & Hl4 & Hi4 & _).
  rewrite E4 in H4. injection H4 as <- <-.
  injection H as <- <-.
  split; [done|]. split.
  { unfold created_policies. by rewrite Hp4, Hp3, Hp2, Hp1. }
  split; [by rewrite Hr4|].
  split; [congruence|]. split; [congruence|]. split; congruence.
Qed.

(** ** verify_memory_agent_fixes.py *)

Lemma check_roles_cons rn rest b c :
  VerifyFixes.check_roles (rn :: rest) b c
  = VerifyFixes.check_roles rest
      (match Ops.role_policies c !! (rn, "AgentCorePolicy") with
       | Some doc =>
           match VerifyFixes.missing_in doc with
           | inr [] => b
           | _ => false
           end
       | None => false
       end) c.
Proof.
  cbn [VerifyFixes.check_roles]. unfold Ops.bind at 1, Ops.try_except.
  unfold Ops.bind at 1, Ops.iam_get_role_policy.
  destruct (Ops.role_policies c !! _) as [doc|]; [|done].
  unfold Ops.bind, Ops.lift.
  by destruct (VerifyFixes.missing_in doc) as [e|[|m ms]].
Qed.

Lemma check_roles_false : forall l c,
  VerifyFixes.check_roles l false c = (inr false, c).
Proof.
  induction l as [|rn rest IH]; intros c; [done|].
  rewrite check_roles_cons.
  destruct (Ops.role_policies c !! _) as [doc|]; [|apply IH].
  destruct (VerifyFixes.missing_in doc) as [e|[|m ms]]; apply IH.
Qed.

Lemma check_roles_good : forall l b c,
  (forall rn, rn ∈ l ->
     exists doc, Ops.role_policies c !! (rn, "AgentCorePolicy") = Some doc /\
                 VerifyFixes.missing_in doc = inr []) ->
  VerifyFixes.check_roles l b c = (inr b, c).
Proof.
  induction l as [|rn rest IH]; intros b c Hall; [done|].
  rewrite check_roles_cons.
  destruct (Hall rn) as (doc & Hdoc & Hmiss); [by left|].
  rewrite Hdoc, Hmiss. apply IH. intros rn' Hin. apply Hall. by right.
Qed.

Lemma check_roles_bad : forall l b c rn,
  rn ∈ l ->
  match Ops.role_policies c !! (rn, "AgentCorePolicy") with
  | Some doc => VerifyFixes.missing_in doc <> inr []
  | None => True
  end ->
  VerifyFixes.check_roles l b c = (inr false, c).
Proof.
  induction l as [|rn0 rest IH]; intros b c rn Hin Hbad.
  - by apply elem_of_nil in Hin.
  - rewrite check_roles_cons. apply elem_of_cons in Hin as [->|Hin].
    + destruct (Ops.role_policies c !! _) as [doc|]; [|apply check_roles_false].
      destruct (VerifyFixes.missing_in doc) as [e|[|m ms]];
        try apply check_roles_false. done.
    + by apply (IH _ c rn).
Qed.

Lemma created_policies_lookup region account_id before rn :
  rn ∈ VerifyFixes.memory_roles ->
  exists name mid mids,
    created_policies region account_id before !! (rn, "AgentCorePolicy")
    = Some (DeployWithMemories.base_policy name region account_id
              (Some (mid :: mids))).
Proof.
  unfold VerifyFixes.memory_roles, created_policies, core_policy.
  rewrite !elem_of_cons, elem_of_nil. intros [->|[->|[->|[->|[]]]]].
  - do 3 eexists. do 3 (rewrite lookup_insert_ne by (intros [= H]; discriminate)).
    apply lookup_insert_eq.
  - do 3 eexists. do 2 (rewrite lookup_insert_ne by (intros [= H]; discriminate)).
    apply lookup_insert_eq.
  - do 3 eexists. rewrite lookup_insert_ne by (intros [= H]; discriminate).
    apply lookup_insert_eq.
  - do 3 eexists. apply lookup_insert_eq.
Qed.

(** The verifier accepts exactly the roles created with memory identifiers.
    Right after the four role creations of [main] in deploy_with_memories.py
    [verify_iam_permissions] answers [True] and changes nothing: the role
    names it checks are the names [create_agentcore_role] builds, and each of
    its twelve required actions occurs in the policy written.  A role whose
    policy was written by [create_agentcore_role] without memory identifiers
    ([None] or the empty list), or that has no such policy, makes it answer
    [False]. *)
Theorem verifier_accepts_roles_created_with_memory_ids :
  (forall sv region c r c',
      DeployWithMemories.create_roles sv region c = (inr r, c') ->
      VerifyFixes.verify_iam_permissions c' = (inr true, c')) /\
  (forall c rn name region account_id mids,
      rn ∈ VerifyFixes.memory_roles ->
      Ops.role_policies c !! (rn, "AgentCorePolicy")
      = Some (DeployWithMemories.base_policy name region account_id mids) ->
      mids = None \/ mids = Some [] ->
      VerifyFixes.verify_iam_permissions c = (inr false, c)) /\
  (forall c rn,
      rn ∈ VerifyFixes.memory_roles ->
      Ops.role_policies c !! (rn, "AgentCorePolicy") = None ->
      VerifyFixes.verify_iam_permissions c = (inr false, c)).
Proof.
  split; [|split].
  - intros sv region c r c' H.
    destruct (create_roles_value _ _ _ _ _ H) as (account_id & _ & _ & Hpol & _).
    apply check_roles_good. intros rn Hrn. rewrite Hpol.
    destruct (created_policies_lookup region account_id (Ops.role_policies c) rn Hrn)
      as (name & mid & mids & Hdoc).
    eexists. split; [exact Hdoc|]. by rewrite missing_in_base_policy.
  - intros c rn name region account_id mids Hrn Hdoc Hmids.
    apply (check_roles_bad _ _ _ rn Hrn). rewrite Hdoc, missing_in_base_policy.
    by destruct Hmids as [->| ->].
  - intros c rn Hrn Hdoc. apply (check_roles_bad _ _ _ rn Hrn). by rewrite Hdoc.
Qed.

Lemma verifier_accepts_roles_created_with_memory_ids_witness :
  VerifyFixes.verify_iam_permissions
    (DeployWithMemories.create_roles slow_services "us-west-2" empty_cloud).2
  = (inr true,
     (DeployWithMemories.create_roles slow_services "us-west-2" empty_cloud).2) /\
  VerifyFixes.verify_iam_permissions empty_cloud = (inr false, empty_cloud).
Proof.
  split.
  - refine (proj1 verifier_accepts_roles_created_with_memory_ids slow_services
              "us-west-2" empty_cloud
              (Ops.IamRole (memory_role_name "gameplay_agent_mem")
                 (Ops.role_arn_of slow_services (memory_role_name "gameplay_agent_mem")),
               Ops.IamRole (memory_role_name "lore_agent_mem")
                 (Ops.role_arn_of slow_services (memory_role_name "lore_agent_mem")),
               Ops.IamRole (memory_role_name "strategy_agent_mem")
                 (Ops.role_arn_of slow_services (memory_role_name "strategy_agent_mem")),
               Ops.IamRole (memory_role_name "game_analyst_mem")
                 (Ops.role_arn_of slow_services (memory_role_name "game_analyst_mem")))
              _ _).
    vm_compute. reflexivity.
  - refine (proj2 (proj2 verifier_accepts_roles_created_with_memory_ids) empty_cloud
              "agentcore-lore_agent_mem-role" _ eq_refl).
    apply list_elem_of_In. right. by left.
Defined.

(** ** deploy_with_memories.py: main *)

Lemma ssm_get_parameter_value sv name c p c' :
  Ops.ssm_get_parameter sv name c = (inr p, c') ->
  c' = c /\ Ops.parameters c !! name = Some p.1 /\ p.2 = Ops.parameter_arn_of sv name.
Proof.
  unfold Ops.ssm_get_parameter.
  destruct (Ops.parameters c !! name) as [v|]; [|done]. by intros [= <- <-].
Qed.

Lemma add_orchestrator_permissions_value sv rn arns parns region c u c' :
  DeployWithMemories.add_orchestrator_permissions sv rn arns parns region c
  = (inr u, c') ->
  c' = Ops.set_role_policies
         (<[(rn, "SubAgentInvokePermissions") :=
              DeployWithMemories.orchestrator_policy arns parns]>
            (Ops.role_policies c)) c.
Proof.
  unfold DeployWithMemories.add_orchestrator_permissions, Ops.bind, Ops.lift.
  destruct (Ops.sts_account sv) as [e|account_id]; [done|].
  unfold Ops.iam_put_role_policy.
  destruct (Ops.roles c !! rn); [|done]. by intros [= <-].
Qed.

Lemma sub_agents_value fuel sv region gr lr sr ar c g l s c' :
  DeployWithMemories.sub_agents fuel sv region gr lr sr ar c = (inr (g, l, s), c') ->
  Ops.parameters c' !! "/agents/gameplay_agent_arn" = Some g /\
  Ops.parameters c' !! "/agents/lore_agent_arn" = Some l /\
  Ops.parameters c' !! "/agents/strategy_agent_arn" = Some s /\
  (forall k, k ∉ sub_agent_parameters ->
             Ops.parameters c' !! k = Ops.parameters c !! k) /\
  Ops.role_policies c'
  = <[(Ops.RoleName ar, "SubAgentInvokePermissions") :=
        DeployWithMemories.orchestrator_policy [g; l; s]
          (map (Ops.parameter_arn_of sv) sub_agent_parameters)]>
      (Ops.role_policies c) /\
  Ops.invoked c' = Ops.invoked c /\ Ops.roles c' = Ops.roles c /\
  Ops.cwd c' = Ops.cwd c /\
  Ops.launched c'
  = Ops.launched c ++
    if String.eqb (Ops.stdin_choice sv) "1" then
      [(DeployWithMemories.base_dir +:+ "/gameplay-agent-with-memory",
        Ops.Runtime "gameplay_agent.py" (Ops.Arn gr) (Ops.session_region sv)
          "gameplay_agent");
       (DeployWithMemories.base_dir +:+ "/lore-agent-with-memory",
        Ops.Runtime "lore_agent.py" (Ops.Arn lr) (Ops.session_region sv)
          "lore_agent");
       (DeployWithMemories.base_dir +:+ "/strategy-agent-with-memory",
        Ops.Runtime "strategy_agent.py" (Ops.Arn sr) (Ops.session_region sv)
          "strategy_agent")]
    else [].
Proof.
  unfold DeployWithMemories.sub_agents. cbv zeta.
  destruct (String.eqb (Ops.stdin_choice sv) "1") eqn:Hchoice.
  - intros H.
    apply ops_bind_value in H as (g0 & c1 & H1 & H).
    apply deploy_agent_value in H1 as (_ & Hp1 & Hl1 & Hw1 & Hr1 & Hq1 & Hi1).
    apply ops_bind_value in H as (l0 & c2 & H2 & H).
    apply deploy_agent_value in H2 as (_ & Hp2 & Hl2 & Hw2 & Hr2 & Hq2 & Hi2).
    apply ops_bind_value in H as (s0 & c3 & H3 & H).
    apply deploy_agent_value in H3 as (_ & Hp3 & Hl3 & Hw3 & Hr3 & Hq3 & Hi3).
    apply ops_bind_value in H as (pg & c4 & H4 & H).
    apply ssm_get_parameter_value in H4 as (-> & _ & Hpg).
    apply ops_bind_value in H as (pl & c5 & H5 & H).
    apply ssm_get_parameter_value in H5 as (-> & _ & Hpl).
    apply ops_bind_value in H as (ps & c6 & H6 & H).
    apply ssm_get_parameter_value in H6 as (-> & _ & Hps).
    apply ops_bind_value in H as (u & c7 & H7 & H).
    apply add_orchestrator_permissions_value in H7. subst c7.
    injection H as <- <- <- <-. cbn.
    rewrite Hp3, Hp2, Hp1, Hpg, Hpl, Hps.
    split; [do 2 (rewrite lookup_insert_ne by done); apply lookup_insert_eq|].
    split; [rewrite lookup_insert_ne by done; apply lookup_insert_eq|].
    split; [apply lookup_insert_eq|].
    split.
    { intros k Hk. unfold sub_agent_parameters in Hk.
      rewrite !not_elem_of_cons in Hk. destruct Hk as (? & ? & ? & _).
      by do 3 (rewrite lookup_insert_ne by done). }
    split; [congruence|]. split; [congruence|]. split; [congruence|].
    split; [congruence|].
    by rewrite Hl3, Hl2, Hl1, <- !app_assoc.
  - intros H.
    apply ops_bind_value in H as (vg & c1 & H1 & H).
    apply ssm_get_parameter_value in H1 as (-> & Hvg & _).
    apply ops_bind_value in H as (vl & c2 & H2 & H).
    apply ssm_get_parameter_value in H2 as (-> & Hvl & _).
    apply ops_bind_value in H as (vs & c3 & H3 & H).
    apply ssm_get_parameter_value in H3 as (-> & Hvs & _).
    apply ops_bind_value in H as (pg & c4 & H4 & H).
    apply ssm_get_parameter_value in H4 as (-> & _ & Hpg).
    apply ops_bind_value in H as (pl & c5 & H5 & H).
    apply ssm_get_parameter_value in H5 as (-> & _ & Hpl).
    apply ops_bind_value in H as (ps & c6 & H6 & H).
    apply ssm_get_parameter_value in H6 as (-> & _ & Hps).
    apply ops_bind_value in H as (u & c7 & H7 & H).
    apply add_orchestrator_permissions_value in H7. subst c7.
    injection H as <- <- <- <-. cbn.
    rewrite Hpg, Hpl, Hps.
    repeat (split; [done|]). by rewrite app_nil_r.
Qed.

(** What a run of [main] that returns has done. *)
Lemma main_value fuel sv c g l s a c' :
  DeployWithMemories.main fuel sv c = (inr (g, l, s, a), c') ->
  exists account_id,
    Ops.sts_account sv = inr account_id /\
    Ops.parameters c' !! "/agents/gameplay_agent_arn" = Some g /\
    Ops.parameters c' !! "/agents/lore_agent_arn" = Some l /\
    Ops.parameters c' !! "/agents/strategy_agent_arn" = Some s /\
    Ops.parameters c' !! "/agents/game_analyst_agent_arn" = Some a /\
    Ops.role_policies c'
    = <[(memory_role_name "game_analyst_mem", "SubAgentInvokePermissions") :=
          DeployWithMemories.orchestrator_policy [g; l; s]
            (map (Ops.parameter_arn_of sv) sub_agent_parameters)]>
        (created_policies (policy_region sv) account_id (Ops.role_policies c)) /\
    Ops.invoked c' = Ops.invoked c /\ Ops.cwd c' = Ops.cwd c /\
    Ops.launched c' = Ops.launched c ++ memory_launches sv.
Proof.
  unfold DeployWithMemories.main. cbv zeta. fold (policy_region sv). intros H.
  apply ops_bind_value in H as (created & c1 & H1 & H).
  apply create_roles_value in H1
    as (account_id & Hsts & -> & Hpol1 & Hrole1 & Hpar1 & Hcwd1 & Hl1 & Hi1).
  exists account_id. split; [done|].
  apply ops_bind_value in H as ([[g0 l0] s0] & c2 & H2 & H).
  apply sub_agents_value in H2
    as (Hg & Hl & Hs & _ & Hpol2 & Hi2 & _ & Hcwd2 & Hl2).
  apply ops_bind_value in H as (a0 & c3 & H3 & H).
  apply deploy_agent_value in H3 as (_ & Hp3 & Hl3 & Hw3 & Hr3 & Hq3 & Hi3).
  injection H as <- <- <- <- <-.
  rewrite Hp3.
  split; [by rewrite lookup_insert_ne by done|].
  split; [by rewrite lookup_insert_ne by done|].
  split; [by rewrite lookup_insert_ne by done|].
  split; [apply lookup_insert_eq|].
  split; [by rewrite Hq3, Hpol2, Hpol1|].
  split; [congruence|]. split; [congruence|].
  rewrite Hl3, Hl2, Hl1, <- app_assoc. unfold memory_launches.
  by destruct (String.eqb (Ops.stdin_choice sv) "1").
Qed.

Lemma orchestrator_policy_resources arns parns :
  first_resources (DeployWithMemories.orchestrator_policy arns parns)
  = map PStr (map (fun arn => arn +:+ "/runtime-endpoint/DEFAULT") arns ++ arns).
Proof. reflexivity. Qed.

(** The orchestrator with memory may invoke what it resolves.  When [main]
    of deploy_with_memories.py returns, under either choice of the operator,
    each delegation tool of the orchestrator resolves its parameter to the
    address [main] reports for that specialist, and the policy
    [SubAgentInvokePermissions] of the orchestrator's role lists that address
    and its [/runtime-endpoint/DEFAULT] endpoint, the qualifier the tools
    invoke with. *)
Theorem memory_orchestrator_may_invoke_what_it_resolves :
  forall fuel sv c arns c' d,
    DeployWithMemories.main fuel sv c = (inr arns, c') ->
    (forall w st,
        WithMemory.get_agent_arn (stored_parameters (Ops.parameters c') w)
          (delegate_name d) st
        = (inr (reported arns d), st)) /\
    exists doc,
      Ops.role_policies c'
        !! (memory_role_name "game_analyst_mem", "SubAgentInvokePermissions")
      = Some doc /\
      PStr (reported arns d) ∈ first_resources doc /\
      PStr (reported arns d +:+ "/runtime-endpoint/DEFAULT") ∈ first_resources doc.
Proof.
  intros fuel sv c [[[g l] s] a] c' d H.
  apply main_value in H
    as (account_id & _ & Hg & Hl & Hs & _ & Hpol & _).
  split.
  - intros w st. unfold WithMemory.get_agent_arn, lift, stored_parameters.
    cbn [ssm_get_parameter].
    destruct d; cbn [delegate_name reported].
    + change ("/agents/" +:+ "lore_agent" +:+ "_arn") with "/agents/lore_agent_arn".
      by rewrite Hl.
    + change ("/agents/" +:+ "gameplay_agent" +:+ "_arn")
        with "/agents/gameplay_agent_arn".
      by rewrite Hg.
    + change ("/agents/" +:+ "strategy_agent" +:+ "_arn")
        with "/agents/strategy_agent_arn".
      by rewrite Hs.
  - eexists. split; [rewrite Hpol; apply lookup_insert_eq|].
    rewrite orchestrator_policy_resources.
    destruct d; cbn [reported map app]; split; apply list_elem_of_In; cbn; tauto.
Qed.

Lemma memory_orchestrator_may_invoke_what_it_resolves_witness :
  WithMemory.get_agent_arn
    (stored_parameters
       (Ops.parameters
          (DeployWithMemories.main 3 orchestrator_only_services
             cloud_with_sub_agents).2)
       (replying good_reply))
    "lore_agent" fresh_state
  = (inr "arn:l", fresh_state).
Proof.
  refine (proj1 (memory_orchestrator_may_invoke_what_it_resolves 3
                   orchestrator_only_services cloud_with_sub_agents
                   ("arn:g", "arn:l", "arn:s", "arn:runtime/game_analyst_agent")
                   _ Lore _) (replying good_reply) fresh_state).
  vm_compute. reflexivity.
Defined.

(** ** test_agent.py *)

Lemma test_each_invokes sv : forall agents c,
  TestAgent.test_each sv agents c
  = (inr tt,
     Ops.Cloud (Ops.cwd c) (Ops.parameters c) (Ops.roles c) (Ops.role_policies c)
       (Ops.slept c) (Ops.launched c)
       (Ops.invoked c ++ test_invocations (Ops.parameters c) agents)).
Proof.
  induction agents as [|[[name param] prompt] rest IH]; intros c.
  - cbn. rewrite app_nil_r. by destruct c.
  - cbn [TestAgent.test_each]. unfold Ops.bind at 1, Ops.try_except at 1.
    unfold Ops.bind at 1, Ops.ssm_get_parameter.
    assert (Hcons : test_invocations (Ops.parameters c) ((name, param, prompt) :: rest)
                    = match Ops.parameters c !! param with
                      | Some arn =>
                          Ops.Invocation arn "DEFAULT" (TestAgent.test_payload prompt)
                          :: test_invocations (Ops.parameters c) rest
                      | None => test_invocations (Ops.parameters c) rest
                      end).
    { destruct (Ops.parameters c !! param) eqn:E;
        unfold test_invocations; cbn [omap list_omap fst snd]; by rewrite E. }
    rewrite Hcons. clear Hcons.
    destruct (Ops.parameters c !! param) as [arn|] eqn:Hp.
    + unfold TestAgent.test_agent, Ops.try_except, Ops.bind, Ops.invoke_agent_runtime,
        Ops.bind, Ops.modify, Ops.lift, Ops.ret. cbn [fst].
      destruct (Ops.invoke_outcome sv _) as [e|body]; cbn [Ops.is_exception];
        rewrite IH; cbn; by rewrite <- app_assoc.
    + cbn [Ops.is_exception]. unfold Ops.ret. by rewrite IH.
Qed.

(** The smoke test invokes what is stored and lets nothing escape.  The
    script invokes, in the order of its list, each agent whose parameter
    exists, with qualifier [DEFAULT] and a payload carrying the prompt, the
    user [test-user] and the project [new-world-aternum]; a missing parameter
    or a failing invocation is skipped, and the script ends normally whatever
    the invocations answer.  Run after a [main] of deploy_with_memories.py
    that returned, it invokes exactly the four addresses [main] reported. *)
Theorem smoke_test_invokes_stored_agents :
  (forall sv c,
      TestAgent.run_tests sv c
      = (inr tt,
         Ops.Cloud (Ops.cwd c) (Ops.parameters c) (Ops.roles c) (Ops.role_policies c)
           (Ops.slept c) (Ops.launched c)
           (Ops.invoked c ++ test_invocations (Ops.parameters c) TestAgent.agents))) /\
  (forall fuel sv c g l s a c',
      DeployWithMemories.main fuel sv c = (inr (g, l, s, a), c') ->
      map Ops.agentRuntimeArn (Ops.invoked (TestAgent.run_tests sv c').2)
      = map Ops.agentRuntimeArn (Ops.invoked c) ++ [g; l; s; a]).
Proof.
  split.
  - intros sv c. apply test_each_invokes.
  - intros fuel sv c g l s a c' H.
    apply main_value in H
      as (account_id & _ & Hg & Hl & Hs & Ha & _ & Hinv & _).
    unfold TestAgent.run_tests. rewrite test_each_invokes. cbn [snd Ops.invoked].
    rewrite map_app, Hinv. f_equal.
    unfold test_invocations, TestAgent.agents. cbn [omap list_omap fst snd].
    rewrite Hg, Hl, Hs, Ha. reflexivity.
Qed.

Lemma smoke_test_invokes_stored_agents_witness :
  map Ops.agentRuntimeArn
    (Ops.invoked
       (TestAgent.run_tests orchestrator_only_services
          (DeployWithMemories.main 3 orchestrator_only_services
             cloud_with_sub_agents).2).2)
  = ["arn:g"; "arn:l"; "arn:s"; "arn:runtime/game_analyst_agent"].
Proof.
  refine (proj2 smoke_test_invokes_stored_agents 3 orchestrator_only_services
            cloud_with_sub_agents "arn:g" "arn:l" "arn:s"
            "arn:runtime/game_analyst_agent" _ _).
  vm_compute. reflexivity.
Defined.

(** [create_agentcore_role] rewrites the permissions and keeps the trust.
    With the caller's account known, the call returns the role named
    [agentcore-{agent_name}-role], whether it created it or found it, and
    the role's [AgentCorePolicy] is the policy built from the arguments,
    replacing any earlier one.  A role that existed keeps the trust policy
    it was created with: calling again for another region rewrites the
    permissions for that region and leaves the trust policy of the first
    region in place.  When the account cannot be read nothing is created or
    written. *)
Theorem create_agentcore_role_rewrites_policy_keeps_trust :
  forall sv name region mids c,
    (forall account_id,
        Ops.sts_account sv = inr account_id ->
        let run := DeployWithMemories.create_agentcore_role sv name region mids c in
        run.1 = inr (Ops.IamRole (memory_role_name name)
                       (Ops.role_arn_of sv (memory_role_name name))) /\
        Ops.role_policies run.2 !! core_policy name
        = Some (DeployWithMemories.base_policy name region account_id mids) /\
        Ops.roles run.2 !! memory_role_name name
        = Some (default (DeployWithMemories.trust_policy region account_id)
                  (Ops.roles c !! memory_role_name name)) /\
        forall region' mids',
          let again :=
            DeployWithMemories.create_agentcore_role sv name region' mids' run.2 in
          again.1 = run.1 /\
          Ops.roles again.2 = Ops.roles run.2 /\
          Ops.role_policies again.2 !! core_policy name
          = Some (DeployWithMemories.base_policy name region' account_id mids')) /\
    (forall e,
        Ops.sts_account sv = inl e ->
        DeployWithMemories.create_agentcore_role sv name region mids c
        = (inl (Ops.Exc e), c)).
Proof.
  intros sv name region mids c. split.
  - intros account_id Hsts. cbv zeta.
    destruct (create_role_effect sv name region mids c account_id Hsts)
      as (c1 & E1 & Hp1 & Hr1 & _).
    rewrite E1. cbn [fst snd].
    split; [done|]. split; [by rewrite Hp1, lookup_insert_eq|]. split; [done|].
    intros region' mids'.
    rewrite create_agentcore_role_steps, Hsts. cbv zeta.
    fold (memory_role_name name). rewrite Hr1. cbn [fst snd Ops.roles
      Ops.role_policies Ops.set_role_policies].
    split; [done|]. split; [done|]. apply lookup_insert_eq.
  - intros e Hsts. by rewrite create_agentcore_role_steps, Hsts.
Qed.

Lemma create_agentcore_role_rewrites_policy_keeps_trust_witness :
  Ops.roles (DeployWithMemories.create_agentcore_role slow_services "lore_agent_mem"
               "us-west-2" (Some [DeployWithMemories.lore_memory_id])
               cloud_with_old_role).2
    !! "agentcore-lore_agent_mem-role"
  = Some (DeployWithMemories.trust_policy "eu-west-1" "123456789012").
Proof.
  exact (proj1 (proj2 (proj2 (proj1 (create_agentcore_role_rewrites_policy_keeps_trust
                                       slow_services "lore_agent_mem" "us-west-2"
                                       (Some [DeployWithMemories.lore_memory_id])
                                       cloud_with_old_role)
                                    "123456789012" eq_refl)))).
Defined.

Lemma event_resources_base_policy name region account_id mid mids :
  event_resources (DeployWithMemories.base_policy name region account_id
                     (Some (mid :: mids)))
  = map PStr (map (DeployWithMemories.memory_arn region account_id) (mid :: mids)).
Proof. rewrite <- (app_nil_r (map PStr _)). vm_compute. reflexivity. Qed.

Lemma created_policies_core region account_id before name :
  name ∈ ["gameplay_agent_mem"; "lore_agent_mem"; "strategy_agent_mem";
          "game_analyst_mem"] ->
  exists mid mids,
    created_policies region account_id before !! core_policy name
    = Some (DeployWithMemories.base_policy name region account_id (Some (mid :: mids)))
    /\
    (name = "gameplay_agent_mem" -> mid :: mids = memories_of GameplayMemory) /\
    (name = "lore_agent_mem" -> mid :: mids = memories_of LoreMemory) /\
    (name = "strategy_agent_mem" -> mid :: mids = memories_of StrategyMemory) /\
    (name = "game_analyst_mem" -> mid :: mids = memories_of AnalystMemory).
Proof.
  unfold created_policies, core_policy, memory_role_name.
  rewrite !elem_of_cons, elem_of_nil. intros [->|[->|[->|[->|[]]]]].
  - do 2 eexists. split.
    + do 3 (rewrite lookup_insert_ne by (intros [= H]; discriminate)).
      apply lookup_insert_eq.
    + by repeat split.
  - do 2 eexists. split.
    + do 2 (rewrite lookup_insert_ne by (intros [= H]; discriminate)).
      apply lookup_insert_eq.
    + by repeat split.
  - do 2 eexists. split.
    + rewrite lookup_insert_ne by (intros [= H]; discriminate).
      apply lookup_insert_eq.
    + by repeat split.
  - do 2 eexists. split; [apply lookup_insert_eq|]. by repeat split.
Qed.

(** Each agent is launched under a role that grants the memories its code
    reaches.  When [main] of deploy_with_memories.py returns, the runtimes
    it launched are the orchestrator and, under choice 1, the three
    specialists before it; each was launched from its own directory with the
    role created for it, and the [AgentCorePolicy] of that role allows
    [bedrock-agentcore:CreateEvent] on the memory identifiers the agent's
    entrypoint uses: the memory of its setup for a specialist, the
    preferences memory and the session log for the orchestrator. *)
Theorem launched_agents_run_under_roles_granting_their_memories :
  forall fuel sv c arns c',
    DeployWithMemories.main fuel sv c = (inr arns, c') ->
    exists account_id,
      Ops.sts_account sv = inr account_id /\
      Ops.launched c' = Ops.launched c ++ memory_launches sv /\
      forall dir rt,
        (dir, rt) ∈ memory_launches sv ->
        exists ep role doc,
          entrypoint_of_file (Ops.entrypoint rt) = Some ep /\
          Ops.execution_role rt = Ops.role_arn_of sv (memory_role_name role) /\
          Ops.role_policies c' !! core_policy role = Some doc /\
          forall mid,
            mid ∈ memories_of ep ->
            PStr (DeployWithMemories.memory_arn (policy_region sv) account_id mid)
              ∈ event_resources doc.
Proof.
  intros fuel sv c [[[g l] s] a] c' H.
  apply main_value in H
    as (account_id & Hsts & _ & _ & _ & _ & Hpol & _ & _ & Hlaunched).
  exists account_id. split; [done|]. split; [done|].
  assert (Hrole : forall role ep,
             role ∈ ["gameplay_agent_mem"; "lore_agent_mem"; "strategy_agent_mem";
                     "game_analyst_mem"] ->
             (role = "gameplay_agent_mem" -> ep = GameplayMemory) ->
             (role = "lore_agent_mem" -> ep = LoreMemory) ->
             (role = "strategy_agent_mem" -> ep = StrategyMemory) ->
             (role = "game_analyst_mem" -> ep = AnalystMemory) ->
             exists doc,
               Ops.role_policies c' !! core_policy role = Some doc /\
               forall mid,
                 mid ∈ memories_of ep ->
                 PStr (DeployWithMemories.memory_arn (policy_region sv) account_id mid)
                   ∈ event_resources doc).
  { intros role ep Hin Hg' Hl' Hs' Ha'.
    destruct (created_policies_core (policy_region sv) account_id
                (Ops.role_policies c) role Hin)
      as (mid & mids & Hdoc & Mg & Ml & Ms & Ma).
    eexists. split.
    - rewrite Hpol. rewrite lookup_insert_ne; [exact Hdoc|].
      unfold core_policy. intros Heq. apply (f_equal snd) in Heq. discriminate Heq.
    - rewrite event_resources_base_policy. intros m Hm.
      apply list_elem_of_fmap. exists (DeployWithMemories.memory_arn
                                       (policy_region sv) account_id m).
      split; [done|]. apply list_elem_of_fmap. exists m. split; [done|].
      assert (Heq : memories_of ep = mid :: mids); [|by rewrite <- Heq].
      clear Hm. revert Hin. rewrite !elem_of_cons, elem_of_nil.
      intros [E|[E|[E|[E|[]]]]].
      + by rewrite (Hg' E), (Mg E).
      + by rewrite (Hl' E), (Ml E).
      + by rewrite (Hs' E), (Ms E).
      + by rewrite (Ha' E), (Ma E). }
  intros dir rt. unfold memory_launches, sub_agent_launches, orchestrator_launch,
    memory_launch.
  destruct (String.eqb (Ops.stdin_choice sv) "1"); cbn [app];
    rewrite ?elem_of_cons, elem_of_nil.
  - intros [[= -> ->]|[[= -> ->]|[[= -> ->]|[[= -> ->]|[]]]]].
    + destruct (Hrole "gameplay_agent_mem" GameplayMemory) as (doc & Hdoc & Hres);
        try done; [apply list_elem_of_In; cbn; tauto|].
      by exists GameplayMemory, "gameplay_agent_mem", doc.
    + destruct (Hrole "lore_agent_mem" LoreMemory) as (doc & Hdoc & Hres);
        try done; [apply list_elem_of_In; cbn; tauto|].
      by exists LoreMemory, "lore_agent_mem", doc.
    + destruct (Hrole "strategy_agent_mem" StrategyMemory) as (doc & Hdoc & Hres);
        try done; [apply list_elem_of_In; cbn; tauto|].
      by exists StrategyMemory, "strategy_agent_mem", doc.
    + destruct (Hrole "game_analyst_mem" AnalystMemory) as (doc & Hdoc & Hres);
        try done; [apply list_elem_of_In; cbn; tauto|].
      by exists AnalystMemory, "game_analyst_mem", doc.
  - intros [[= -> ->]|[]].
    destruct (Hrole "game_analyst_mem" AnalystMemory) as (doc & Hdoc & Hres);
      try done; [apply list_elem_of_In; cbn; tauto|].
    by exists AnalystMemory, "game_analyst_mem", doc.
Qed.

Lemma launched_agents_run_under_roles_granting_their_memories_witness :
  exists account_id,
    Ops.sts_account orchestrator_only_services = inr account_id /\
    Ops.launched (DeployWithMemories.main 3 orchestrator_only_services
                    cloud_with_sub_agents).2
    = Ops.launched cloud_with_sub_agents
      ++ memory_launches orchestrator_only_services.
Proof.
  destruct (launched_agents_run_under_roles_granting_their_memories 3
              orchestrator_only_services cloud_with_sub_agents
              ("arn:g", "arn:l", "arn:s", "arn:runtime/game_analyst_agent")
              (DeployWithMemories.main 3 orchestrator_only_services
                 cloud_with_sub_agents).2)
    as (account_id & Hsts & Hl & _).
  - vm_compute. reflexivity.
  - by exists account_id.
Defined.

(** The policies and the runtimes share a region only when [AWS_REGION] is
    set.  [main] of deploy_with_memories.py writes the four policies for the
    region [os.getenv("AWS_REGION", "us-west-2")], while every runtime it
    launches is configured for the region of a session built from
    [os.getenv("AWS_REGION")]: the same region when the variable is set;
    [us-west-2] on one side and the profile's region on the other when it is
    not. *)
Theorem policies_and_runtimes_share_region_when_set :
  forall fuel sv c arns c',
    DeployWithMemories.main fuel sv c = (inr arns, c') ->
    (exists account_id,
        forall rn, rn ∈ VerifyFixes.memory_roles ->
          exists name mids,
            Ops.role_policies c' !! (rn, "AgentCorePolicy")
            = Some (DeployWithMemories.base_policy name (policy_region sv) account_id
                      mids)) /\
    (exists new, new <> [] /\
        Ops.launched c' = Ops.launched c ++ new /\
        Forall (fun e => Ops.region e.2 = Ops.session_region sv) new) /\
    (forall r, Ops.env_AWS_REGION sv = Some r ->
               policy_region sv = r /\ Ops.session_region sv = Some r) /\
    (Ops.env_AWS_REGION sv = None ->
     policy_region sv = "us-west-2" /\ Ops.session_region sv = Ops.profile_region sv).
Proof.
  intros fuel sv c [[[g l] s] a] c' H.
  apply main_value in H
    as (account_id & Hsts & _ & _ & _ & _ & Hpol & _ & _ & Hlaunched).
  split; [|split; [|split]].
  - exists account_id. intros rn Hrn.
    destruct (created_policies_lookup (policy_region sv) account_id
                (Ops.role_policies c) rn Hrn) as (name & mid & mids & Hdoc).
    exists name, (Some (mid :: mids)). rewrite Hpol.
    rewrite lookup_insert_ne; [done|].
    intros Heq. apply (f_equal snd) in Heq. discriminate Heq.
  - exists (memory_launches sv). split; [|split; [done|]].
    + unfold memory_launches. by destruct (String.eqb _ _).
    + unfold memory_launches, sub_agent_launches, orchestrator_launch, memory_launch.
      destruct (String.eqb _ _); by repeat constructor.
  - intros r Hr. unfold policy_region, Ops.session_region. by rewrite Hr.
  - intros Hr. unfold policy_region, Ops.session_region. by rewrite Hr.
Qed.

Lemma policies_and_runtimes_share_region_when_set_witness :
  policy_region orchestrator_only_services = "us-west-2" /\
  Ops.session_region orchestrator_only_services = Some "eu-west-1".
Proof.
  exact (proj2 (proj2 (proj2 (policies_and_runtimes_share_region_when_set 3
                                orchestrator_only_services cloud_with_sub_agents
                                ("arn:g", "arn:l", "arn:s",
                                 "arn:runtime/game_analyst_agent")
                                (DeployWithMemories.main 3 orchestrator_only_services
                                   cloud_with_sub_agents).2
                                ltac:(vm_compute; reflexivity))))
               eq_refl).
Defined.

(** ** verify_agent_code *)

Lemma check_files_false sv : forall agents, VerifyFixes.check_files sv agents false = false.
Proof.
  induction agents as [|[name id] rest IH]; [done|]. cbn [VerifyFixes.check_files].
  destruct (Ops.files sv !! _) as [content|]; [|done].
  destruct (contains content id); [done|].
  by destruct (contains content "{" && contains content "memory_id}").
Qed.

Lemma check_files_spec sv : forall agents,
  VerifyFixes.check_files sv agents true = true <->
  Forall (file_accepted sv) agents.
Proof.
  induction agents as [|[name id] rest IH]; [by split; [constructor|]|].
  cbn [VerifyFixes.check_files]. rewrite Forall_cons. unfold file_accepted at 1.
  cbn [fst snd].
  destruct (Ops.files sv !! VerifyFixes.agent_file name) as [content|].
  - destruct (contains content id) eqn:Hid.
    { rewrite IH. split; [|tauto]. intros H. split; [|done]. exists content. tauto. }
    destruct (contains content "{") eqn:Hb; cbn [andb].
    + destruct (contains content "memory_id}") eqn:Hm.
      * rewrite check_files_false. split; [done|].
        intros [(content' & [= <-] & [H|[H|H]]) _]; congruence.
      * rewrite IH. split; [|tauto]. intros H. split; [|done]. exists content. tauto.
    + rewrite IH. split; [|tauto]. intros H. split; [|done]. exists content. tauto.
  - rewrite check_files_false. split; [done|]. by intros [(content & H & _) _].
Qed.

(** [verify_agent_code] rejects a missing file and a placeholder, nothing
    else.  It answers [True] exactly when each of the three agent files
    exists and either contains the expected memory identifier or does not
    contain both an opening brace and the text [memory_id}].  A file with
    neither the identifier nor the placeholder is therefore accepted. *)
Theorem verify_agent_code_rejects_missing_file_or_placeholder :
  forall sv,
    VerifyFixes.verify_agent_code sv = true <->
    forall agent, agent ∈ VerifyFixes.agents -> file_accepted sv agent.
Proof.
  intros sv. unfold VerifyFixes.verify_agent_code.
  rewrite check_files_spec. apply Forall_forall.
Qed.

Lemma verify_agent_code_rejects_missing_file_or_placeholder_witness :
  VerifyFixes.verify_agent_code (services_with_files files_without_lore_id) = true /\
  VerifyFixes.verify_agent_code (services_with_files ∅) = false.
Proof.
  split.
  - apply (proj2 (verify_agent_code_rejects_missing_file_or_placeholder
                    (services_with_files files_without_lore_id))).
    intros agent. unfold VerifyFixes.agents.
    rewrite !elem_of_cons, elem_of_nil. intros [->|[->|[->|[]]]].
    + eexists. split; [vm_compute; reflexivity|]. left. vm_compute. reflexivity.
    + eexists. split; [vm_compute; reflexivity|]. right. left. vm_compute. reflexivity.
    + eexists. split; [vm_compute; reflexivity|]. left. vm_compute. reflexivity.
  - destruct (VerifyFixes.verify_agent_code (services_with_files ∅)) eqn:E; [|done].
    apply (proj1 (verify_agent_code_rejects_missing_file_or_placeholder
                    (services_with_files ∅))) with (agent := ("lore", "Project_lore_78f09820-iidpdZ4wfj")) in E.
    + destruct E as (content & H & _). vm_compute in H. discriminate.
    + apply list_elem_of_In. right. by left.
Defined.
